(** * Q-Chain transaction security analysis and signing gate

    A shallow embedding of the decision logic of
    [Quantum-PQC/quantum_api/main.py] and of the package
    [Quantum-PQC/quantum_api/cryptanalysis/] (replay, downgrade, sidechannel,
    zkp_layer, analyzer, fraud_mapper), followed by the properties the
    specification states about them.

    Conventions of the embedding.
    - A Python [str] is a [string]; a character is its code point, so the
      model covers code points 0..255.
    - A Python [float] is a rational [Q]: comparisons are exact, NaN and the
      infinities are outside the model.
    - A Python [dict] whose order can be observed (a transaction) is an
      association list in insertion order; the module level dictionary and
      set that hold state across requests are a [gmap] and a [gset].
    - A raised exception is [None] in an [option] result.
    - What the interpreter and its libraries provide and the repository only
      calls is a parameter: SHA-256, [repr] of a float, [str] of a dict and
      [int] of a string in the class [Builtins]; the random draws, the HTTP
      oracle and the signer, which is taken to return, in the arguments
      and in [Main.Env]. Module [Sha256] defines SHA-256 itself, and
      [Sample.python] puts it into [Builtins] for the examples. *)

From Stdlib Require Import ZArith QArith Ascii String.
From stdpp Require Import base strings list sorting pretty gmap.

Local Open Scope Z_scope.

(* ===================================================================== *)
(** * Python values                                                       *)
(* ===================================================================== *)

Module Py.

(** The scalar values a JSON document can carry. *)
Inductive pyval : Type :=
  | PNone
  | PBool (b : bool)
  | PInt (z : Z)
  | PFloat (q : Q)
  | PStr (s : string).

(** A flat JSON object, in insertion order. *)
Definition pydict : Type := list (string * pyval).

Definition keys (d : pydict) : list string := d.*1.

(** [d.get(k)]: the value bound to [k], [None] when absent. *)
Fixpoint get (d : pydict) (k : string) : option pyval :=
  match d with
  | [] => None
  | (k', v) :: d' => if String.eqb k' k then Some v else get d' k
  end.

(** [d.get(k, dflt)]. *)
Definition get_default (d : pydict) (k : string) (dflt : pyval) : pyval :=
  default dflt (get d k).

(** [k in d]. *)
Definition has_key (d : pydict) (k : string) : bool :=
  bool_decide (is_Some (get d k)).

Definition Qltb (x y : Q) : bool := negb (Qle_bool y x).

(** Booleans, integers and floats compare by numeric value. *)
Definition num (v : pyval) : option Q :=
  match v with
  | PBool b => Some (inject_Z (if b then 1 else 0))
  | PInt z => Some (inject_Z z)
  | PFloat q => Some q
  | PNone | PStr _ => None
  end.

(** [v == w]. *)
Definition eqb (v w : pyval) : bool :=
  match v, w with
  | PNone, PNone => true
  | PStr s, PStr t => String.eqb s t
  | _, _ =>
      match num v, num w with
      | Some x, Some y => Qeq_bool x y
      | _, _ => false
      end
  end.

(** [v != w]. *)
Definition neb (v w : pyval) : bool := negb (eqb v w).

(** [bool(v)]. *)
Definition truthy (v : pyval) : bool :=
  match v with
  | PNone => false
  | PBool b => b
  | PInt z => negb (z =? 0)
  | PFloat q => negb (Qeq_bool q 0)
  | PStr s => negb (String.eqb s "")
  end.

(** [v > n] for an integer literal [n]; a [TypeError] for [None] and
    strings. *)
Definition gt_int (v : pyval) (n : Z) : option bool :=
  x ← num v; Some (Qltb (inject_Z n) x).

(** What the interpreter provides. *)
Class Builtins : Type := {
  (** [hashlib.sha256(s.encode()).hexdigest()] *)
  sha256_hexdigest : string → string;
  (** [repr] of a float, as [json.dumps] prints it *)
  float_repr : Q → string;
  (** [str] of a dict *)
  dict_str : pydict → string;
  (** [int] of a string; [None] is a [ValueError] *)
  int_of_str : string → option Z
}.

End Py.

Import Py.

(* ===================================================================== *)
(** * [json.dumps(d, sort_keys=True, separators=...)]                     *)
(* ===================================================================== *)

Module Json.

Definition dquote : ascii := "034"%char.
Definition backslash : ascii := "092"%char.

Definition hex_digit (n : N) : ascii :=
  ascii_of_N (if (n <? 10)%N then 48 + n else 87 + n)%N.

(** [encode_basestring_ascii]: a quote and a backslash get a backslash,
    the five short control escapes are used, everything else outside
    [' '..'~'] becomes [\u00xx]. *)
Definition escape_char (c : ascii) : string :=
  let n := N_of_ascii c in
  if (n =? 34)%N then String backslash (String dquote "")
  else if (n =? 92)%N then String backslash (String backslash "")
  else if (n =? 8)%N then String backslash "b"
  else if (n =? 12)%N then String backslash "f"
  else if (n =? 10)%N then String backslash "n"
  else if (n =? 13)%N then String backslash "r"
  else if (n =? 9)%N then String backslash "t"
  else if ((n <? 32) || (126 <? n))%N then
    String backslash
      (String "u" (String "0" (String "0"
        (String (hex_digit (n / 16)) (String (hex_digit (n mod 16)) "")))))
  else String c "".

Fixpoint escape (s : string) : string :=
  match s with
  | EmptyString => ""
  | String c s' => escape_char c +:+ escape s'
  end.

Definition quoted (s : string) : string :=
  String dquote (escape s +:+ String dquote "").

(** White space and control characters, and the plain space among them. *)
Definition blank (c : ascii) : bool := (N_of_ascii c <=? 32)%N.

Definition space (c : ascii) : bool := (N_of_ascii c =? 32)%N.

Fixpoint has (p : ascii → bool) (s : string) : bool :=
  match s with
  | EmptyString => false
  | String c s' => p c || has p s'
  end.

(** Items are ordered by key, as [sorted(d.items())] orders the items
    of a dictionary, whose keys are distinct. *)
Definition key_le (x y : string * pyval) : Prop := String.le x.1 y.1.

Global Instance key_le_dec : RelDecision key_le.
Proof. intros x y. unfold key_le. apply _. Defined.

Definition sorted_items (d : pydict) : pydict := merge_sort key_le d.

(** [sep.join(l)] *)
Fixpoint str_join (sep : string) (l : list string) : string :=
  match l with
  | [] => ""
  | [x] => x
  | x :: l' => x +:+ sep +:+ str_join sep l'
  end.

Section Dumps.
Context `{Builtins}.

Definition value (v : pyval) : string :=
  match v with
  | PNone => "null"
  | PBool true => "true"
  | PBool false => "false"
  | PInt z => pretty z
  | PFloat q => float_repr q
  | PStr s => quoted s
  end.

Definition item (key_sep : string) (kv : string * pyval) : string :=
  quoted kv.1 +:+ key_sep +:+ value kv.2.

(** [json.dumps(d, sort_keys=True, separators=(item_sep, key_sep))] *)
Definition dumps (item_sep key_sep : string) (d : pydict) : string :=
  "{" +:+ str_join item_sep (item key_sep <$> sorted_items d) +:+ "}".

(** [json.dumps(d, sort_keys=True)]: the default separators. *)
Definition dumps_default (d : pydict) : string := dumps ", " ": " d.

End Dumps.

End Json.

(* ===================================================================== *)
(** * cryptanalysis/replay.py                                             *)
(* ===================================================================== *)

Module Replay.
Section Replay.
Context `{Builtins}.

(** The text that is hashed: the sorted-key dump of the transaction
    followed by the signature. *)
Definition preimage (tx : pydict) (signature : string) : string :=
  Json.dumps_default tx +:+ signature.

Definition key (tx : pydict) (signature : string) : string :=
  sha256_hexdigest (preimage tx signature).

(** [detect_replay(tx, signature)] on the module level set [_seen]:
    the verdict and the set afterwards. *)
Definition detect_replay (seen : gset string) (tx : pydict)
    (signature : string) : bool * gset string :=
  if bool_decide (key tx signature ∈ seen) then (true, seen)
  else (false, {[ key tx signature ]} ∪ seen).

(** A run of calls from a given set: the verdicts in order and the
    final set. *)
Fixpoint run (seen : gset string) (calls : list (pydict * string))
    : list bool * gset string :=
  match calls with
  | [] => ([], seen)
  | (tx, signature) :: rest =>
      let '(b, seen') := detect_replay seen tx signature in
      let '(bs, seen'') := run seen' rest in
      (b :: bs, seen'')
  end.

End Replay.
End Replay.

(* ===================================================================== *)
(** * cryptanalysis/downgrade.py                                          *)
(* ===================================================================== *)

Module Downgrade.

(** [PQC_HISTORY.get(sender, False)] *)
Definition used_pqc (history : gmap string bool) (sender : string) : bool :=
  default false (history !! sender).

(** [detect_downgrade(sender, is_pqc)] on the module level dictionary
    [PQC_HISTORY]: the verdict and the dictionary afterwards. *)
Definition detect_downgrade (history : gmap string bool) (sender : string)
    (is_pqc : bool) : bool * gmap string bool :=
  let previously_used_pqc := used_pqc history sender in
  if previously_used_pqc && negb is_pqc then (true, history)
  else if is_pqc then (false, <[sender := true]> history)
  else (false, history).

Fixpoint run (history : gmap string bool) (calls : list (string * bool))
    : list bool * gmap string bool :=
  match calls with
  | [] => ([], history)
  | (sender, is_pqc) :: rest =>
      let '(b, history') := detect_downgrade history sender is_pqc in
      let '(bs, history'') := run history' rest in
      (b :: bs, history'')
  end.

End Downgrade.

(* ===================================================================== *)
(** * cryptanalysis/sidechannel.py                                        *)
(* ===================================================================== *)

Module Sidechannel.
Section Sidechannel.
Context `{Builtins}.

(** [min(1.0, x)] *)
Definition min_one (x : Q) : Q := if Qltb x 1 then x else 1%Q.

(** [timing_leak_score(tx)]; [jitter] is the draw of
    [random.uniform(0.0, 0.4)]. *)
Definition timing_leak_score (jitter : Q) (tx : pydict) : Q :=
  let base := (inject_Z (Z.of_nat (String.length (dict_str tx))) / 1000)%Q in
  min_one (base + jitter)%Q.

End Sidechannel.
End Sidechannel.

(* ===================================================================== *)
(** * cryptanalysis/zkp_layer.py                                          *)
(* ===================================================================== *)

Module ZkpLayer.

(** A value of the [zkp] dictionary: a scalar, a list ([attributes]) or
    a dictionary ([public_inputs]). *)
Inductive field : Type :=
  | FVal (v : pyval)
  | FList (l : list pyval)
  | FDict (d : pydict).

Definition zkp_dict : Type := list (string * field).

Fixpoint zget (zkp : zkp_dict) (k : string) : option field :=
  match zkp with
  | [] => None
  | (k', v) :: zkp' => if String.eqb k' k then Some v else zget zkp' k
  end.

(** [bool(x)] *)
Definition field_truthy (x : field) : bool :=
  match x with
  | FVal v => Py.truthy v
  | FList l => negb (bool_decide (l = []))
  | FDict d => negb (bool_decide (d = []))
  end.

(** [needle in hay] on strings. *)
Fixpoint substring (needle hay : string) : bool :=
  String.prefix needle hay ||
  match hay with
  | EmptyString => false
  | String _ hay' => substring needle hay'
  end.

(** [name in x]; a [TypeError] when [x] is not a container. *)
Definition contains (x : field) (name : string) : option bool :=
  match x with
  | FList l => Some (existsb (Py.eqb (PStr name)) l)
  | FDict d => Some (Py.has_key d name)
  | FVal (PStr s) => Some (substring name s)
  | FVal _ => None
  end.

(** [x.get(name)]; an [AttributeError] when [x] is not a dictionary. *)
Definition field_get (x : field) (name : string) : option pyval :=
  match x with
  | FDict d => Some (default PNone (Py.get d name))
  | FList _ | FVal _ => None
  end.

(** [verify_zkp_attributes(tx, zkp)]; [None] is a raised exception. *)
Definition verify_zkp_attributes (tx : pydict) (zkp : option zkp_dict)
    : option (bool * string) :=
  match zkp with
  | None | Some [] => Some (true, "")
  | Some zkp =>
      if negb (field_truthy (default (FVal (PBool false)) (zget zkp "enable")))
      then Some (true, "")
      else
        let attributes := default (FList []) (zget zkp "attributes") in
        let public_inputs := default (FDict []) (zget zkp "public_inputs") in
        (* for field in ["amount_gt_zero"] *)
        in_attributes ← contains attributes "amount_gt_zero";
        if negb in_attributes
        then Some (false, "Missing ZKP attribute: amount_gt_zero")
        else
        in_inputs ← contains public_inputs "amount_gt_zero";
        if negb in_inputs
        then Some (false, "Missing ZKP public input: amount_gt_zero")
        else
        (* logical validation *)
        claimed ← field_get public_inputs "amount_gt_zero";
        positive ← Py.gt_int (Py.get_default tx "amount" (PInt 0)) 0;
        if Py.neb claimed (PBool positive)
        then Some (false, "ZKP verification failed: amount_gt_zero mismatch")
        else
        (* optional checks *)
        has_nonce ← contains attributes "nonce";
        nonce_bad ←
          (if (has_nonce : bool)
           then n ← field_get public_inputs "nonce";
                Some (Py.neb n (default PNone (Py.get tx "nonce")))
           else Some false) : option bool;
        if (nonce_bad : bool)
        then Some (false, "ZKP verification failed: nonce mismatch")
        else
        has_recipient ← contains attributes "recipient";
        recipient_bad ←
          (if (has_recipient : bool)
           then r ← field_get public_inputs "recipient";
                Some (Py.neb r (default PNone (Py.get tx "to")))
           else Some false) : option bool;
        if (recipient_bad : bool)
        then Some (false, "ZKP verification failed: recipient mismatch")
        else Some (true, "")
  end.

End ZkpLayer.

(* ===================================================================== *)
(** * cryptanalysis/analyzer.py                                           *)
(* ===================================================================== *)

Module Analyzer.

Record Metrics : Type := { entropy : Q; timing_leak_score : Q }.

Record Analysis : Type := {
  secure : bool;
  risk : string;
  issues : list string;
  metrics : Metrics
}.

(** The three local variables the signals update. *)
Record verdict : Type := Verdict {
  v_issues : list string;
  v_secure : bool;
  v_risk : string
}.

Definition start : verdict := Verdict [] true "low".

(** 1. Replay detection. *)
Definition replay_signal (replayed : bool) (v : verdict) : verdict :=
  if replayed
  then Verdict (v_issues v ++ ["Replay attack detected"]) false "high"
  else v.

(** [len(set(msg_hash)) / 16.0] *)
Definition hex_entropy (msg_hash : string) : Q :=
  inject_Z (Z.of_nat (length (remove_dups (list_ascii_of_string msg_hash)))) / 16%Q.

(** 2. Message entropy. *)
Definition entropy_signal (e : Q) (v : verdict) : verdict :=
  if Qltb e 0.15%Q
  then Verdict (v_issues v ++ ["Very low message entropy"]) false "high"
  else if Qltb e 0.35%Q
  then Verdict (v_issues v ++ ["Low message entropy"]) (v_secure v) "medium"
  else v.

(** 3. Timing side channel. *)
Definition timing_signal (timing : Q) (v : verdict) : verdict :=
  if Qltb 0.85%Q timing
  then Verdict (v_issues v ++ ["High timing side-channel risk"]) false "high"
  else if Qltb 0.45%Q timing
  then Verdict (v_issues v ++ ["Moderate timing side-channel risk"])
         (v_secure v)
         (if negb (String.eqb (v_risk v) "high") then "medium" else v_risk v)
  else v.

(** 4. ZKP attribute verification, on the pair [(zkp_ok, zkp_issue)]. *)
Definition zkp_signal (result : bool * string) (v : verdict) : verdict :=
  if negb result.1
  then Verdict (v_issues v ++ [result.2]) false "high"
  else v.

(** [round(x, 3)]: to the nearest thousandth, a tie to the even one. *)
Definition round3 (x : Q) : Q :=
  let n := (Qnum x * 1000)%Z in
  let d := Z.pos (Qden x) in
  let lo := (n / d)%Z in
  let twice := (2 * (n mod d))%Z in
  let m :=
    if (twice <? d)%Z then lo
    else if (d <? twice)%Z then (lo + 1)%Z
    else if Z.even lo then lo else (lo + 1)%Z in
  (m # 1000)%Q.

Section Analyzer.
Context `{Builtins}.

(** The text whose digest is taken, and the digest whose symbols are
    counted. *)
Definition hashed_text (tx : pydict) : string := Json.dumps_default tx.

Definition msg_hash (tx : pydict) : string :=
  sha256_hexdigest (hashed_text tx).

(** [analyze_transaction(tx, signature, algorithm, zkp)] on the set
    [_seen] of replay.py, with [jitter] the random draw of
    sidechannel.py: the set afterwards and the analysis, [None] when
    the ZKP layer raises. *)
Definition analyze_transaction (seen : gset string) (jitter : Q)
    (tx : pydict) (signature algorithm : string)
    (zkp : option ZkpLayer.zkp_dict) : gset string * option Analysis :=
  let '(replayed, seen') := Replay.detect_replay seen tx signature in
  let v1 := replay_signal replayed start in
  let e := hex_entropy (msg_hash tx) in
  let v2 := entropy_signal e v1 in
  let timing := Sidechannel.timing_leak_score jitter tx in
  let v3 := timing_signal timing v2 in
  let v4 :=
    match zkp with
    | Some z =>
        r ← ZkpLayer.verify_zkp_attributes tx (Some z);
        Some (zkp_signal r v3)
    | None => Some v3
    end in
  (seen',
   v ← v4;
   Some {| secure := v_secure v; risk := v_risk v; issues := v_issues v;
           metrics := {| entropy := round3 e;
                         timing_leak_score := round3 timing |} |}).

End Analyzer.
End Analyzer.

(* ===================================================================== *)
(** * cryptanalysis/fraud_mapper.py                                       *)
(* ===================================================================== *)

Module FraudMapper.

Record FraudAlert : Type := {
  fraud : bool;
  probability : Q;
  severity : string;
  reason : string
}.

(** [map_to_fraud_alert(analysis)] on an analysis of analyzer.py, which
    has all four keys; the two metrics are read and not used. *)
Definition map_to_fraud_alert (analysis : Analyzer.Analysis) : FraudAlert :=
  let risk := Analyzer.risk analysis in
  let entropy := Analyzer.entropy (Analyzer.metrics analysis) in
  let timing := Analyzer.timing_leak_score (Analyzer.metrics analysis) in
  if String.eqb risk "high" then
    {| fraud := true; probability := 0.85%Q; severity := "High";
       reason := Json.str_join ", " (Analyzer.issues analysis) |}
  else if String.eqb risk "medium" then
    {| fraud := true; probability := 0.55%Q; severity := "Medium";
       reason := "Suspicious entropy or timing pattern" |}
  else
    {| fraud := false; probability := 0.1%Q; severity := "Low";
       reason := "Transaction appears normal" |}.

End FraudMapper.

(* ===================================================================== *)
(** * main.py: the signing gate                                           *)
(* ===================================================================== *)

Module Main.

(** [class Transaction(BaseModel)]; the validator admits [amount > 0]. *)
Record Transaction : Type := {
  amount : Q;
  to : string;
  nonce : Z;
  timestamp : string
}.

(** [class SignRequest(BaseModel)] *)
Record SignRequest : Type := {
  wallet_id : string;
  transaction : Transaction;
  algorithm : string;
  zkp : option ZkpLayer.zkp_dict
}.

(** [tx.dict()]: the fields in declaration order. *)
Definition tx_dict (tx : Transaction) : pydict :=
  [ ("amount", PFloat (amount tx)); ("to", PStr (to tx));
    ("nonce", PInt (nonce tx)); ("timestamp", PStr (timestamp tx)) ].

(** An entry of [pqc_wallets]. *)
Record Wallet : Type := { signer : string; public_key : string }.

(** The two module level dictionaries. *)
Record State : Type := {
  pqc_wallets : gmap string Wallet;
  wallet_security_mode : gmap string bool
}.

Definition initial : State :=
  {| pqc_wallets := ∅; wallet_security_mode := ∅ |}.

(** [detect_downgrade(wallet_id, is_pqc)] on [wallet_security_mode]. *)
Definition detect_downgrade (mode : gmap string bool) (wallet_id : string)
    (is_pqc : bool) : bool * gmap string bool :=
  let previous := mode !! wallet_id in
  if bool_decide (previous = Some true) && negb is_pqc then (true, mode)
  else (false, <[wallet_id := is_pqc]> mode).

Fixpoint run_downgrade (mode : gmap string bool)
    (calls : list (string * bool)) : list bool * gmap string bool :=
  match calls with
  | [] => ([], mode)
  | (w, is_pqc) :: rest =>
      let '(b, mode') := detect_downgrade mode w is_pqc in
      let '(bs, mode'') := run_downgrade mode' rest in
      (b :: bs, mode'')
  end.

(** What [requests.post] does with a payload: it raises (a timeout, a
    refused connection, ...) or returns a response; [json] is [None]
    when [response.json()] raises or does not give an object. *)
Inductive Reply : Type :=
  | Raised
  | Replied (status_code : Z) (json : option pydict).

(** What one request draws from outside the process. *)
Record Env : Type := {
  post : pydict → Reply;
  entropy_draw : Q;       (* random.uniform(0.88, 0.99) *)
  timing_draw : Q;        (* random.uniform(0.01, 0.08) *)
  keypair : Wallet;       (* oqs.Signature(PQC_ALGO) and its key pair *)
  oqs_sign : string → string → string;   (* signer.sign(message).hex() *)
  now_iso : string
}.

(** The analysis of [generate_analysis]. *)
Record Analysis : Type := {
  secure : bool;
  risk : string;
  risk_score : Z
}.

Inductive Detail : Type :=
  | DetailText (s : string)
  | DetailAnalysis (a : Analysis).

(** The body of a 201 response. *)
Record Signed : Type := {
  r_status : string;
  r_signature : string;
  r_algorithm : string;
  r_transaction_hash : string;
  r_analysis : Analysis;
  r_timestamp : string;
  r_wallet_id : string
}.

Inductive Response : Type :=
  | HTTPException (status_code : Z) (detail : Detail)
  | Created (body : Signed).

Definition PQC_ALGO : string := "ML-DSA-44".

(** [s.lower()] on the letters [A]..[Z], which decide a comparison with
    a lower case ASCII word. *)
Definition lower_char (c : ascii) : ascii :=
  let n := N_of_ascii c in
  if ((65 <=? n) && (n <=? 90))%N then ascii_of_N (n + 32) else c.

Fixpoint lower (s : string) : string :=
  match s with
  | EmptyString => ""
  | String c s' => String (lower_char c) (lower s')
  end.

Section Gate.
Context `{Builtins}.

(** [canonical(tx)]. The encoded text is ASCII, so the bytes of
    [.encode()] are its characters. *)
Definition canonical (tx : Transaction) : string :=
  Json.dumps "," ":" (tx_dict tx).

(** The text a transaction is expected to have under given separators:
    the four fields by sorted key, nothing else between them. *)
Definition tx_text (item_sep key_sep : string) (tx : Transaction) : string :=
  "{" +:+ Json.quoted "amount" +:+ key_sep +:+ float_repr (amount tx)
      +:+ item_sep
      +:+ Json.quoted "nonce" +:+ key_sep +:+ pretty (nonce tx)
      +:+ item_sep
      +:+ Json.quoted "timestamp" +:+ key_sep +:+ Json.quoted (timestamp tx)
      +:+ item_sep
      +:+ Json.quoted "to" +:+ key_sep +:+ Json.quoted (to tx)
      +:+ "}".

(** [int(v)]: truncation for a float, [None] for an exception. *)
Definition py_int (v : pyval) : option Z :=
  match v with
  | PInt z => Some z
  | PBool b => Some (if b then 1 else 0)
  | PFloat q => Some (Z.quot (Qnum q) (Z.pos (Qden q)))
  | PStr s => int_of_str s
  | PNone => None
  end.

(** The body of the [try] block of [get_ai_risk]; [None] is an
    exception. *)
Definition ask_oracle (env : Env) (tx_dict : pydict) : option Z :=
  a ← Py.get tx_dict "amount";
  t ← Py.get tx_dict "to";
  ts ← Py.get tx_dict "timestamp";
  match post env [ ("amount", a); ("sender_wallet", PStr "pqc_wallet");
                   ("receiver_wallet", t); ("timestamp", ts) ] with
  | Raised => None
  | Replied status_code json =>
      if status_code =? 200
      then data ← json; py_int (Py.get_default data "risk_score" (PInt 10))
      else Some 10
  end.

(** [get_ai_risk(tx_dict)]: [except Exception: return 10]. *)
Definition get_ai_risk (env : Env) (tx_dict : pydict) : Z :=
  default 10 (ask_oracle env tx_dict).

(** [generate_analysis(tx_dict, algorithm)]; [None] when the amount is
    missing or not a number. *)
Definition generate_analysis (env : Env) (tx_dict : pydict)
    (algorithm : string) : option Analysis :=
  let ai_risk := get_ai_risk env tx_dict in
  let risk_score := ai_risk in
  let risk_score :=
    if Qltb 0.06%Q (timing_draw env) then risk_score + 10 else risk_score in
  let risk_score :=
    if Qltb (entropy_draw env) 0.9%Q then risk_score + 10 else risk_score in
  a ← Py.get tx_dict "amount";
  large ← Py.gt_int a 5000000;
  let risk_score := if (large : bool) then 95 else risk_score in
  let risk_score := Z.min risk_score 95 in
  let risk :=
    if 70 <? risk_score then "high"
    else if 40 <? risk_score then "medium"
    else "low" in
  Some {| secure := negb (String.eqb risk "high");
          risk := risk;
          risk_score := risk_score |}.

(** [sign_transaction(request)]: the state afterwards and the
    response; [None] for an exception that is not an [HTTPException]. *)
Definition sign_transaction (env : Env) (st : State) (request : SignRequest)
    : State * option Response :=
  let wallet_id := wallet_id request in
  let message := canonical (transaction request) in
  (* the PQC branch or the ECDSA simulation *)
  let '(st1, signed) :=
    if String.eqb (lower (algorithm request)) "pqc" then
      let '(downgrade, mode') :=
        detect_downgrade (wallet_security_mode st) wallet_id true in
      if downgrade
      then ({| pqc_wallets := pqc_wallets st;
               wallet_security_mode := mode' |},
            inl (HTTPException 400 (DetailText "Security downgrade detected")))
      else
        let wallets' :=
          match pqc_wallets st !! wallet_id with
          | Some _ => pqc_wallets st
          | None => <[wallet_id := keypair env]> (pqc_wallets st)
          end in
        let s := signer (default (keypair env) (wallets' !! wallet_id)) in
        ({| pqc_wallets := wallets'; wallet_security_mode := mode' |},
         inr (oqs_sign env s message, PQC_ALGO))
    else
      (st, inr (sha256_hexdigest message, "ECDSA-SHA256")) in
  match signed with
  | inl rejection => (st1, Some rejection)
  | inr (signature, algo_name) =>
      match generate_analysis env (tx_dict (transaction request)) algo_name with
      | None => (st1, None)
      | Some analysis =>
          if String.eqb (risk analysis) "high"
          then (st1, Some (HTTPException 400 (DetailAnalysis analysis)))
          else (st1, Some (Created {|
                 r_status := "success";
                 r_signature := signature;
                 r_algorithm := algo_name;
                 r_transaction_hash := sha256_hexdigest message;
                 r_analysis := analysis;
                 r_timestamp := now_iso env;
                 r_wallet_id := wallet_id |}))
      end
  end.

(** The signature a response exposes, if it exposes one. *)
Definition exposed_signature (r : option Response) : option string :=
  match r with
  | Some (Created body) => Some (r_signature body)
  | _ => None
  end.

End Gate.
End Main.

(* ===================================================================== *)
(** * SHA-256 (FIPS 180-4), the function behind [hashlib.sha256]          *)
(* ===================================================================== *)

Module Sha256.

(** Words are integers in [0, 2^32). *)
Definition wrap (x : Z) : Z := x mod 4294967296.

Definition add (x y : Z) : Z := wrap (x + y).

Definition rotr (n x : Z) : Z :=
  Z.lor (Z.shiftr x n) (wrap (Z.shiftl x (32 - n))).

Definition xor3 (x y z : Z) : Z := Z.lxor x (Z.lxor y z).

Definition ch (x y z : Z) : Z :=
  Z.lxor (Z.land x y) (Z.land (Z.lxor x 4294967295) z).

Definition maj (x y z : Z) : Z :=
  xor3 (Z.land x y) (Z.land x z) (Z.land y z).

Definition big_sigma0 (x : Z) : Z := xor3 (rotr 2 x) (rotr 13 x) (rotr 22 x).
Definition big_sigma1 (x : Z) : Z := xor3 (rotr 6 x) (rotr 11 x) (rotr 25 x).
Definition small_sigma0 (x : Z) : Z := xor3 (rotr 7 x) (rotr 18 x) (Z.shiftr x 3).
Definition small_sigma1 (x : Z) : Z := xor3 (rotr 17 x) (rotr 19 x) (Z.shiftr x 10).

(** The round constants and the initial hash value. *)
Definition round_constants : list Z :=
  [
    1116352408; 1899447441; 3049323471; 3921009573; 961987163; 1508970993;
    2453635748; 2870763221; 3624381080; 310598401; 607225278; 1426881987;
    1925078388; 2162078206; 2614888103; 3248222580; 3835390401; 4022224774;
    264347078; 604807628; 770255983; 1249150122; 1555081692; 1996064986;
    2554220882; 2821834349; 2952996808; 3210313671; 3336571891; 3584528711;
    113926993; 338241895; 666307205; 773529912; 1294757372; 1396182291;
    1695183700; 1986661051; 2177026350; 2456956037; 2730485921; 2820302411;
    3259730800; 3345764771; 3516065817; 3600352804; 4094571909; 275423344;
    430227734; 506948616; 659060556; 883997877; 958139571; 1322822218;
    1537002063; 1747873779; 1955562222; 2024104815; 2227730452; 2361852424;
    2428436474; 2756734187; 3204031479; 3329325298 ].

Definition initial_hash : list Z :=
  [
    1779033703; 3144134277; 1013904242; 2773480762; 1359893119; 2600822924;
    528734635; 1541459225 ].

(** Padding: a one bit, zeros up to 56 modulo 64 bytes, the bit length on
    eight bytes. *)
Definition be_bytes (count : nat) (x : Z) : list Z :=
  (fun i => Z.shiftr x (8 * Z.of_nat (count - 1 - i)) mod 256) <$> seq 0 count.

Definition pad (msg : list Z) : list Z :=
  let len := Z.of_nat (length msg) in
  let zeros := Z.to_nat ((55 - len) mod 64) in
  msg ++ [128] ++ replicate zeros 0 ++ be_bytes 8 (8 * len).

Definition word_of_bytes (b : list Z) : Z :=
  foldl (fun acc x => acc * 256 + x) 0 b.

(** The words of a list of bytes whose length is a multiple of four. *)
Fixpoint words (fuel : nat) (b : list Z) : list Z :=
  match fuel, b with
  | S fuel', _ :: _ => word_of_bytes (take 4 b) :: words fuel' (drop 4 b)
  | _, _ => []
  end.

(** The message schedule, most recent word first: [w] holds the words
    so far, reversed. *)
Fixpoint schedule (count : nat) (w : list Z) : list Z :=
  match count with
  | O => w
  | S count' =>
      let at_ i := default 0 (w !! i) in
      schedule count'
        (add (add (small_sigma1 (at_ 1%nat)) (at_ 6%nat))
             (add (small_sigma0 (at_ 14%nat)) (at_ 15%nat)) :: w)
  end.

Definition round (s : list Z) (kw : Z * Z) : list Z :=
  match s with
  | [a; b; c; d; e; f; g; h] =>
      let t1 := add (add (add h (big_sigma1 e)) (add (ch e f g) kw.1)) kw.2 in
      let t2 := add (big_sigma0 a) (maj a b c) in
      [add t1 t2; a; b; c; add d t1; e; f; g]
  | _ => s
  end.

Definition compress (h : list Z) (block : list Z) : list Z :=
  let w := reverse (schedule 48 (reverse block)) in
  let s := foldl round h (zip round_constants w) in
  zip_with add h s.

Fixpoint blocks (fuel : nat) (h : list Z) (w : list Z) : list Z :=
  match fuel, w with
  | S fuel', _ :: _ => blocks fuel' (compress h (take 16 w)) (drop 16 w)
  | _, _ => h
  end.

Definition digest_words (msg : list Z) : list Z :=
  let b := pad msg in
  let w := words (length b) b in
  blocks (length w) initial_hash w.

Definition hex_char (n : Z) : ascii :=
  ascii_of_N (Z.to_N (if n <? 10 then 48 + n else 87 + n)).

Definition hex_word (x : Z) : list ascii :=
  (fun i => hex_char (Z.shiftr x (4 * Z.of_nat (7 - i)) mod 16)) <$> seq 0 8.

Definition bytes_of_string (s : string) : list Z :=
  (fun c => Z.of_N (N_of_ascii c)) <$> list_ascii_of_string s.

(** [hashlib.sha256(s.encode()).hexdigest()] for an ASCII text [s], whose
    bytes are its characters. *)
Definition hexdigest (s : string) : string :=
  string_of_list_ascii (mjoin (hex_word <$> digest_words (bytes_of_string s))).

End Sha256.

(* ===================================================================== *)
(** * Concrete builtins and inputs for the examples                       *)
(* ===================================================================== *)

Module Sample.

(** [repr] of a float whose value is a whole number below [10^16]:
    [100.0], [-3.0]. *)
Definition whole_repr (q : Q) : string :=
  pretty (Z.quot (Qnum q) (Z.pos (Qden q))) +:+ ".0".

(** [repr] of a value and [str] of a dict, for strings of printable
    characters without quotes and backslashes. *)
Definition plain_repr (v : pyval) : string :=
  match v with
  | PNone => "None"
  | PBool true => "True"
  | PBool false => "False"
  | PInt z => pretty z
  | PFloat q => whole_repr q
  | PStr s => "'" +:+ s +:+ "'"
  end.

Definition plain_str (d : pydict) : string :=
  "{" +:+ Json.str_join ", "
            ((fun kv => "'" +:+ kv.1 +:+ "': " +:+ plain_repr kv.2) <$> d)
      +:+ "}".

(** [int] of a plain decimal numeral. *)
Fixpoint digits (s : string) (acc : Z) : option Z :=
  match s with
  | EmptyString => Some acc
  | String c s' => d ← Ascii.is_nat c; digits s' (10 * acc + Z.of_nat d)
  end.

Definition decimal (s : string) : option Z :=
  match s with
  | EmptyString => None
  | String "-" EmptyString => None
  | String "-" s' => Z.opp <$> digits s' 0
  | _ => digits s 0
  end.

(** The builtins with SHA-256 itself. *)
Definition python : Builtins :=
  {| sha256_hexdigest := Sha256.hexdigest;
     float_repr := whole_repr;
     dict_str := plain_str;
     int_of_str := decimal |}.

(** A text of the length of a digest with four distinct symbols. *)
Definition four_symbols : string :=
  "0123012301230123012301230123012301230123012301230123012301230123".

(** The transaction of the end-to-end scenarios. *)
Definition tx : Main.Transaction :=
  {| Main.amount := 100; Main.to := "bob"; Main.nonce := 1;
     Main.timestamp := "2024-01-01T00:00:00Z" |}.

(** The same transaction as the analyzer receives it, and built in another
    order. *)
Definition tx_json : pydict := Main.tx_dict tx.

Definition tx_json_reordered : pydict :=
  [ ("timestamp", PStr "2024-01-01T00:00:00Z"); ("nonce", PInt 1);
    ("to", PStr "bob"); ("amount", PFloat 100) ].

(** The ZKP of scenario 4 under the key the code reads, [enable], and
    under the key [enabled]. *)
Definition zkp_enable : ZkpLayer.zkp_dict :=
  [ ("enable", ZkpLayer.FVal (PBool true));
    ("attributes", ZkpLayer.FList [PStr "amount_gt_zero"]);
    ("public_inputs", ZkpLayer.FDict [("amount_gt_zero", PBool false)]) ].

Definition zkp_enabled : ZkpLayer.zkp_dict :=
  [ ("enabled", ZkpLayer.FVal (PBool true));
    ("attributes", ZkpLayer.FList [PStr "amount_gt_zero"]);
    ("public_inputs", ZkpLayer.FDict [("amount_gt_zero", PBool false)]) ].

(** An oracle that answers 200 with the given body, and one request's
    environment around it. *)
Definition env_of (reply : Main.Reply) : Main.Env :=
  {| Main.post := fun _ => reply;
     Main.entropy_draw := 0.95;
     Main.timing_draw := 0.03;
     Main.keypair := {| Main.signer := "sk"; Main.public_key := "pk" |};
     Main.oqs_sign := fun sk message => "5369676e6174757265";
     Main.now_iso := "2024-01-01T00:00:01Z" |}.

Definition env : Main.Env :=
  env_of (Main.Replied 200 (Some [("risk_score", PInt 10)])).

Definition alice_pqc : Main.SignRequest :=
  {| Main.wallet_id := "alice"; Main.transaction := tx;
     Main.algorithm := "pqc"; Main.zkp := None |}.

Definition alice_classical : Main.SignRequest :=
  {| Main.wallet_id := "alice"; Main.transaction := tx;
     Main.algorithm := "classical"; Main.zkp := None |}.

End Sample.

(* ===================================================================== *)
(** * [bytes.fromhex]                                                     *)
(* ===================================================================== *)

Module Hex.

(** The value of a hexadecimal digit, of either case. *)
Definition digit (c : ascii) : option N :=
  let n := N_of_ascii c in
  if ((48 <=? n) && (n <=? 57))%N then Some (n - 48)%N
  else if ((97 <=? n) && (n <=? 102))%N then Some (n - 87)%N
  else if ((65 <=? n) && (n <=? 70))%N then Some (n - 55)%N
  else None.

(** [bytes.fromhex(s)]: two digits per byte, ASCII white space skipped
    between bytes; [None] is a [ValueError]. *)
Fixpoint fromhex (s : string) : option (list N) :=
  match s with
  | EmptyString => Some []
  | String c s' =>
      if Ascii.is_space c then fromhex s'
      else
        match s' with
        | EmptyString => None
        | String c' s'' =>
            top ← digit c;
            bot ← digit c';
            rest ← fromhex s'';
            Some ((top * 16 + bot)%N :: rest)
        end
  end.


(** The values of the bytes of a byte string. *)
Definition bytes (raw : string) : list N :=
  N_of_ascii <$> list_ascii_of_string raw.

End Hex.

(* ===================================================================== *)
(** * cryptanalysis/payload.py                                            *)
(* ===================================================================== *)

Module Payload.

(** [hashlib.sha3_256(s.encode()).hexdigest()] *)
Class Sha3 : Type := { sha3_256_hexdigest : string → string }.

Section Payload.
Context `{Builtins} `{Sha3}.

(** [canonical_payload_hash(tx)] *)
Definition canonical_payload_hash (tx : pydict) : string :=
  let canonical := Json.dumps_default tx in
  sha3_256_hexdigest canonical.

End Payload.
End Payload.

(* ===================================================================== *)
(** * main.py: the other routes, and runs of requests                     *)
(* ===================================================================== *)

Module Routes.

(** The body of [GET /health]. *)
Record Health : Type := {
  h_status : string;
  h_wallets : nat;
  h_timestamp : string
}.

(** [health()] *)
Definition health (st : Main.State) (now_iso : string) : Health :=
  {| h_status := "healthy";
     h_wallets := size (Main.pqc_wallets st);
     h_timestamp := now_iso |}.

(** What a verification draws from outside the process:
    [oqs.Signature(PQC_ALGO).verify(message, signature, public_key)] and
    the clock. *)
Record VerifyEnv : Type := {
  oqs_verify : string → list N → string → bool;
  verify_now_iso : string
}.

Inductive VerifyResponse : Type :=
  | VerifyException (status_code : Z) (detail : string)
  | Verified (verified : bool) (timestamp : string).

(** [class HashRequest(BaseModel)] *)
Record HashRequest : Type := {
  image_data : string;
  name : string;
  description : string
}.

(** The body of [POST /generate-hash]. *)
Record HashResponse : Type := {
  g_status : string;
  quantum_hash : string;
  g_timestamp : string
}.

(** [f"{request.name}|{request.description}|{request.image_data}"] *)
Definition combined (request : HashRequest) : string :=
  name request +:+ "|" +:+ description request +:+ "|" +:+ image_data request.

Section Routes.
Context `{Builtins} `{Payload.Sha3}.

(** [verify_signature(wallet_id, transaction, signature, algorithm)];
    [None] is the [ValueError] of [bytes.fromhex]. *)
Definition verify_signature (env : VerifyEnv) (st : Main.State)
    (wallet_id : string) (transaction : Main.Transaction)
    (signature algorithm : string) : option VerifyResponse :=
  let message := Main.canonical transaction in
  if String.eqb algorithm Main.PQC_ALGO then
    match Main.pqc_wallets st !! wallet_id with
    | None => Some (VerifyException 404 "Wallet not found")
    | Some wallet =>
        signature_bytes ← Hex.fromhex signature;
        Some (Verified
                (oqs_verify env message signature_bytes (Main.public_key wallet))
                (verify_now_iso env))
    end
  else
    let expected := sha256_hexdigest message in
    Some (Verified (String.eqb signature expected) (verify_now_iso env)).

(** [generate_hash(request)] *)
Definition generate_hash (request : HashRequest) (now_iso : string)
    : HashResponse :=
  {| g_status := "success";
     quantum_hash := Payload.sha3_256_hexdigest (combined request);
     g_timestamp := now_iso |}.

(** A run of [POST /sign] requests, each with what it draws from outside:
    the state afterwards and the responses in order. *)
Fixpoint run (st : Main.State) (requests : list (Main.Env * Main.SignRequest))
    : Main.State * list (option Main.Response) :=
  match requests with
  | [] => (st, [])
  | (env, request) :: rest =>
      let '(st', response) := Main.sign_transaction env st request in
      let '(st'', responses) := run st' rest in
      (st'', response :: responses)
  end.

End Routes.

(** The wallet ids of the requests of a run that take the PQC branch. *)
Definition pqc_ids (requests : list (Main.Env * Main.SignRequest)) : gset string :=
  list_to_set
    ((fun er => Main.wallet_id er.2) <$>
     filter (fun er => String.eqb (Main.lower (Main.algorithm er.2)) "pqc" = true)
            requests).

End Routes.

(* ===================================================================== *)
(** * Shapes the further properties speak about                           *)
(* ===================================================================== *)

Module Shape.

(** The three variables of the analyzer fit together: the risk is one of
    the three levels, it is low exactly when no issue was recorded, and
    without an issue the verdict is secure. *)
Definition coherent (v : Analyzer.verdict) : Prop :=
  (Analyzer.v_risk v = "low" ∨ Analyzer.v_risk v = "medium"
   ∨ Analyzer.v_risk v = "high")
  ∧ (Analyzer.v_risk v = "low" ↔ Analyzer.v_issues v = [])
  ∧ (Analyzer.v_issues v = [] → Analyzer.v_secure v = true).

(** The number of distinct symbols of a digest, [len(set(msg_hash))]. *)
Definition symbols (msg_hash : string) : nat :=
  length (remove_dups (list_ascii_of_string msg_hash)).

End Shape.

(** The fingerprints of a list of calls of the replay guard. *)
Definition fingerprints `{Builtins} (calls : list (pydict * string)) : gset string :=
  list_to_set ((fun c => Replay.key c.1 c.2) <$> calls).

(** The eight spellings that [/sign] takes for the PQC branch. *)
Definition pqc_spellings : list string :=
  ["pqc"; "pqC"; "pQc"; "pQC"; "Pqc"; "PqC"; "PQc"; "PQC"].

(* ===================================================================== *)
(** * Reading back what the JSON encoder wrote                            *)
(* ===================================================================== *)

Module Reader.




End Reader.

(* ===================================================================== *)
(** * Properties: canonicalization                                        *)
(* ===================================================================== *)

Global Instance key_le_trans : Transitive Json.key_le.
Proof. intros x y z. unfold Json.key_le. apply transitivity. Qed.

Global Instance key_le_total : Total Json.key_le.
Proof. intros x y. unfold Json.key_le. apply total, _. Qed.

Lemma key_determines_item (d : pydict) (x y : string * pyval) :
  NoDup (Py.keys d) → x ∈ d → y ∈ d → x.1 = y.1 → x = y.
Proof.
  unfold Py.keys. induction d as [|z d IH]; intros Hnd Hx Hy Hk.
  - by apply elem_of_nil in Hx.
  - apply NoDup_cons in Hnd as [Hz Hnd]. simpl in *.
    apply elem_of_cons in Hx as [->|Hx]; apply elem_of_cons in Hy as [->|Hy].
    + done.
    + exfalso. apply Hz. rewrite Hk. by apply list_elem_of_fmap_2.
    + exfalso. apply Hz. rewrite <- Hk. by apply list_elem_of_fmap_2.
    + by apply IH.
Qed.

Lemma sorted_items_sorted (d : pydict) : Sorted Json.key_le (Json.sorted_items d).
Proof. apply Sorted_merge_sort, _. Qed.

Lemma sorted_items_perm (d : pydict) : Json.sorted_items d ≡ₚ d.
Proof. apply merge_sort_Permutation. Qed.

(** The order in which the items were put into a dictionary does not
    show in the sorted items. *)
Lemma sorted_items_order_free (d1 d2 : pydict) :
  NoDup (Py.keys d1) → d1 ≡ₚ d2 → Json.sorted_items d1 = Json.sorted_items d2.
Proof.
  intros Hnd Hperm.
  apply (Sorted_unique_strong Json.key_le); try apply sorted_items_sorted.
  - intros x y Hx Hy Hxy Hyx.
    apply (key_determines_item d1); trivial.
    + by rewrite <- (sorted_items_perm d1).
    + by rewrite Hperm, <- (sorted_items_perm d2).
    + unfold Json.key_le in *. by apply (anti_symm String.le).
  - by rewrite !sorted_items_perm.
Qed.

(** The encoder lets no blank through except the plain space. *)
Lemma has_app (p : ascii → bool) (s1 s2 : string) :
  Json.has p (s1 +:+ s2) = Json.has p s1 || Json.has p s2.
Proof.
  induction s1 as [|c s1 IH]; [reflexivity|].
  change (p c || Json.has p (s1 +:+ s2) = p c || Json.has p s1 || Json.has p s2).
  by rewrite IH, orb_assoc.
Qed.

Lemma escape_char_blank (c : ascii) :
  Json.has Json.blank (Json.escape_char c) = Json.space c.
Proof. by destruct c as [[] [] [] [] [] [] [] []]. Qed.

Lemma escape_blank (s : string) :
  Json.has Json.blank (Json.escape s) = Json.has Json.space s.
Proof.
  induction s as [|c s IH]; [reflexivity|].
  cbn [Json.escape Json.has]. by rewrite has_app, escape_char_blank, IH.
Qed.

Lemma quoted_blank (s : string) :
  Json.has Json.blank (Json.quoted s) = Json.has Json.space s.
Proof.
  unfold Json.quoted. cbn [Json.has]. rewrite has_app, escape_blank.
  cbn. by rewrite !orb_false_r.
Qed.

Lemma pretty_N_char_blank (x : N) (s : string) :
  Json.has Json.blank (String (pretty_N_char x) s) = Json.has Json.blank s.
Proof. unfold pretty_N_char. by repeat case_match. Qed.

Lemma pretty_N_go_blank (x : N) (s : string) :
  Json.has Json.blank (pretty_N_go x s) = Json.has Json.blank s.
Proof.
  revert s. induction (N.lt_wf_0 x) as [x _ IH]; intros s.
  destruct (decide (x = 0)%N) as [->|Hx]; [by rewrite pretty_N_go_0|].
  rewrite pretty_N_go_step by lia.
  rewrite IH by (apply N.div_lt; lia). apply pretty_N_char_blank.
Qed.

Lemma pretty_Z_blank (z : Z) : Json.has Json.blank (pretty z) = false.
Proof.
  destruct z as [|p|p]; [reflexivity| |].
  - unfold pretty, pretty_Z, pretty, pretty_positive, pretty, pretty_N.
    case_decide; [reflexivity|]. by rewrite pretty_N_go_blank.
  - unfold pretty, pretty_Z. rewrite has_app.
    unfold pretty, pretty_positive, pretty, pretty_N.
    case_decide; [reflexivity|]. by rewrite pretty_N_go_blank.
Qed.

Section CanonicalFacts.
Context `{Builtins}.

Lemma dumps_order_free (item_sep key_sep : string) (d1 d2 : pydict) :
  NoDup (Py.keys d1) → d1 ≡ₚ d2 →
  Json.dumps item_sep key_sep d1 = Json.dumps item_sep key_sep d2.
Proof.
  intros Hnd Hperm. unfold Json.dumps.
  by rewrite (sorted_items_order_free d1 d2).
Qed.

(** The four fields come out in the order amount, nonce, timestamp, to. *)
Lemma sorted_items_tx (tx : Main.Transaction) :
  Json.sorted_items (Main.tx_dict tx) =
  [ ("amount", PFloat (Main.amount tx)); ("nonce", PInt (Main.nonce tx));
    ("timestamp", PStr (Main.timestamp tx)); ("to", PStr (Main.to tx)) ].
Proof. reflexivity. Qed.

Lemma app_assoc_string (s1 s2 s3 : string) :
  (s1 +:+ s2) +:+ s3 = s1 +:+ (s2 +:+ s3).
Proof.
  induction s1 as [|c s1 IH]; [reflexivity|].
  change (String c ((s1 +:+ s2) +:+ s3) = String c (s1 +:+ s2 +:+ s3)).
  by rewrite IH.
Qed.

Lemma dumps_tx (item_sep key_sep : string) (tx : Main.Transaction) :
  Json.dumps item_sep key_sep (Main.tx_dict tx) = Main.tx_text item_sep key_sep tx.
Proof.
  unfold Json.dumps. rewrite sorted_items_tx. unfold Main.tx_text, Json.item.
  cbn [fmap list_fmap Json.str_join fst snd Json.value].
  by rewrite !app_assoc_string.
Qed.

(** The canonical text has a blank only where the printed amount or a
    string field has one. *)
Lemma canonical_blank (tx : Main.Transaction) :
  Json.has Json.blank (Main.canonical tx)
  = Json.has Json.blank (float_repr (Main.amount tx))
    || Json.has Json.space (Main.timestamp tx)
    || Json.has Json.space (Main.to tx).
Proof.
  unfold Main.canonical. rewrite dumps_tx. unfold Main.tx_text.
  rewrite !has_app, !quoted_blank, pretty_Z_blank.
  generalize (Json.has Json.blank (float_repr (Main.amount tx)))
    (Json.has Json.space (Main.timestamp tx)) (Json.has Json.space (Main.to tx)).
  by intros [] [] [].
Qed.

End CanonicalFacts.

(** C5, as amended. [canonical] is deterministic and free of extraneous
    whitespace: its output is the four fields in alphabetically sorted key
    order, joined by a comma and a colon alone, so that a blank occurs in
    it only where the printed amount or a string field has one;
    transactions with the same field values have the same canonical
    bytes, and the order in which the items of a dictionary were inserted
    does not show in a dump. The replay fingerprint and the entropy hash
    are not taken over the canonical bytes: they are the SHA-256 digests
    of the sorted-key dump with the default separators, a comma and a
    space, a colon and a space (followed by the signature for the
    fingerprint), which is order free in the same way. *)
Theorem canonical_sorted_compact `{Builtins}
    (tx tx' : Main.Transaction) (d1 d2 : pydict) (signature : string) :
  Main.canonical tx = Main.tx_text "," ":" tx
  ∧ Json.has Json.blank (Main.canonical tx)
    = Json.has Json.blank (float_repr (Main.amount tx))
      || Json.has Json.space (Main.timestamp tx)
      || Json.has Json.space (Main.to tx)
  ∧ (Main.amount tx = Main.amount tx' → Main.to tx = Main.to tx' →
     Main.nonce tx = Main.nonce tx' → Main.timestamp tx = Main.timestamp tx' →
     Main.canonical tx = Main.canonical tx')
  ∧ (NoDup (Py.keys d1) → d1 ≡ₚ d2 →
     Json.dumps "," ":" d1 = Json.dumps "," ":" d2
     ∧ Analyzer.hashed_text d1 = Analyzer.hashed_text d2
     ∧ Replay.preimage d1 signature = Replay.preimage d2 signature)
  ∧ Analyzer.msg_hash (Main.tx_dict tx)
    = sha256_hexdigest (Main.tx_text ", " ": " tx)
  ∧ Replay.key (Main.tx_dict tx) signature
    = sha256_hexdigest (Main.tx_text ", " ": " tx +:+ signature).
Proof.
  split_and!.
  - apply dumps_tx.
  - apply canonical_blank.
  - intros Ha Ht Hn Hs. unfold Main.canonical.
    rewrite !(dumps_tx "," ":"). unfold Main.tx_text.
    by rewrite Ha, Ht, Hn, Hs.
  - intros Hnd Hperm. unfold Replay.preimage, Analyzer.hashed_text, Json.dumps_default.
    by rewrite !(dumps_order_free _ _ d1 d2).
  - unfold Analyzer.msg_hash, Analyzer.hashed_text, Json.dumps_default.
    by rewrite dumps_tx.
  - unfold Replay.key, Replay.preimage, Json.dumps_default.
    by rewrite dumps_tx.
Qed.

Lemma canonical_sorted_compact_witness :
  @Json.dumps Sample.python "," ":" Sample.tx_json
  = @Json.dumps Sample.python "," ":" Sample.tx_json_reordered
  ∧ @Main.canonical Sample.python Sample.tx
    = @Main.canonical Sample.python
        {| Main.amount := 100; Main.to := "bob"; Main.nonce := 1;
           Main.timestamp := "2024-01-01T00:00:00Z" |}.
Proof.
  destruct (@canonical_sorted_compact Sample.python Sample.tx Sample.tx
              Sample.tx_json Sample.tx_json_reordered "")
    as (_ & _ & Hfields & Horder & _).
  split.
  - apply Horder.
    + apply (bool_decide_unpack _). vm_compute. exact I.
    + symmetry. apply (reverse_Permutation Sample.tx_json).
  - apply Hfields; reflexivity.
Defined.

(** The negation of C5 as stated, at the transaction of the scenarios: the
    text whose digest the analyzer and the replay guard take is not the
    canonical text, and the digests differ. *)
Lemma hashes_not_over_canonical_bytes :
  @Analyzer.hashed_text Sample.python Sample.tx_json
    ≠ @Main.canonical Sample.python Sample.tx
  ∧ @Analyzer.msg_hash Sample.python Sample.tx_json
    ≠ Sha256.hexdigest (@Main.canonical Sample.python Sample.tx)
  ∧ @Replay.key Sample.python Sample.tx_json "5369676e6174757265"
    ≠ Sha256.hexdigest
        (@Main.canonical Sample.python Sample.tx +:+ "5369676e6174757265").
Proof. split_and!; vm_compute; discriminate. Qed.

(* ===================================================================== *)
(** * Properties: the replay guard                                        *)
(* ===================================================================== *)

Section ReplayFacts.
Context `{Builtins}.

Lemma detect_replay_fresh (seen : gset string) tx signature :
  Replay.key tx signature ∉ seen →
  Replay.detect_replay seen tx signature
  = (false, {[ Replay.key tx signature ]} ∪ seen).
Proof. intros Hk. unfold Replay.detect_replay. by rewrite bool_decide_false. Qed.

Lemma detect_replay_seen (seen : gset string) tx signature :
  Replay.key tx signature ∈ seen →
  Replay.detect_replay seen tx signature = (true, seen).
Proof. intros Hk. unfold Replay.detect_replay. by rewrite bool_decide_true. Qed.

(** The very first call of the process. *)
Lemma detect_replay_first_call tx signature :
  Replay.detect_replay ∅ tx signature = (false, {[ Replay.key tx signature ]}).
Proof.
  rewrite detect_replay_fresh by apply not_elem_of_empty.
  by rewrite (right_id_L ∅ (∪)).
Qed.

(** Insertion is the only mutation, and a call records its fingerprint. *)
Lemma detect_replay_grows (seen : gset string) tx signature :
  seen ⊆ (Replay.detect_replay seen tx signature).2.
Proof. unfold Replay.detect_replay. case_bool_decide; set_solver. Qed.

Lemma detect_replay_records (seen : gset string) tx signature :
  Replay.key tx signature ∈ (Replay.detect_replay seen tx signature).2.
Proof. unfold Replay.detect_replay. case_bool_decide; set_solver. Qed.

Lemma run_grows (calls : list (pydict * string)) (seen : gset string) :
  seen ⊆ (Replay.run seen calls).2.
Proof.
  revert seen. induction calls as [|[tx signature] calls IH]; intros seen; [done|].
  cbn [Replay.run].
  pose proof (detect_replay_grows seen tx signature) as Hstep.
  destruct (Replay.detect_replay seen tx signature) as [b seen'].
  specialize (IH seen'). destruct (Replay.run seen' calls) as [bs seen''].
  simpl in *. set_solver.
Qed.

(** Once a pair has been submitted, every later submission of it is a
    replay and leaves the set as it is, whatever was submitted between. *)
Lemma detect_replay_again (seen : gset string) tx signature
    (between : list (pydict * string)) :
  let seen1 := (Replay.detect_replay seen tx signature).2 in
  let seen2 := (Replay.run seen1 between).2 in
  Replay.detect_replay seen2 tx signature = (true, seen2).
Proof.
  intros seen1 seen2. apply detect_replay_seen.
  apply (run_grows between seen1), detect_replay_records.
Qed.

End ReplayFacts.

(* ===================================================================== *)
(** * Properties: the risk aggregation of the analyzer                    *)
(* ===================================================================== *)

Lemma Qltb_lt (x y : Q) : Py.Qltb x y = true ↔ (x < y)%Q.
Proof.
  unfold Py.Qltb. rewrite negb_true_iff, <- not_true_iff_false, Qle_bool_iff.
  split; [apply Qnot_le_lt | apply Qlt_not_le].
Qed.

(** Replay, timing and ZKP keep a risk that is already high. *)
Lemma replay_signal_keeps_high b v :
  Analyzer.v_risk v = "high" → Analyzer.v_risk (Analyzer.replay_signal b v) = "high".
Proof. by destruct b. Qed.

Lemma timing_signal_keeps_high t v :
  Analyzer.v_risk v = "high" → Analyzer.v_risk (Analyzer.timing_signal t v) = "high".
Proof.
  intros Hv. unfold Analyzer.timing_signal.
  destruct (Py.Qltb 0.85 t); [done|]. destruct (Py.Qltb 0.45 t); [|done].
  cbn. by rewrite Hv.
Qed.

Lemma zkp_signal_keeps_high r v :
  Analyzer.v_risk v = "high" → Analyzer.v_risk (Analyzer.zkp_signal r v) = "high".
Proof. unfold Analyzer.zkp_signal. by destruct (negb r.1). Qed.

(** The entropy signal keeps it outside its middle band only. *)
Lemma entropy_signal_keeps_high e v :
  Py.Qltb e 0.15 = true ∨ Py.Qltb e 0.35 = false →
  Analyzer.v_risk v = "high" → Analyzer.v_risk (Analyzer.entropy_signal e v) = "high".
Proof.
  intros He Hv. unfold Analyzer.entropy_signal.
  destruct (Py.Qltb e 0.15); [done|]. destruct He as [? | ->]; done.
Qed.

Lemma entropy_signal_middle_band e v :
  Py.Qltb e 0.15 = false → Py.Qltb e 0.35 = true →
  Analyzer.entropy_signal e v
  = Analyzer.Verdict (Analyzer.v_issues v ++ ["Low message entropy"])
      (Analyzer.v_secure v) "medium".
Proof. intros H1 H2. unfold Analyzer.entropy_signal. by rewrite H1, H2. Qed.

(** No signal sets [secure] back to true. *)
Lemma replay_signal_keeps_insecure b v :
  Analyzer.v_secure v = false → Analyzer.v_secure (Analyzer.replay_signal b v) = false.
Proof. by destruct b. Qed.

Lemma entropy_signal_keeps_insecure e v :
  Analyzer.v_secure v = false → Analyzer.v_secure (Analyzer.entropy_signal e v) = false.
Proof.
  unfold Analyzer.entropy_signal.
  by destruct (Py.Qltb e 0.15), (Py.Qltb e 0.35).
Qed.

Lemma timing_signal_keeps_insecure t v :
  Analyzer.v_secure v = false → Analyzer.v_secure (Analyzer.timing_signal t v) = false.
Proof.
  unfold Analyzer.timing_signal.
  by destruct (Py.Qltb 0.85 t), (Py.Qltb 0.45 t).
Qed.

Lemma zkp_signal_keeps_insecure r v :
  Analyzer.v_secure v = false → Analyzer.v_secure (Analyzer.zkp_signal r v) = false.
Proof. unfold Analyzer.zkp_signal. by destruct (negb r.1). Qed.

(** Each signal keeps the invariant that a high risk is not secure. *)
Lemma replay_signal_consistent b v :
  (Analyzer.v_risk v = "high" → Analyzer.v_secure v = false) →
  Analyzer.v_risk (Analyzer.replay_signal b v) = "high" →
  Analyzer.v_secure (Analyzer.replay_signal b v) = false.
Proof. destruct b; cbn; auto. Qed.

Lemma entropy_signal_consistent e v :
  (Analyzer.v_risk v = "high" → Analyzer.v_secure v = false) →
  Analyzer.v_risk (Analyzer.entropy_signal e v) = "high" →
  Analyzer.v_secure (Analyzer.entropy_signal e v) = false.
Proof.
  unfold Analyzer.entropy_signal.
  destruct (Py.Qltb e 0.15); [done|]. destruct (Py.Qltb e 0.35); cbn; [discriminate|auto].
Qed.

Lemma timing_signal_consistent t v :
  (Analyzer.v_risk v = "high" → Analyzer.v_secure v = false) →
  Analyzer.v_risk (Analyzer.timing_signal t v) = "high" →
  Analyzer.v_secure (Analyzer.timing_signal t v) = false.
Proof.
  unfold Analyzer.timing_signal.
  destruct (Py.Qltb 0.85 t); [done|]. destruct (Py.Qltb 0.45 t); cbn; [|auto].
  destruct (String.eqb (Analyzer.v_risk v) "high"); cbn; [auto|discriminate].
Qed.

Lemma zkp_signal_consistent r v :
  (Analyzer.v_risk v = "high" → Analyzer.v_secure v = false) →
  Analyzer.v_risk (Analyzer.zkp_signal r v) = "high" →
  Analyzer.v_secure (Analyzer.zkp_signal r v) = false.
Proof. unfold Analyzer.zkp_signal. destruct (negb r.1); cbn; auto. Qed.

Section AnalyzerFacts.
Context `{Builtins}.

(** [analyze_transaction] as the four signals applied in order. *)
Lemma analyze_transaction_signals seen jitter tx signature algorithm zkp :
  let replayed := (Replay.detect_replay seen tx signature).1 in
  let e := Analyzer.hex_entropy (Analyzer.msg_hash tx) in
  let timing := Sidechannel.timing_leak_score jitter tx in
  let v3 := Analyzer.timing_signal timing
              (Analyzer.entropy_signal e
                 (Analyzer.replay_signal replayed Analyzer.start)) in
  Analyzer.analyze_transaction seen jitter tx signature algorithm zkp
  = ((Replay.detect_replay seen tx signature).2,
     v ← match zkp with
         | Some z =>
             r ← ZkpLayer.verify_zkp_attributes tx (Some z);
             Some (Analyzer.zkp_signal r v3)
         | None => Some v3
         end;
     Some {| Analyzer.secure := Analyzer.v_secure v;
             Analyzer.risk := Analyzer.v_risk v;
             Analyzer.issues := Analyzer.v_issues v;
             Analyzer.metrics :=
               {| Analyzer.entropy := Analyzer.round3 e;
                  Analyzer.timing_leak_score := Analyzer.round3 timing |} |}).
Proof.
  unfold Analyzer.analyze_transaction.
  by destruct (Replay.detect_replay seen tx signature).
Qed.

(** Without a ZKP the analyzer always returns an analysis. *)
Lemma analyze_transaction_total seen jitter tx signature algorithm :
  is_Some (Analyzer.analyze_transaction seen jitter tx signature algorithm None).2.
Proof. rewrite analyze_transaction_signals. cbn. eauto. Qed.

Lemma analyze_transaction_consistent seen jitter tx signature algorithm zkp a :
  (Analyzer.analyze_transaction seen jitter tx signature algorithm zkp).2 = Some a →
  Analyzer.risk a = "high" → Analyzer.secure a = false.
Proof.
  rewrite analyze_transaction_signals. cbn [snd].
  set (v3 := Analyzer.timing_signal _ _).
  assert (Analyzer.v_risk v3 = "high" → Analyzer.v_secure v3 = false) as H3.
  { apply timing_signal_consistent, entropy_signal_consistent,
      replay_signal_consistent. discriminate. }
  destruct zkp as [z|].
  - destruct (ZkpLayer.verify_zkp_attributes tx (Some z)) as [r|]; [|done].
    cbn. intros [= <-]. cbn. by apply zkp_signal_consistent.
  - cbn. intros [= <-]. cbn. exact H3.
Qed.

(** A replayed pair whose digest has an entropy in the middle band ends
    with a medium risk, unless the timing signal raises it again. *)
Lemma replayed_pair_in_middle_band seen jitter tx signature algorithm :
  let e := Analyzer.hex_entropy (Analyzer.msg_hash tx) in
  Replay.key tx signature ∈ seen →
  Py.Qltb e 0.15 = false → Py.Qltb e 0.35 = true →
  Py.Qltb 0.85 (Sidechannel.timing_leak_score jitter tx) = false →
  ∃ a, Analyzer.analyze_transaction seen jitter tx signature algorithm None
       = (seen, Some a)
       ∧ Analyzer.risk a = "medium" ∧ Analyzer.secure a = false
       ∧ "Replay attack detected" ∈ Analyzer.issues a.
Proof.
  intros e Hseen H1 H2 Ht. rewrite analyze_transaction_signals.
  rewrite detect_replay_seen by done. cbn [fst snd].
  fold e. rewrite (entropy_signal_middle_band e _ H1 H2).
  unfold Analyzer.timing_signal. rewrite Ht. cbn.
  destruct (Py.Qltb 0.45 _); cbn; eexists; (split; [reflexivity|]); cbn;
    split_and!; try done; set_solver.
Qed.

(** Outside the middle band a replay verdict stands. *)
Lemma replayed_pair_outside_middle_band seen jitter tx signature algorithm zkp a :
  let e := Analyzer.hex_entropy (Analyzer.msg_hash tx) in
  Replay.key tx signature ∈ seen →
  Py.Qltb e 0.15 = true ∨ Py.Qltb e 0.35 = false →
  (Analyzer.analyze_transaction seen jitter tx signature algorithm zkp).2 = Some a →
  Analyzer.risk a = "high" ∧ Analyzer.secure a = false.
Proof.
  intros e Hseen He. rewrite analyze_transaction_signals.
  rewrite detect_replay_seen by done. cbn [fst snd]. fold e.
  set (v3 := Analyzer.timing_signal _ _).
  assert (Analyzer.v_risk v3 = "high" ∧ Analyzer.v_secure v3 = false) as [Hr Hs].
  { split.
    - by apply timing_signal_keeps_high, entropy_signal_keeps_high.
    - by apply timing_signal_keeps_insecure, entropy_signal_keeps_insecure. }
  destruct zkp as [z|].
  - destruct (ZkpLayer.verify_zkp_attributes tx (Some z)) as [r|]; [|done].
    cbn. intros [= <-]. cbn.
    split; [by apply zkp_signal_keeps_high | by apply zkp_signal_keeps_insecure].
  - cbn. by intros [= <-].
Qed.

(** A risk that is high after the entropy signal is high in the end: the
    entropy signal is the only one that can lower it. *)
Lemma high_after_entropy_signal_stays seen jitter tx signature algorithm zkp a :
  let v2 := Analyzer.entropy_signal (Analyzer.hex_entropy (Analyzer.msg_hash tx))
              (Analyzer.replay_signal
                 (Replay.detect_replay seen tx signature).1 Analyzer.start) in
  Analyzer.v_risk v2 = "high" →
  (Analyzer.analyze_transaction seen jitter tx signature algorithm zkp).2 = Some a →
  Analyzer.risk a = "high" ∧ Analyzer.secure a = false.
Proof.
  intros v2 Hhigh Ha.
  assert (Analyzer.risk a = "high") as Hrisk.
  { revert Ha. rewrite analyze_transaction_signals. cbn [snd]. fold v2.
    destruct zkp as [z|].
    - destruct (ZkpLayer.verify_zkp_attributes tx (Some z)) as [r|]; [|done].
      cbn. intros [= <-]. cbn.
      by apply zkp_signal_keeps_high, timing_signal_keeps_high.
    - cbn. intros [= <-]. cbn. by apply timing_signal_keeps_high. }
  split; [done|]. by apply (analyze_transaction_consistent _ _ _ _ _ _ _ Ha).
Qed.

(** A failed ZKP verification is the last signal: the analysis is high
    and not secure, and carries the issue. *)
Lemma zkp_failure_forces_high seen jitter tx signature algorithm z issue :
  ZkpLayer.verify_zkp_attributes tx (Some z) = Some (false, issue) →
  ∃ a, (Analyzer.analyze_transaction seen jitter tx signature algorithm (Some z)).2
       = Some a
       ∧ Analyzer.risk a = "high" ∧ Analyzer.secure a = false
       ∧ issue ∈ Analyzer.issues a.
Proof.
  intros Hz. rewrite analyze_transaction_signals. cbn [snd]. rewrite Hz. cbn.
  eexists. split; [reflexivity|]. cbn. split_and!; try done. set_solver.
Qed.

End AnalyzerFacts.

(* ===================================================================== *)
(** * Properties: the ZKP layer                                           *)
(* ===================================================================== *)

Lemma verify_zkp_absent tx : ZkpLayer.verify_zkp_attributes tx None = Some (true, "").
Proof. reflexivity. Qed.

Lemma verify_zkp_not_enabled tx zkp :
  ZkpLayer.field_truthy
    (default (ZkpLayer.FVal (PBool false)) (ZkpLayer.zget zkp "enable")) = false →
  ZkpLayer.verify_zkp_attributes tx (Some zkp) = Some (true, "").
Proof.
  intros Hen. unfold ZkpLayer.verify_zkp_attributes.
  destruct zkp; [done|]. by rewrite Hen.
Qed.

(** The verdict of an enabled ZKP whose attributes are a list and whose
    public inputs are a dictionary, on a transaction whose amount is a
    number: the checks in the order of the code. *)
Lemma verify_zkp_enabled tx zkp attrs inputs positive :
  ZkpLayer.field_truthy
    (default (ZkpLayer.FVal (PBool false)) (ZkpLayer.zget zkp "enable")) = true →
  default (ZkpLayer.FList []) (ZkpLayer.zget zkp "attributes") = ZkpLayer.FList attrs →
  default (ZkpLayer.FDict []) (ZkpLayer.zget zkp "public_inputs") = ZkpLayer.FDict inputs →
  Py.gt_int (Py.get_default tx "amount" (PInt 0)) 0 = Some positive →
  let has name := existsb (Py.eqb (PStr name)) attrs in
  let input name := default PNone (Py.get inputs name) in
  ZkpLayer.verify_zkp_attributes tx (Some zkp)
  = Some
      (if negb (has "amount_gt_zero")
       then (false, "Missing ZKP attribute: amount_gt_zero")
       else if negb (Py.has_key inputs "amount_gt_zero")
       then (false, "Missing ZKP public input: amount_gt_zero")
       else if Py.neb (input "amount_gt_zero") (PBool positive)
       then (false, "ZKP verification failed: amount_gt_zero mismatch")
       else if has "nonce"
               && Py.neb (input "nonce") (default PNone (Py.get tx "nonce"))
       then (false, "ZKP verification failed: nonce mismatch")
       else if has "recipient"
               && Py.neb (input "recipient") (default PNone (Py.get tx "to"))
       then (false, "ZKP verification failed: recipient mismatch")
       else (true, "")).
Proof.
  intros Hen Hat Hin Hamt has input. unfold ZkpLayer.verify_zkp_attributes.
  destruct zkp as [|p zkp]; [discriminate Hen|].
  rewrite Hen, Hat, Hin. cbn [negb ZkpLayer.contains ZkpLayer.field_get].
  rewrite Hamt. fold (has "amount_gt_zero") (has "nonce") (has "recipient").
  fold (input "amount_gt_zero") (input "nonce") (input "recipient").
  cbn [mbind option_bind].
  destruct (has "amount_gt_zero"); cbn [negb]; [|done].
  destruct (Py.has_key inputs "amount_gt_zero"); cbn [negb]; [|done].
  destruct (Py.neb (input "amount_gt_zero") (PBool positive)); [done|].
  destruct (has "nonce"); cbn [andb mbind option_bind].
  - destruct (Py.neb (input "nonce") _); [done|].
    destruct (has "recipient"); cbn [andb mbind option_bind]; [|done].
    by destruct (Py.neb (input "recipient") _).
  - destruct (has "recipient"); cbn [andb mbind option_bind]; [|done].
    by destruct (Py.neb (input "recipient") _).
Qed.

(** Closes a case in which the checks of the ZKP layer have been decided:
    [Hv] gives the verdict, and a failure is carried into the analysis. *)
Ltac verdict_of Hv :=
  cbn [negb orb] in *; eexists _, _;
  split_and!; [exact Hv | done | done | done | ];
  first [ discriminate | intros _; by apply zkp_failure_forces_high ].

(** C6, as amended: the flag is the entry [enable] of the dictionary.
    Verification returns [(True, "")] when the ZKP is absent or its
    [enable] entry is missing or falsy. When it is enabled (with a list of
    attributes, a dictionary of public inputs and a numeric amount) it
    fails exactly when [amount_gt_zero] is missing from the attributes or
    from the public inputs, with an issue naming what is missing, or the
    public input [amount_gt_zero] differs from [amount > 0], or a listed
    attribute [nonce] or [recipient] has a public input that differs from
    the transaction's [nonce] or [to]. A failure makes the analysis high
    and not secure and puts the issue into it. The ZKP of scenario 4,
    written with [enable], fails with the mismatch issue. *)
Theorem zkp_verification_rule `{Builtins} (tx : pydict)
    (zkp : ZkpLayer.zkp_dict) (attrs : list pyval) (inputs : pydict)
    (positive : bool) (seen : gset string) (jitter : Q)
    (signature algorithm : string) :
  let enable :=
    ZkpLayer.field_truthy
      (default (ZkpLayer.FVal (PBool false)) (ZkpLayer.zget zkp "enable")) in
  let has name := existsb (Py.eqb (PStr name)) attrs in
  let input name := default PNone (Py.get inputs name) in
  ZkpLayer.verify_zkp_attributes tx None = Some (true, "")
  ∧ (enable = false → ZkpLayer.verify_zkp_attributes tx (Some zkp) = Some (true, ""))
  ∧ (enable = true →
     default (ZkpLayer.FList []) (ZkpLayer.zget zkp "attributes") = ZkpLayer.FList attrs →
     default (ZkpLayer.FDict []) (ZkpLayer.zget zkp "public_inputs") = ZkpLayer.FDict inputs →
     Py.gt_int (Py.get_default tx "amount" (PInt 0)) 0 = Some positive →
     ∃ ok issue,
       ZkpLayer.verify_zkp_attributes tx (Some zkp) = Some (ok, issue)
       ∧ ok = negb
                (negb (has "amount_gt_zero")
                 || negb (Py.has_key inputs "amount_gt_zero")
                 || Py.neb (input "amount_gt_zero") (PBool positive)
                 || has "nonce"
                    && Py.neb (input "nonce") (default PNone (Py.get tx "nonce"))
                 || has "recipient"
                    && Py.neb (input "recipient") (default PNone (Py.get tx "to")))
       ∧ (has "amount_gt_zero" = false →
          issue = "Missing ZKP attribute: amount_gt_zero")
       ∧ (has "amount_gt_zero" = true → Py.has_key inputs "amount_gt_zero" = false →
          issue = "Missing ZKP public input: amount_gt_zero")
       ∧ (ok = false →
          ∃ a, (Analyzer.analyze_transaction seen jitter tx signature algorithm
                  (Some zkp)).2 = Some a
               ∧ Analyzer.risk a = "high" ∧ Analyzer.secure a = false
               ∧ issue ∈ Analyzer.issues a))
  ∧ ZkpLayer.verify_zkp_attributes Sample.tx_json (Some Sample.zkp_enable)
    = Some (false, "ZKP verification failed: amount_gt_zero mismatch").
Proof.
  intros enable has input. split_and!.
  - apply verify_zkp_absent.
  - apply verify_zkp_not_enabled.
  - intros Hen Hat Hin Hamt.
    pose proof (verify_zkp_enabled tx zkp attrs inputs positive Hen Hat Hin Hamt)
      as Hv. cbn zeta in Hv. fold has input in Hv.
    destruct (has "amount_gt_zero"); [|verdict_of Hv].
    destruct (Py.has_key inputs "amount_gt_zero"); [|verdict_of Hv].
    destruct (Py.neb (input "amount_gt_zero") (PBool positive)); [verdict_of Hv|].
    destruct (has "nonce" && _); [verdict_of Hv|].
    destruct (has "recipient" && _); verdict_of Hv.
  - reflexivity.
Qed.

Lemma zkp_verification_rule_witness :
  (∃ a, (@Analyzer.analyze_transaction Sample.python ∅ 0.1 Sample.tx_json
           "5369676e6174757265" "pqc" (Some Sample.zkp_enable)).2 = Some a
        ∧ Analyzer.risk a = "high" ∧ Analyzer.secure a = false
        ∧ "ZKP verification failed: amount_gt_zero mismatch" ∈ Analyzer.issues a)
  ∧ ZkpLayer.verify_zkp_attributes Sample.tx_json
      (Some [("enable", ZkpLayer.FVal (PBool false));
             ("attributes", ZkpLayer.FList [])]) = Some (true, "")
  ∧ ZkpLayer.verify_zkp_attributes Sample.tx_json
      (Some [("enable", ZkpLayer.FVal (PBool true));
             ("attributes", ZkpLayer.FList [PStr "nonce"])])
    = Some (false, "Missing ZKP attribute: amount_gt_zero")
  ∧ ZkpLayer.verify_zkp_attributes Sample.tx_json
      (Some [("enable", ZkpLayer.FVal (PBool true));
             ("attributes", ZkpLayer.FList [PStr "amount_gt_zero"])])
    = Some (false, "Missing ZKP public input: amount_gt_zero").
Proof.
  split_and!.
  - destruct (@zkp_verification_rule Sample.python Sample.tx_json Sample.zkp_enable
                [PStr "amount_gt_zero"] [("amount_gt_zero", PBool false)] true
                ∅ 0.1 "5369676e6174757265" "pqc")
      as (_ & _ & Hrule & Hscenario).
    destruct Hrule as (ok & issue & Hv & Hok & _ & _ & Hhigh);
      [reflexivity..|].
    rewrite Hscenario in Hv. injection Hv as <- <-.
    apply Hhigh. reflexivity.
  - destruct (@zkp_verification_rule Sample.python Sample.tx_json
                [("enable", ZkpLayer.FVal (PBool false));
                 ("attributes", ZkpLayer.FList [])]
                [] [] true ∅ 0.1 "" "pqc") as (_ & Hoff & _).
    apply Hoff. reflexivity.
  - destruct (@zkp_verification_rule Sample.python Sample.tx_json
                [("enable", ZkpLayer.FVal (PBool true));
                 ("attributes", ZkpLayer.FList [PStr "nonce"])]
                [PStr "nonce"] [] true ∅ 0.1 "" "pqc") as (_ & _ & Hrule & _).
    destruct Hrule as (ok & issue & Hv & Hok & Hattr & _); [reflexivity..|].
    etrans; [exact Hv|]. f_equal. f_equal; [by rewrite Hok | by apply Hattr].
  - destruct (@zkp_verification_rule Sample.python Sample.tx_json
                [("enable", ZkpLayer.FVal (PBool true));
                 ("attributes", ZkpLayer.FList [PStr "amount_gt_zero"])]
                [PStr "amount_gt_zero"] [] true ∅ 0.1 "" "pqc")
      as (_ & _ & Hrule & _).
    destruct Hrule as (ok & issue & Hv & Hok & _ & Hinput & _); [reflexivity..|].
    etrans; [exact Hv|]. f_equal. f_equal; [by rewrite Hok | by apply Hinput].
Defined.

(** The negation of C6 as stated, at the ZKP of scenario 4 written with
    [enabled]: the code reads [enable], takes the ZKP as not enabled,
    and the analysis stays low and secure. *)
Lemma zkp_enabled_key_is_not_read :
  ZkpLayer.verify_zkp_attributes Sample.tx_json (Some Sample.zkp_enabled)
  = Some (true, "")
  ∧ ∃ a, (@Analyzer.analyze_transaction Sample.python ∅ 0.1 Sample.tx_json
            "5369676e6174757265" "pqc" (Some Sample.zkp_enabled)).2 = Some a
         ∧ Analyzer.risk a = "low" ∧ Analyzer.secure a = true
         ∧ Analyzer.issues a = [].
Proof.
  split; [reflexivity|].
  eexists. split; [rewrite analyze_transaction_signals; vm_compute; reflexivity|].
  by vm_compute.
Qed.

(* ===================================================================== *)
(** * Properties: the downgrade guards                                    *)
(* ===================================================================== *)

(** ** main.py *)

Lemma main_downgrade_detected (mode : gmap string bool) w :
  mode !! w = Some true → Main.detect_downgrade mode w false = (true, mode).
Proof. intros Hw. unfold Main.detect_downgrade. by rewrite bool_decide_true. Qed.

Lemma main_downgrade_recorded (mode : gmap string bool) w is_pqc :
  is_pqc = true ∨ mode !! w ≠ Some true →
  Main.detect_downgrade mode w is_pqc = (false, <[w := is_pqc]> mode).
Proof.
  intros [-> | Hw]; unfold Main.detect_downgrade.
  - by rewrite andb_false_r.
  - by rewrite bool_decide_false.
Qed.

(** A recorded PQC mode is never lost. *)
Lemma main_pqc_mode_kept (mode : gmap string bool) w w' is_pqc :
  mode !! w = Some true →
  (Main.detect_downgrade mode w' is_pqc).2 !! w = Some true.
Proof.
  intros Hw. unfold Main.detect_downgrade.
  destruct (bool_decide (mode !! w' = Some true) && negb is_pqc) eqn:E; [done|].
  cbn. destruct (decide (w' = w)) as [->|Hne].
  - rewrite lookup_insert_eq. rewrite bool_decide_true in E by done.
    by destruct is_pqc.
  - by rewrite lookup_insert_ne.
Qed.

Lemma main_run_pqc_never_rejected (calls : list (string * bool))
    (mode : gmap string bool) w j :
  calls !! j = Some (w, true) → (Main.run_downgrade mode calls).1 !! j = Some false.
Proof.
  revert mode j. induction calls as [|[w' b] calls IH]; intros mode j Hj; [done|].
  cbn [Main.run_downgrade].
  destruct (Main.detect_downgrade mode w' b) as [v mode'] eqn:Hstep.
  specialize (IH mode'). destruct (Main.run_downgrade mode' calls) as [vs mode''].
  destruct j as [|j]; cbn in *.
  - injection Hj as -> ->.
    rewrite main_downgrade_recorded in Hstep by auto. by injection Hstep as <- _.
  - by apply IH.
Qed.

Lemma main_run_classical_rejected (calls : list (string * bool))
    (mode : gmap string bool) w j :
  mode !! w = Some true → calls !! j = Some (w, false) →
  (Main.run_downgrade mode calls).1 !! j = Some true.
Proof.
  revert mode j. induction calls as [|[w' b] calls IH]; intros mode j Hw Hj; [done|].
  cbn [Main.run_downgrade].
  pose proof (main_pqc_mode_kept mode w w' b Hw) as Hkept.
  destruct (Main.detect_downgrade mode w' b) as [v mode'] eqn:Hstep.
  specialize (IH mode'). destruct (Main.run_downgrade mode' calls) as [vs mode''].
  destruct j as [|j]; cbn in *.
  - injection Hj as -> ->.
    rewrite main_downgrade_detected in Hstep by done. by injection Hstep as <- _.
  - by apply IH.
Qed.

(** After a PQC call of a sender, every later classical call of that
    sender is a downgrade, whatever was called between. *)
Lemma main_run_downgrade_after_pqc (calls : list (string * bool))
    (mode : gmap string bool) w i j :
  calls !! i = Some (w, true) → calls !! j = Some (w, false) → (i < j)%nat →
  (Main.run_downgrade mode calls).1 !! j = Some true.
Proof.
  revert mode i j. induction calls as [|[w' b] calls IH]; intros mode i j Hi Hj Hij;
    [done|].
  destruct j as [|j]; [lia|].
  cbn [Main.run_downgrade].
  destruct (Main.detect_downgrade mode w' b) as [v mode'] eqn:Hstep.
  destruct i as [|i]; cbn in Hi, Hj.
  - injection Hi as -> ->.
    rewrite main_downgrade_recorded in Hstep by auto. injection Hstep as <- <-.
    pose proof (main_run_classical_rejected calls (<[w := true]> mode) w j
                  (lookup_insert_eq _ _ _) Hj) as Hrej.
    by destruct (Main.run_downgrade (<[w := true]> mode) calls).
  - specialize (IH mode' i j Hi Hj ltac:(lia)).
    by destruct (Main.run_downgrade mode' calls).
Qed.

(** ** cryptanalysis/downgrade.py *)

Lemma pqc_downgrade_detected (history : gmap string bool) sender :
  Downgrade.used_pqc history sender = true →
  Downgrade.detect_downgrade history sender false = (true, history).
Proof. intros Hs. unfold Downgrade.detect_downgrade. by rewrite Hs. Qed.

Lemma pqc_downgrade_recorded (history : gmap string bool) sender is_pqc :
  is_pqc = true ∨ Downgrade.used_pqc history sender = false →
  let r := Downgrade.detect_downgrade history sender is_pqc in
  r.1 = false
  ∧ Downgrade.used_pqc r.2 sender = is_pqc
  ∧ ∀ other, other ≠ sender → r.2 !! other = history !! other.
Proof.
  intros Hcase. unfold Downgrade.detect_downgrade.
  destruct is_pqc; cbn.
  - rewrite andb_false_r. cbn. unfold Downgrade.used_pqc.
    rewrite lookup_insert_eq. split_and!; [done..|].
    intros other Hne. by rewrite lookup_insert_ne.
  - destruct Hcase as [|Hs]; [done|]. rewrite Hs. cbn. by split_and!.
Qed.

(** The two guards give the same verdicts: the dictionary of main.py holds
    [True] for a sender exactly when the history of downgrade.py does. *)
Lemma guards_step_agree (mode history : gmap string bool) w is_pqc :
  (∀ x, bool_decide (mode !! x = Some true) = Downgrade.used_pqc history x) →
  (Main.detect_downgrade mode w is_pqc).1
  = (Downgrade.detect_downgrade history w is_pqc).1
  ∧ ∀ x, bool_decide ((Main.detect_downgrade mode w is_pqc).2 !! x = Some true)
         = Downgrade.used_pqc (Downgrade.detect_downgrade history w is_pqc).2 x.
Proof.
  intros Hrel. unfold Main.detect_downgrade, Downgrade.detect_downgrade.
  rewrite (Hrel w).
  destruct (Downgrade.used_pqc history w) eqn:Hw, is_pqc; cbn; (split; [done|]);
    intros x; try apply Hrel; unfold Downgrade.used_pqc.
  - destruct (decide (w = x)) as [->|Hne].
    + rewrite !lookup_insert_eq. by rewrite bool_decide_true.
    + rewrite !lookup_insert_ne by done. apply Hrel.
  - destruct (decide (w = x)) as [->|Hne].
    + rewrite !lookup_insert_eq. by rewrite bool_decide_true.
    + rewrite !lookup_insert_ne by done. apply Hrel.
  - destruct (decide (w = x)) as [->|Hne].
    + rewrite lookup_insert_eq. rewrite bool_decide_false by done.
      symmetry. exact Hw.
    + rewrite lookup_insert_ne by done. apply Hrel.
Qed.

Lemma guards_run_agree (calls : list (string * bool))
    (mode history : gmap string bool) :
  (∀ x, bool_decide (mode !! x = Some true) = Downgrade.used_pqc history x) →
  (Main.run_downgrade mode calls).1 = (Downgrade.run history calls).1.
Proof.
  revert mode history.
  induction calls as [|[w b] calls IH]; intros mode history Hrel; [done|].
  cbn [Main.run_downgrade Downgrade.run].
  destruct (guards_step_agree mode history w b Hrel) as [Hv Hrel'].
  destruct (Main.detect_downgrade mode w b) as [v mode'].
  destruct (Downgrade.detect_downgrade history w b) as [v' history'].
  cbn in Hv, Hrel'. subst v'. specialize (IH mode' history' Hrel').
  destruct (Main.run_downgrade mode' calls), (Downgrade.run history' calls).
  cbn in *. by rewrite IH.
Qed.

Lemma history_as_mode (history : gmap string bool) x :
  bool_decide (history !! x = Some true) = Downgrade.used_pqc history x.
Proof.
  unfold Downgrade.used_pqc. destruct (history !! x) as [[]|]; cbn; by case_bool_decide.
Qed.

(** C8. The transition rule of the downgrade guard, for the guard of
    main.py and for the one of downgrade.py, whose record of a sender
    reads as [PQC_HISTORY.get(sender, False)]. If the record of the
    sender is PQC and the call is classical, the call returns true and
    leaves the record as it is; otherwise it returns false and the record
    of the sender is the mode of the call. So in every sequence of calls a
    PQC call returns false, also after an earlier PQC call; a sender
    without history signing classically is no downgrade; and after a PQC
    call of a sender every later classical call of that sender returns
    true. *)
Theorem downgrade_transition_rule (mode history : gmap string bool)
    (w : string) (is_pqc : bool) (calls : list (string * bool)) (i j : nat) :
  (mode !! w = Some true → Main.detect_downgrade mode w false = (true, mode))
  ∧ (is_pqc = true ∨ mode !! w ≠ Some true →
     Main.detect_downgrade mode w is_pqc = (false, <[w := is_pqc]> mode))
  ∧ (Downgrade.used_pqc history w = true →
     Downgrade.detect_downgrade history w false = (true, history))
  ∧ (is_pqc = true ∨ Downgrade.used_pqc history w = false →
     (Downgrade.detect_downgrade history w is_pqc).1 = false
     ∧ Downgrade.used_pqc (Downgrade.detect_downgrade history w is_pqc).2 w = is_pqc
     ∧ ∀ other, other ≠ w →
         (Downgrade.detect_downgrade history w is_pqc).2 !! other = history !! other)
  ∧ (calls !! j = Some (w, true) →
     (Main.run_downgrade mode calls).1 !! j = Some false
     ∧ (Downgrade.run history calls).1 !! j = Some false)
  ∧ (mode !! w = None → (Main.detect_downgrade mode w false).1 = false)
  ∧ (history !! w = None → (Downgrade.detect_downgrade history w false).1 = false)
  ∧ (calls !! i = Some (w, true) → calls !! j = Some (w, false) → (i < j)%nat →
     (Main.run_downgrade mode calls).1 !! j = Some true
     ∧ (Downgrade.run history calls).1 !! j = Some true).
Proof.
  split_and!.
  - apply main_downgrade_detected.
  - apply main_downgrade_recorded.
  - apply pqc_downgrade_detected.
  - apply pqc_downgrade_recorded.
  - intros Hj. split; [by apply (main_run_pqc_never_rejected _ _ w)|].
    rewrite <- (guards_run_agree calls history history) by apply history_as_mode.
    by apply (main_run_pqc_never_rejected _ _ w).
  - intros Hw. rewrite main_downgrade_recorded; [done|]. right. by rewrite Hw.
  - intros Hw. apply pqc_downgrade_recorded. right.
    unfold Downgrade.used_pqc. by rewrite Hw.
  - intros Hi Hj Hij. split; [by apply (main_run_downgrade_after_pqc _ _ w i j)|].
    rewrite <- (guards_run_agree calls history history) by apply history_as_mode.
    by apply (main_run_downgrade_after_pqc _ _ w i j).
Qed.

Lemma downgrade_transition_rule_witness :
  (Main.run_downgrade ∅ [("alice", true); ("bob", false); ("alice", false);
                         ("alice", true)]).1 !! 2%nat = Some true
  ∧ (Downgrade.run ∅ [("alice", true); ("bob", false); ("alice", false);
                      ("alice", true)]).1 !! 2%nat = Some true
  ∧ (Main.run_downgrade ∅ [("alice", true); ("bob", false); ("alice", false);
                           ("alice", true)]).1 !! 3%nat = Some false
  ∧ Main.detect_downgrade {[ "alice" := true ]} "alice" false
    = (true, {[ "alice" := true ]})
  ∧ Main.detect_downgrade ∅ "bob" false = (false, {[ "bob" := false ]})
  ∧ Downgrade.detect_downgrade {[ "alice" := true ]} "alice" false
    = (true, {[ "alice" := true ]})
  ∧ (Downgrade.detect_downgrade ∅ "bob" false).1 = false
  ∧ Downgrade.used_pqc (Downgrade.detect_downgrade ∅ "alice" true).2 "alice" = true.
Proof.
  pose proof (downgrade_transition_rule {[ "alice" := true ]}
                {[ "alice" := true ]} "alice" false [] 0 0)
    as (Hdetected & _ & Hdetected' & _).
  pose proof (downgrade_transition_rule ∅ ∅ "bob" false [] 0 0)
    as (_ & Hrecorded & _ & _ & _ & _ & Hfresh' & _).
  pose proof (downgrade_transition_rule ∅ ∅ "alice" true
                [("alice", true); ("bob", false); ("alice", false); ("alice", true)]
                0 3) as (_ & _ & _ & Hrecorded' & Hpqc & _).
  pose proof (downgrade_transition_rule ∅ ∅ "alice" true
                [("alice", true); ("bob", false); ("alice", false); ("alice", true)]
                0 2) as (_ & _ & _ & _ & _ & _ & _ & Hlater).
  destruct Hlater as [Hm Hh]; [reflexivity | reflexivity | lia |].
  destruct Hpqc as [Hp _]; [reflexivity|].
  destruct Hrecorded' as (_ & Hused & _); [by left|].
  split_and!.
  - exact Hm.
  - exact Hh.
  - exact Hp.
  - apply Hdetected. reflexivity.
  - rewrite Hrecorded by (right; discriminate). reflexivity.
  - apply Hdetected'. reflexivity.
  - apply Hfresh'. reflexivity.
  - exact Hused.
Defined.

(* ===================================================================== *)
(** * Properties: the risk oracle and the gate of main.py                 *)
(* ===================================================================== *)

Section GateFacts.
Context `{Builtins}.

(** The payload that is posted, when the three keys are there. *)
Lemma ask_oracle_posts env tx_dict a t ts :
  Py.get tx_dict "amount" = Some a → Py.get tx_dict "to" = Some t →
  Py.get tx_dict "timestamp" = Some ts →
  Main.ask_oracle env tx_dict
  = match Main.post env [ ("amount", a); ("sender_wallet", PStr "pqc_wallet");
                          ("receiver_wallet", t); ("timestamp", ts) ] with
    | Main.Raised => None
    | Main.Replied status_code json =>
        if status_code =? 200
        then data ← json;
             Main.py_int (Py.get_default data "risk_score" (PInt 10))
        else Some 10
    end.
Proof. intros Ha Ht Hts. unfold Main.ask_oracle. by rewrite Ha, Ht, Hts. Qed.

Lemma get_ai_risk_on_exception env tx_dict :
  Main.ask_oracle env tx_dict = None → Main.get_ai_risk env tx_dict = 10.
Proof. intros Hask. unfold Main.get_ai_risk. by rewrite Hask. Qed.

Lemma generate_analysis_consistent env tx_dict algorithm a :
  Main.generate_analysis env tx_dict algorithm = Some a →
  Main.risk a = "high" → Main.secure a = false.
Proof.
  unfold Main.generate_analysis.
  destruct (Py.get tx_dict "amount") as [v|]; [|done]. cbn.
  destruct (Py.gt_int v 5000000) as [large|]; [|done]. cbn.
  intros [= <-]. cbn. by intros ->.
Qed.

(** Above the cutoff the score is 95, whatever the oracle and the draws. *)
Lemma generate_analysis_large env (tx : Main.Transaction) algorithm :
  (5000000 < Main.amount tx)%Q →
  Main.generate_analysis env (Main.tx_dict tx) algorithm
  = Some {| Main.secure := false; Main.risk := "high"; Main.risk_score := 95 |}.
Proof.
  intros Hlarge. unfold Main.generate_analysis. cbn [Py.get Main.tx_dict String.eqb].
  cbn. apply Qltb_lt in Hlarge. unfold Py.gt_int. cbn.
  change (inject_Z 5000000) with 5000000%Q. by rewrite Hlarge.
Qed.

(** An analysis of a transaction always comes out. *)
Lemma generate_analysis_total env (tx : Main.Transaction) algorithm :
  is_Some (Main.generate_analysis env (Main.tx_dict tx) algorithm).
Proof. unfold Main.generate_analysis. cbn. eauto. Qed.

(** The guard of main.py is called with [True] only, and then it never
    reports a downgrade. *)
Lemma detect_downgrade_pqc_call mode w :
  Main.detect_downgrade mode w true = (false, <[w := true]> mode).
Proof. apply main_downgrade_recorded. by left. Qed.

(** What a request in the classical branch does: the state is untouched,
    the guard is not consulted, and the outcome is that of the analysis. *)
Lemma sign_transaction_classical env st request :
  String.eqb (Main.lower (Main.algorithm request)) "pqc" = false →
  Main.sign_transaction env st request
  = (st,
     analysis ← Main.generate_analysis env (Main.tx_dict (Main.transaction request))
                  "ECDSA-SHA256";
     Some (if String.eqb (Main.risk analysis) "high"
           then Main.HTTPException 400 (Main.DetailAnalysis analysis)
           else Main.Created {|
                  Main.r_status := "success";
                  Main.r_signature :=
                    sha256_hexdigest (Main.canonical (Main.transaction request));
                  Main.r_algorithm := "ECDSA-SHA256";
                  Main.r_transaction_hash :=
                    sha256_hexdigest (Main.canonical (Main.transaction request));
                  Main.r_analysis := analysis;
                  Main.r_timestamp := Main.now_iso env;
                  Main.r_wallet_id := Main.wallet_id request |})).
Proof.
  intros Halg. unfold Main.sign_transaction. rewrite Halg.
  destruct (Main.generate_analysis _ _ _) as [a|]; [|done].
  cbn. by destruct (String.eqb (Main.risk a) "high").
Qed.

(** No request is ever answered with the downgrade rejection. *)
Lemma downgrade_rejection_unreachable env st request :
  (Main.sign_transaction env st request).2
  ≠ Some (Main.HTTPException 400 (Main.DetailText "Security downgrade detected")).
Proof.
  unfold Main.sign_transaction.
  destruct (String.eqb (Main.lower (Main.algorithm request)) "pqc").
  - rewrite detect_downgrade_pqc_call.
    destruct (Main.generate_analysis _ _ _) as [a|]; [|done].
    by destruct (String.eqb (Main.risk a) "high").
  - destruct (Main.generate_analysis _ _ _) as [a|]; [|done].
    by destruct (String.eqb (Main.risk a) "high").
Qed.

Lemma sign_transaction_large env st request :
  (5000000 < Main.amount (Main.transaction request))%Q →
  (Main.sign_transaction env st request).2
  = Some (Main.HTTPException 400
            (Main.DetailAnalysis
               {| Main.secure := false; Main.risk := "high";
                  Main.risk_score := 95 |})).
Proof.
  intros Hlarge. unfold Main.sign_transaction.
  destruct (String.eqb (Main.lower (Main.algorithm request)) "pqc").
  - rewrite detect_downgrade_pqc_call.
    by rewrite (generate_analysis_large _ _ _ Hlarge).
  - by rewrite (generate_analysis_large _ _ _ Hlarge).
Qed.

End GateFacts.

(** C9. [get_ai_risk] never lets a failure out: whenever the body of its
    [try] block raises, the result is 10. With the payload built, a
    request that raises (a timeout among them), a status other than 200
    and a body that cannot be read give 10; a 200 response gives its
    integer [risk_score], and 10 when the field is absent. *)
Theorem get_ai_risk_falls_back `{Builtins} (env : Main.Env) (tx_dict : pydict)
    (a t ts : pyval) :
  let payload := [ ("amount", a); ("sender_wallet", PStr "pqc_wallet");
                   ("receiver_wallet", t); ("timestamp", ts) ] in
  (Main.ask_oracle env tx_dict = None → Main.get_ai_risk env tx_dict = 10)
  ∧ (Py.get tx_dict "amount" = Some a → Py.get tx_dict "to" = Some t →
     Py.get tx_dict "timestamp" = Some ts →
     (Main.post env payload = Main.Raised → Main.get_ai_risk env tx_dict = 10)
     ∧ (∀ status_code json,
          Main.post env payload = Main.Replied status_code json →
          status_code ≠ 200 → Main.get_ai_risk env tx_dict = 10)
     ∧ (Main.post env payload = Main.Replied 200 None →
        Main.get_ai_risk env tx_dict = 10)
     ∧ (∀ data score,
          Main.post env payload = Main.Replied 200 (Some data) →
          Py.get data "risk_score" = Some (PInt score) →
          Main.get_ai_risk env tx_dict = score)
     ∧ (∀ data,
          Main.post env payload = Main.Replied 200 (Some data) →
          Py.get data "risk_score" = None →
          Main.get_ai_risk env tx_dict = 10)).
Proof.
  intros payload. split; [apply get_ai_risk_on_exception|].
  intros Ha Ht Hts. unfold Main.get_ai_risk.
  rewrite (ask_oracle_posts env tx_dict a t ts Ha Ht Hts). fold payload.
  split_and!.
  - by intros ->.
  - intros status_code json -> Hstatus.
    by rewrite (proj2 (Z.eqb_neq status_code 200) Hstatus).
  - by intros ->.
  - intros data score -> Hscore. cbn. unfold Py.get_default. by rewrite Hscore.
  - intros data -> Hscore. cbn. unfold Py.get_default. by rewrite Hscore.
Qed.

Lemma get_ai_risk_falls_back_witness :
  @Main.get_ai_risk Sample.python
    (Sample.env_of (Main.Replied 200 (Some [("risk_score", PInt 42)])))
    Sample.tx_json = 42
  ∧ @Main.get_ai_risk Sample.python (Sample.env_of Main.Raised) Sample.tx_json = 10
  ∧ @Main.get_ai_risk Sample.python
      (Sample.env_of (Main.Replied 503 None)) Sample.tx_json = 10
  ∧ @Main.get_ai_risk Sample.python
      (Sample.env_of (Main.Replied 200 (Some []))) Sample.tx_json = 10
  ∧ @Main.get_ai_risk Sample.python
      (Sample.env_of (Main.Replied 200 None)) Sample.tx_json = 10
  ∧ @Main.get_ai_risk Sample.python Sample.env [("amount", PFloat 100)] = 10.
Proof.
  split_and!.
  - destruct (@get_ai_risk_falls_back Sample.python
                (Sample.env_of (Main.Replied 200 (Some [("risk_score", PInt 42)])))
                Sample.tx_json (PFloat 100) (PStr "bob")
                (PStr "2024-01-01T00:00:00Z")) as [_ Hposted].
    destruct Hposted as (_ & _ & _ & Hscore & _); [reflexivity..|].
    apply (Hscore [("risk_score", PInt 42)]); reflexivity.
  - destruct (@get_ai_risk_falls_back Sample.python (Sample.env_of Main.Raised)
                Sample.tx_json (PFloat 100) (PStr "bob")
                (PStr "2024-01-01T00:00:00Z")) as [_ Hposted].
    destruct Hposted as (Hraised & _); [reflexivity..|].
    apply Hraised. reflexivity.
  - destruct (@get_ai_risk_falls_back Sample.python
                (Sample.env_of (Main.Replied 503 None))
                Sample.tx_json (PFloat 100) (PStr "bob")
                (PStr "2024-01-01T00:00:00Z")) as [_ Hposted].
    destruct Hposted as (_ & Hstatus & _); [reflexivity..|].
    apply (Hstatus 503 None); [reflexivity | discriminate].
  - destruct (@get_ai_risk_falls_back Sample.python
                (Sample.env_of (Main.Replied 200 (Some [])))
                Sample.tx_json (PFloat 100) (PStr "bob")
                (PStr "2024-01-01T00:00:00Z")) as [_ Hposted].
    destruct Hposted as (_ & _ & _ & _ & Habsent); [reflexivity..|].
    apply (Habsent []); reflexivity.
  - destruct (@get_ai_risk_falls_back Sample.python
                (Sample.env_of (Main.Replied 200 None))
                Sample.tx_json (PFloat 100) (PStr "bob")
                (PStr "2024-01-01T00:00:00Z")) as [_ Hposted].
    destruct Hposted as (_ & _ & Hunreadable & _); [reflexivity..|].
    apply Hunreadable. reflexivity.
  - destruct (@get_ai_risk_falls_back Sample.python Sample.env
                [("amount", PFloat 100)] PNone PNone PNone) as [Hexception _].
    apply Hexception. reflexivity.
Defined.

(** C10. A request whose amount exceeds 5,000,000 gets the score 95 from
    [generate_analysis], whatever the oracle answers and whatever the
    entropy and timing draws are, so the analysis is high and not secure;
    [sign_transaction] answers with the error 400 that carries this
    analysis, and no signature is exposed. *)
Theorem large_amount_is_rejected `{Builtins} (env : Main.Env) (st : Main.State)
    (request : Main.SignRequest) (algorithm : string) :
  (5000000 < Main.amount (Main.transaction request))%Q →
  let analysis :=
    {| Main.secure := false; Main.risk := "high"; Main.risk_score := 95 |} in
  Main.generate_analysis env (Main.tx_dict (Main.transaction request)) algorithm
  = Some analysis
  ∧ (Main.sign_transaction env st request).2
    = Some (Main.HTTPException 400 (Main.DetailAnalysis analysis))
  ∧ Main.exposed_signature (Main.sign_transaction env st request).2 = None.
Proof.
  intros Hlarge analysis. split_and!.
  - by apply generate_analysis_large.
  - by apply sign_transaction_large.
  - by rewrite sign_transaction_large.
Qed.

Lemma large_amount_is_rejected_witness :
  (@Main.sign_transaction Sample.python Sample.env Main.initial
     {| Main.wallet_id := "alice";
        Main.transaction :=
          {| Main.amount := 5000001; Main.to := "bob"; Main.nonce := 1;
             Main.timestamp := "2024-01-01T00:00:00Z" |};
        Main.algorithm := "pqc"; Main.zkp := None |}).2
  = Some (Main.HTTPException 400
            (Main.DetailAnalysis
               {| Main.secure := false; Main.risk := "high";
                  Main.risk_score := 95 |})).
Proof.
  apply (@large_amount_is_rejected Sample.python Sample.env Main.initial _ "").
  reflexivity.
Defined.

(** C2, which the code does not meet. After "alice" has signed with
    [pqc], her recorded mode is PQC and the guard, asked about a classical
    signing, would report a downgrade. The gate does not ask it in the
    classical branch: her request with [classical] leaves the state as it
    is and is answered 201 with the ECDSA-SHA256 signature, the SHA-256
    digest of the canonical bytes. *)
Theorem classical_after_pqc_is_signed :
  let st1 :=
    (@Main.sign_transaction Sample.python Sample.env Main.initial
       Sample.alice_pqc).1 in
  let answer :=
    @Main.sign_transaction Sample.python Sample.env st1 Sample.alice_classical in
  Main.wallet_security_mode st1 !! "alice" = Some true
  ∧ Main.detect_downgrade (Main.wallet_security_mode st1) "alice" false
    = (true, Main.wallet_security_mode st1)
  ∧ answer.1 = st1
  ∧ Main.exposed_signature answer.2
    = Some "2af1fdc16f4acdd40ff762aa88803cb7fb3d5cbf632189dcd3dc2cc01aba645e"
  ∧ ∃ body, answer.2 = Some (Main.Created body)
            ∧ Main.r_algorithm body = "ECDSA-SHA256"
            ∧ Main.r_status body = "success".
Proof.
  intros st1 answer.
  assert (Main.wallet_security_mode st1 !! "alice" = Some true) as Hmode
    by (by vm_compute).
  split_and!.
  - exact Hmode.
  - by apply main_downgrade_detected.
  - unfold answer. by rewrite sign_transaction_classical.
  - by vm_compute.
  - unfold answer. rewrite sign_transaction_classical by reflexivity.
    eexists. split; [vm_compute; reflexivity|]. by split.
Qed.

(** C3. Every analysis that [analyze_transaction] or [generate_analysis]
    returns is not secure when its risk is high. *)
Theorem high_risk_is_not_secure `{Builtins} (seen : gset string) (jitter : Q)
    (tx : pydict) (signature algorithm : string)
    (zkp : option ZkpLayer.zkp_dict) (env : Main.Env) (tx_dict : pydict)
    (algo_name : string) (a : Analyzer.Analysis) (g : Main.Analysis) :
  ((Analyzer.analyze_transaction seen jitter tx signature algorithm zkp).2 = Some a →
   Analyzer.risk a = "high" → Analyzer.secure a = false)
  ∧ (Main.generate_analysis env tx_dict algo_name = Some g →
     Main.risk g = "high" → Main.secure g = false).
Proof.
  split.
  - apply analyze_transaction_consistent.
  - apply generate_analysis_consistent.
Qed.

Lemma high_risk_is_not_secure_witness :
  Analyzer.secure
    {| Analyzer.secure := false; Analyzer.risk := "high";
       Analyzer.issues := ["High timing side-channel risk"];
       Analyzer.metrics := {| Analyzer.entropy := 0.875;
                              Analyzer.timing_leak_score := 0.979 |} |} = false
  ∧ Main.secure
      {| Main.secure := false; Main.risk := "high"; Main.risk_score := 80 |}
    = false.
Proof.
  pose proof (@high_risk_is_not_secure Sample.python ∅ 0.9 Sample.tx_json
                "5369676e6174757265" "pqc" None
                (Sample.env_of (Main.Replied 200 (Some [("risk_score", PInt 80)])))
                Sample.tx_json "ML-DSA-44"
                {| Analyzer.secure := false; Analyzer.risk := "high";
                   Analyzer.issues := ["High timing side-channel risk"];
                   Analyzer.metrics := {| Analyzer.entropy := 0.875;
                                          Analyzer.timing_leak_score := 0.979 |} |}
                {| Main.secure := false; Main.risk := "high";
                   Main.risk_score := 80 |}) as [Ha Hg].
  split.
  - apply Ha; [vm_compute; reflexivity | reflexivity].
  - apply Hg; [vm_compute; reflexivity | reflexivity].
Defined.

(** C7. The fraud alert is a function of the risk and the issues of the
    analysis: high gives fraud with probability 0.85, severity High and
    the issues joined by a comma and a space; medium gives fraud with
    probability 0.55, severity Medium and the fixed reason; any other risk
    gives no fraud, probability 0.1, severity Low and the fixed reason;
    two analyses with the same risk and issues get the same alert. *)
Theorem fraud_alert_table (a b : Analyzer.Analysis) :
  (Analyzer.risk a = "high" →
   FraudMapper.map_to_fraud_alert a
   = {| FraudMapper.fraud := true; FraudMapper.probability := 0.85;
        FraudMapper.severity := "High";
        FraudMapper.reason := Json.str_join ", " (Analyzer.issues a) |})
  ∧ (Analyzer.risk a = "medium" →
     FraudMapper.map_to_fraud_alert a
     = {| FraudMapper.fraud := true; FraudMapper.probability := 0.55;
          FraudMapper.severity := "Medium";
          FraudMapper.reason := "Suspicious entropy or timing pattern" |})
  ∧ (Analyzer.risk a ≠ "high" → Analyzer.risk a ≠ "medium" →
     FraudMapper.map_to_fraud_alert a
     = {| FraudMapper.fraud := false; FraudMapper.probability := 0.1;
          FraudMapper.severity := "Low";
          FraudMapper.reason := "Transaction appears normal" |})
  ∧ (Analyzer.risk a = Analyzer.risk b → Analyzer.issues a = Analyzer.issues b →
     FraudMapper.map_to_fraud_alert a = FraudMapper.map_to_fraud_alert b).
Proof.
  unfold FraudMapper.map_to_fraud_alert. split_and!.
  - by intros ->.
  - by intros ->.
  - intros Hh Hm. apply String.eqb_neq in Hh, Hm. by rewrite Hh, Hm.
  - by intros -> ->.
Qed.

Lemma fraud_alert_table_witness :
  FraudMapper.reason
    (FraudMapper.map_to_fraud_alert
       {| Analyzer.secure := false; Analyzer.risk := "high";
          Analyzer.issues := ["Replay attack detected";
                              "High timing side-channel risk"];
          Analyzer.metrics := {| Analyzer.entropy := 1;
                                 Analyzer.timing_leak_score := 0.9 |} |})
  = "Replay attack detected, High timing side-channel risk"
  ∧ FraudMapper.severity
      (FraudMapper.map_to_fraud_alert
         {| Analyzer.secure := true; Analyzer.risk := "medium";
            Analyzer.issues := ["Low message entropy"];
            Analyzer.metrics := {| Analyzer.entropy := 0.25;
                                   Analyzer.timing_leak_score := 0.1 |} |})
    = "Medium"
  ∧ FraudMapper.fraud
      (FraudMapper.map_to_fraud_alert
         {| Analyzer.secure := true; Analyzer.risk := "low";
            Analyzer.issues := [];
            Analyzer.metrics := {| Analyzer.entropy := 1;
                                   Analyzer.timing_leak_score := 0.1 |} |})
    = false
  ∧ FraudMapper.map_to_fraud_alert
      {| Analyzer.secure := true; Analyzer.risk := "medium";
         Analyzer.issues := ["Low message entropy"];
         Analyzer.metrics := {| Analyzer.entropy := 0.25;
                                Analyzer.timing_leak_score := 0.1 |} |}
    = FraudMapper.map_to_fraud_alert
        {| Analyzer.secure := false; Analyzer.risk := "medium";
           Analyzer.issues := ["Low message entropy"];
           Analyzer.metrics := {| Analyzer.entropy := 0.3125;
                                  Analyzer.timing_leak_score := 0.5 |} |}.
Proof.
  split_and!.
  - match goal with |- FraudMapper.reason (_ ?a) = _ =>
      destruct (fraud_alert_table a a) as (Hhigh & _) end.
    rewrite Hhigh by reflexivity. reflexivity.
  - match goal with |- FraudMapper.severity (_ ?a) = _ =>
      destruct (fraud_alert_table a a) as (_ & Hmedium & _) end.
    rewrite Hmedium by reflexivity. reflexivity.
  - match goal with |- FraudMapper.fraud (_ ?a) = _ =>
      destruct (fraud_alert_table a a) as (_ & _ & Hlow & _) end.
    rewrite Hlow by discriminate. reflexivity.
  - match goal with |- _ ?a = _ ?b =>
      destruct (fraud_alert_table a b) as (_ & _ & _ & Hsame) end.
    apply Hsame; reflexivity.
Defined.

(* ===================================================================== *)
(** * The end-to-end scenarios, with SHA-256 itself                       *)
(* ===================================================================== *)

(** Scenario 1: the first signing of "alice", with [pqc], records PQC and
    is answered 201. *)
Example scenario_first_pqc_signing :
  let answer :=
    @Main.sign_transaction Sample.python Sample.env Main.initial Sample.alice_pqc in
  Main.wallet_security_mode answer.1 !! "alice" = Some true
  ∧ Main.exposed_signature answer.2 = Some "5369676e6174757265"
  ∧ Main.r_algorithm <$> (match answer.2 with
                          | Some (Main.Created body) => Some body
                          | _ => None
                          end) = Some "ML-DSA-44".
Proof. by vm_compute. Qed.

(** Scenario 3: the pair submitted again is a replay, and with the digest
    of this transaction, which has 14 distinct symbols, the risk is high. *)
Example scenario_replayed_pair :
  let first :=
    @Analyzer.analyze_transaction Sample.python ∅ 0.1 Sample.tx_json
      "5369676e6174757265" "pqc" None in
  let second :=
    @Analyzer.analyze_transaction Sample.python first.1 0.1 Sample.tx_json
      "5369676e6174757265" "pqc" None in
  @Analyzer.msg_hash Sample.python Sample.tx_json
  = "9abe5a2c5ec3b9e9169ef9e17aeb1bfe023ab23c6f47ba222313c3e5c1c0ee29"
  ∧ Analyzer.risk <$> first.2 = Some "low"
  ∧ second.1 = first.1
  ∧ Analyzer.risk <$> second.2 = Some "high"
  ∧ Analyzer.secure <$> second.2 = Some false
  ∧ Analyzer.issues <$> second.2 = Some ["Replay attack detected"].
Proof. by vm_compute. Qed.

(* ===================================================================== *)
(** * Further properties: the timing score                                *)
(* ===================================================================== *)

Lemma Qltb_ge (x y : Q) : Py.Qltb x y = false ↔ (y <= x)%Q.
Proof.
  unfold Py.Qltb. rewrite negb_false_iff. apply Qle_bool_iff.
Qed.

Lemma base_nonneg (n : nat) : (0 <= inject_Z (Z.of_nat n) / 1000)%Q.
Proof. unfold Qle. cbn. lia. Qed.

Lemma base_bound (n bound : nat) :
  (n <= bound)%nat →
  (inject_Z (Z.of_nat n) / 1000 <= inject_Z (Z.of_nat bound) / 1000)%Q.
Proof. intros Hn. unfold Qle. cbn. lia. Qed.

(** X1. With a jitter that is not negative, as [random.uniform(0.0, 0.4)]
    draws it, the timing score lies between 0 and 1; it never exceeds 1. *)
Theorem timing_leak_score_bounds `{Builtins} (jitter : Q) (tx : pydict) :
  (Sidechannel.timing_leak_score jitter tx <= 1)%Q
  ∧ ((0 <= jitter)%Q → (0 <= Sidechannel.timing_leak_score jitter tx)%Q).
Proof.
  unfold Sidechannel.timing_leak_score, Sidechannel.min_one.
  set (base := (inject_Z _ / 1000)%Q).
  destruct (Py.Qltb (base + jitter) 1) eqn:E.
  - apply Qltb_lt in E. split; [by apply Qlt_le_weak|].
    intros Hj. rewrite <- (Qplus_0_r 0).
    apply Qplus_le_compat; [apply base_nonneg | done].
  - split; [apply Qle_refl | by intros _].
Qed.

Lemma timing_leak_score_bounds_witness :
  (0 <= @Sidechannel.timing_leak_score Sample.python 0.1 Sample.tx_json)%Q
  ∧ (0 <= @Sidechannel.timing_leak_score Sample.python 0.4
            [("memo", PStr "a long text that is put into the payload")])%Q.
Proof.
  split.
  - apply (@timing_leak_score_bounds Sample.python 0.1 Sample.tx_json).
    unfold Qle. cbn. lia.
  - apply (@timing_leak_score_bounds Sample.python 0.4). unfold Qle. cbn. lia.
Defined.

(** X2. With a jitter of at most 0.4, a transaction whose text has fewer
    than 450 characters never reaches the high band of the timing signal:
    the signal leaves [secure] as it is. With fewer than 50 characters the
    signal changes nothing. *)
Theorem short_transaction_timing `{Builtins} (jitter : Q) (tx : pydict) (v : Analyzer.verdict) :
  (jitter <= 0.4)%Q →
  let timing := Sidechannel.timing_leak_score jitter tx in
  ((String.length (dict_str tx) < 450)%nat →
   Py.Qltb 0.85 timing = false
   ∧ Analyzer.v_secure (Analyzer.timing_signal timing v) = Analyzer.v_secure v)
  ∧ ((String.length (dict_str tx) < 50)%nat →
     Analyzer.timing_signal timing v = v).
Proof.
  intros Hj timing.
  assert (∀ bound : nat, (String.length (dict_str tx) <= bound)%nat →
          (timing <= inject_Z (Z.of_nat bound) / 1000 + 0.4)%Q) as Hbound.
  { intros bound Hlen. unfold timing, Sidechannel.timing_leak_score,
      Sidechannel.min_one.
    set (base := (inject_Z (Z.of_nat (String.length _)) / 1000)%Q).
    assert (base + jitter <= inject_Z (Z.of_nat bound) / 1000 + 0.4)%Q as Hsum.
    { apply Qplus_le_compat; [by apply base_bound | done]. }
    destruct (Py.Qltb (base + jitter) 1) eqn:E; [done|].
    apply Qltb_ge in E. by apply (Qle_trans _ (base + jitter)). }
  split.
  - intros Hlen. specialize (Hbound 449%nat ltac:(lia)).
    assert (Py.Qltb 0.85 timing = false) as Hhigh.
    { apply Qltb_ge. eapply Qle_trans; [exact Hbound|]. unfold Qle. cbn. lia. }
    split; [done|]. unfold Analyzer.timing_signal. rewrite Hhigh.
    by destruct (Py.Qltb 0.45 timing).
  - intros Hlen. specialize (Hbound 49%nat ltac:(lia)).
    assert (timing <= 0.45)%Q as H45.
    { eapply Qle_trans; [exact Hbound|]. unfold Qle. cbn. lia. }
    unfold Analyzer.timing_signal.
    assert (Py.Qltb 0.85 timing = false) as ->.
    { apply Qltb_ge. eapply Qle_trans; [exact H45|]. unfold Qle. cbn. lia. }
    by rewrite (proj2 (Qltb_ge 0.45 timing) H45).
Qed.

Lemma short_transaction_timing_witness :
  Py.Qltb 0.85 (@Sidechannel.timing_leak_score Sample.python 0.4 Sample.tx_json)
  = false
  ∧ Analyzer.timing_signal
      (@Sidechannel.timing_leak_score Sample.python 0.4 [("a", PInt 1)])
      Analyzer.start = Analyzer.start.
Proof.
  split.
  - apply (@short_transaction_timing Sample.python 0.4 Sample.tx_json Analyzer.start).
    + unfold Qle. cbn. lia.
    + vm_compute. lia.
  - apply (@short_transaction_timing Sample.python 0.4 [("a", PInt 1)] Analyzer.start).
    + unfold Qle. cbn. lia.
    + vm_compute. lia.
Defined.

(* ===================================================================== *)
(** * Further properties: the analyzer                                    *)
(* ===================================================================== *)

Lemma coherent_start : Shape.coherent Analyzer.start.
Proof. split_and!; [by left | done | done]. Qed.

Lemma coherent_after_issue (issues : list string) (x : string) (s : bool)
    (r : string) :
  r = "medium" ∨ r = "high" → Shape.coherent (Analyzer.Verdict (issues ++ [x]) s r).
Proof.
  intros Hr. split_and!; cbn.
  - destruct Hr as [-> | ->]; auto.
  - split.
    + intros ->. by destruct Hr.
    + intros Hnil. by destruct issues.
  - intros Hnil. by destruct issues.
Qed.

Lemma replay_signal_coherent b v :
  Shape.coherent v → Shape.coherent (Analyzer.replay_signal b v).
Proof. destruct b; [|done]. intros _. apply coherent_after_issue. by right. Qed.

Lemma entropy_signal_coherent e v :
  Shape.coherent v → Shape.coherent (Analyzer.entropy_signal e v).
Proof.
  intros Hv. unfold Analyzer.entropy_signal.
  destruct (Py.Qltb e 0.15); [apply coherent_after_issue; by right|].
  destruct (Py.Qltb e 0.35); [apply coherent_after_issue; by left|done].
Qed.

Lemma timing_signal_coherent t v :
  Shape.coherent v → Shape.coherent (Analyzer.timing_signal t v).
Proof.
  intros Hv. unfold Analyzer.timing_signal.
  destruct (Py.Qltb 0.85 t); [apply coherent_after_issue; by right|].
  destruct (Py.Qltb 0.45 t); [|done]. apply coherent_after_issue.
  destruct (String.eqb (Analyzer.v_risk v) "high") eqn:E; cbn; [|by left].
  right. by apply String.eqb_eq.
Qed.

Lemma zkp_signal_coherent r v :
  Shape.coherent v → Shape.coherent (Analyzer.zkp_signal r v).
Proof.
  intros Hv. unfold Analyzer.zkp_signal.
  destruct (negb r.1); [apply coherent_after_issue; by right|done].
Qed.

(** What each signal does to [secure]. *)
Lemma replay_signal_secure b v :
  Analyzer.v_secure (Analyzer.replay_signal b v) = Analyzer.v_secure v && negb b.
Proof. destruct b; cbn; [by rewrite andb_false_r | by rewrite andb_true_r]. Qed.

Lemma entropy_signal_secure e v :
  Analyzer.v_secure (Analyzer.entropy_signal e v)
  = Analyzer.v_secure v && negb (Py.Qltb e 0.15).
Proof.
  unfold Analyzer.entropy_signal.
  destruct (Py.Qltb e 0.15); cbn; [by rewrite andb_false_r|].
  rewrite andb_true_r. by destruct (Py.Qltb e 0.35).
Qed.

Lemma timing_signal_secure t v :
  Analyzer.v_secure (Analyzer.timing_signal t v)
  = Analyzer.v_secure v && negb (Py.Qltb 0.85 t).
Proof.
  unfold Analyzer.timing_signal.
  destruct (Py.Qltb 0.85 t); cbn; [by rewrite andb_false_r|].
  rewrite andb_true_r. by destruct (Py.Qltb 0.45 t).
Qed.

Lemma zkp_signal_secure r v :
  Analyzer.v_secure (Analyzer.zkp_signal r v) = Analyzer.v_secure v && r.1.
Proof.
  unfold Analyzer.zkp_signal.
  destruct r.1; cbn; [by rewrite andb_true_r | by rewrite andb_false_r].
Qed.

(** Issues are only appended. *)
Lemma replay_signal_appends b v :
  ∃ l, Analyzer.v_issues (Analyzer.replay_signal b v) = Analyzer.v_issues v ++ l.
Proof. destruct b; cbn; [eauto|]. exists []. by rewrite app_nil_r. Qed.

Lemma entropy_signal_appends e v :
  ∃ l, Analyzer.v_issues (Analyzer.entropy_signal e v) = Analyzer.v_issues v ++ l.
Proof.
  unfold Analyzer.entropy_signal.
  destruct (Py.Qltb e 0.15); cbn; [eauto|].
  destruct (Py.Qltb e 0.35); cbn; [eauto|]. exists []. by rewrite app_nil_r.
Qed.

Lemma timing_signal_appends t v :
  ∃ l, Analyzer.v_issues (Analyzer.timing_signal t v) = Analyzer.v_issues v ++ l.
Proof.
  unfold Analyzer.timing_signal.
  destruct (Py.Qltb 0.85 t); cbn; [eauto|].
  destruct (Py.Qltb 0.45 t); cbn; [eauto|]. exists []. by rewrite app_nil_r.
Qed.

Lemma zkp_signal_appends r v :
  ∃ l, Analyzer.v_issues (Analyzer.zkp_signal r v) = Analyzer.v_issues v ++ l.
Proof.
  unfold Analyzer.zkp_signal.
  destruct (negb r.1); cbn; [eauto|]. exists []. by rewrite app_nil_r.
Qed.

(** The verdict on which the analysis is built. *)
Lemma analyze_transaction_verdict `{Builtins} seen jitter tx signature algorithm
    zkp a :
  (Analyzer.analyze_transaction seen jitter tx signature algorithm zkp).2 = Some a →
  let v3 := Analyzer.timing_signal (Sidechannel.timing_leak_score jitter tx)
              (Analyzer.entropy_signal (Analyzer.hex_entropy (Analyzer.msg_hash tx))
                 (Analyzer.replay_signal
                    (Replay.detect_replay seen tx signature).1 Analyzer.start)) in
  ∃ v, Analyzer.secure a = Analyzer.v_secure v
       ∧ Analyzer.risk a = Analyzer.v_risk v
       ∧ Analyzer.issues a = Analyzer.v_issues v
       ∧ match zkp with
         | Some z => ∃ r, ZkpLayer.verify_zkp_attributes tx (Some z) = Some r
                          ∧ v = Analyzer.zkp_signal r v3
         | None => v = v3
         end.
Proof.
  intros Ha v3. revert Ha. rewrite analyze_transaction_signals. cbn [snd].
  fold v3. destruct zkp as [z|].
  - destruct (ZkpLayer.verify_zkp_attributes tx (Some z)) as [r|]; [|done].
    cbn. intros [= <-]. cbn. eauto 10.
  - cbn. intros [= <-]. cbn. eauto 10.
Qed.

Lemma analysis_secure_formula `{Builtins} (seen : gset string)
    (jitter : Q) (tx : pydict) (signature algorithm : string)
    (zkp : option ZkpLayer.zkp_dict) (a : Analyzer.Analysis) :
  (Analyzer.analyze_transaction seen jitter tx signature algorithm zkp).2 = Some a →
  Analyzer.secure a
  = negb (Replay.detect_replay seen tx signature).1
    && negb (Py.Qltb (Analyzer.hex_entropy (Analyzer.msg_hash tx)) 0.15)
    && negb (Py.Qltb 0.85 (Sidechannel.timing_leak_score jitter tx))
    && match zkp with
       | Some z => (default (true, "") (ZkpLayer.verify_zkp_attributes tx (Some z))).1
       | None => true
       end.
Proof.
  intros Ha. destruct (analyze_transaction_verdict _ _ _ _ _ _ _ Ha)
    as (v & -> & _ & _ & Hv).
  destruct zkp as [z|].
  - destruct Hv as (r & Hr & ->). rewrite Hr. cbn [default].
    by rewrite zkp_signal_secure, timing_signal_secure, entropy_signal_secure,
      replay_signal_secure.
  - subst v. rewrite andb_true_r.
    by rewrite timing_signal_secure, entropy_signal_secure, replay_signal_secure.
Qed.

(** X3. An analysis is secure exactly when no blocking signal fired: the
    pair was not seen before, the entropy is not below 0.15, the timing
    score is not above 0.85, and the ZKP, if one was given, passed. *)
Theorem secure_iff_no_blocking_signal `{Builtins} (seen : gset string)
    (jitter : Q) (tx : pydict) (signature algorithm : string)
    (zkp : option ZkpLayer.zkp_dict) (a : Analyzer.Analysis) :
  (Analyzer.analyze_transaction seen jitter tx signature algorithm zkp).2 = Some a →
  Analyzer.secure a
  = negb (Replay.detect_replay seen tx signature).1
    && negb (Py.Qltb (Analyzer.hex_entropy (Analyzer.msg_hash tx)) 0.15)
    && negb (Py.Qltb 0.85 (Sidechannel.timing_leak_score jitter tx))
    && match zkp with
       | Some z => (default (true, "") (ZkpLayer.verify_zkp_attributes tx (Some z))).1
       | None => true
       end.
Proof. apply analysis_secure_formula. Qed.

Lemma secure_iff_no_blocking_signal_witness :
  true = negb (@Replay.detect_replay Sample.python ∅ Sample.tx_json "5369676e6174757265").1
         && negb (Py.Qltb (Analyzer.hex_entropy
                             (@Analyzer.msg_hash Sample.python Sample.tx_json)) 0.15)
         && negb (Py.Qltb 0.85
                    (@Sidechannel.timing_leak_score Sample.python 0.1 Sample.tx_json))
         && true.
Proof.
  apply (@secure_iff_no_blocking_signal Sample.python ∅ 0.1 Sample.tx_json
           "5369676e6174757265" "pqc" None
           {| Analyzer.secure := true; Analyzer.risk := "low";
              Analyzer.issues := [];
              Analyzer.metrics := {| Analyzer.entropy := 0.875;
                                     Analyzer.timing_leak_score := 0.179 |} |}).
  vm_compute. reflexivity.
Defined.

Lemma analysis_coherent `{Builtins} (seen : gset string)
    (jitter : Q) (tx : pydict) (signature algorithm : string)
    (zkp : option ZkpLayer.zkp_dict) (a : Analyzer.Analysis) :
  (Analyzer.analyze_transaction seen jitter tx signature algorithm zkp).2 = Some a →
  (Analyzer.risk a = "low" ∨ Analyzer.risk a = "medium" ∨ Analyzer.risk a = "high")
  ∧ (Analyzer.risk a = "low" ↔ Analyzer.issues a = [])
  ∧ (Analyzer.issues a = [] → Analyzer.secure a = true).
Proof.
  intros Ha. destruct (analyze_transaction_verdict _ _ _ _ _ _ _ Ha)
    as (v & -> & -> & -> & Hv).
  assert (Shape.coherent v) as Hc; [|exact Hc].
  destruct zkp as [z|]; [destruct Hv as (r & _ & ->)|subst v];
    repeat first [ apply zkp_signal_coherent | apply timing_signal_coherent
                 | apply entropy_signal_coherent | apply replay_signal_coherent
                 | apply coherent_start ].
Qed.

(** X4. In every analysis the risk is low, medium or high; it is low
    exactly when there is no issue; and an analysis without issues is
    secure. *)
Theorem risk_low_iff_no_issue `{Builtins} (seen : gset string)
    (jitter : Q) (tx : pydict) (signature algorithm : string)
    (zkp : option ZkpLayer.zkp_dict) (a : Analyzer.Analysis) :
  (Analyzer.analyze_transaction seen jitter tx signature algorithm zkp).2 = Some a →
  (Analyzer.risk a = "low" ∨ Analyzer.risk a = "medium" ∨ Analyzer.risk a = "high")
  ∧ (Analyzer.risk a = "low" ↔ Analyzer.issues a = [])
  ∧ (Analyzer.issues a = [] → Analyzer.secure a = true).
Proof. apply analysis_coherent. Qed.

Lemma risk_low_iff_no_issue_witness :
  let a := {| Analyzer.secure := false; Analyzer.risk := "high";
              Analyzer.issues :=
                ["ZKP verification failed: amount_gt_zero mismatch"];
              Analyzer.metrics := {| Analyzer.entropy := 0.875;
                                     Analyzer.timing_leak_score := 0.179 |} |} in
  (Analyzer.risk a = "low" ↔ Analyzer.issues a = [])
  ∧ (Analyzer.issues a = [] → Analyzer.secure a = true).
Proof.
  intros a.
  destruct (@risk_low_iff_no_issue Sample.python ∅ 0.1 Sample.tx_json
              "5369676e6174757265" "pqc" (Some Sample.zkp_enable) a)
    as (_ & Hlow & Hsecure); [vm_compute; reflexivity|].
  split; [exact Hlow | exact Hsecure].
Defined.

Lemma analyze_transaction_records `{Builtins} seen jitter tx signature algorithm zkp :
  Replay.key tx signature
  ∈ (Analyzer.analyze_transaction seen jitter tx signature algorithm zkp).1
  ∧ seen ⊆ (Analyzer.analyze_transaction seen jitter tx signature algorithm zkp).1.
Proof.
  rewrite analyze_transaction_signals. cbn [fst].
  split; [apply detect_replay_records | apply detect_replay_grows].
Qed.

(** X5. Once a pair has been analyzed, whether the analysis came back or
    the ZKP layer raised, every later analysis of the same pair, whatever
    its algorithm, jitter and ZKP and whatever was analyzed between, is
    not secure, has a risk that is not low, and lists the replay first. *)
Theorem analyzed_pair_is_replay_afterwards `{Builtins} (seen later : gset string)
    (jitter jitter' : Q) (tx : pydict) (signature algorithm algorithm' : string)
    (zkp zkp' : option ZkpLayer.zkp_dict) (a : Analyzer.Analysis) :
  (Analyzer.analyze_transaction seen jitter tx signature algorithm zkp).1 ⊆ later →
  (Analyzer.analyze_transaction later jitter' tx signature algorithm' zkp').2
  = Some a →
  Analyzer.secure a = false
  ∧ Analyzer.risk a ≠ "low"
  ∧ head (Analyzer.issues a) = Some "Replay attack detected".
Proof.
  intros Hlater Ha.
  assert (Replay.key tx signature ∈ later) as Hseen.
  { destruct (analyze_transaction_records seen jitter tx signature algorithm zkp)
      as [Hk _]. by apply Hlater. }
  pose proof (analysis_secure_formula _ _ _ _ _ _ _ Ha) as Hsecure.
  destruct (analysis_coherent _ _ _ _ _ _ _ Ha) as (_ & Hlow & _).
  destruct (analyze_transaction_verdict _ _ _ _ _ _ _ Ha)
    as (v & _ & _ & Hissues & Hv).
  rewrite detect_replay_seen in Hsecure, Hv by done. cbn in Hsecure, Hv.
  assert (∃ l, Analyzer.issues a = "Replay attack detected" :: l) as [l Hl].
  { rewrite Hissues.
    destruct (entropy_signal_appends
                (Analyzer.hex_entropy (Analyzer.msg_hash tx))
                (Analyzer.Verdict ["Replay attack detected"] false "high"))
      as [l2 H2].
    destruct (timing_signal_appends (Sidechannel.timing_leak_score jitter' tx)
                (Analyzer.entropy_signal
                   (Analyzer.hex_entropy (Analyzer.msg_hash tx))
                   (Analyzer.Verdict ["Replay attack detected"] false "high")))
      as [l3 H3].
    destruct zkp' as [z|].
    - destruct Hv as (r & _ & ->).
      destruct (zkp_signal_appends r
                  (Analyzer.timing_signal (Sidechannel.timing_leak_score jitter' tx)
                     (Analyzer.entropy_signal
                        (Analyzer.hex_entropy (Analyzer.msg_hash tx))
                        (Analyzer.Verdict ["Replay attack detected"] false "high"))))
        as [l4 H4].
      rewrite H4, H3, H2. cbn. eauto.
    - subst v. rewrite H3, H2. cbn. eauto. }
  split_and!.
  - exact Hsecure.
  - intros Hrisk. apply Hlow in Hrisk. by rewrite Hl in Hrisk.
  - by rewrite Hl.
Qed.

Lemma analyzed_pair_is_replay_afterwards_witness :
  let a := {| Analyzer.secure := false; Analyzer.risk := "high";
              Analyzer.issues := ["Replay attack detected"];
              Analyzer.metrics := {| Analyzer.entropy := 0.875;
                                     Analyzer.timing_leak_score := 0.379 |} |} in
  Analyzer.secure a = false
  ∧ Analyzer.risk a ≠ "low"
  ∧ head (Analyzer.issues a) = Some "Replay attack detected".
Proof.
  intros a.
  apply (@analyzed_pair_is_replay_afterwards Sample.python ∅
           (@Analyzer.analyze_transaction Sample.python ∅ 0.1 Sample.tx_json
              "5369676e6174757265" "pqc" (Some Sample.zkp_enable)).1
           0.1 0.3 Sample.tx_json "5369676e6174757265" "pqc" "classical"
           (Some Sample.zkp_enable) None a); [reflexivity|].
  vm_compute. reflexivity.
Defined.

Lemma hex_entropy_below (msg_hash : string) (num den : Z) :
  (0 < den)%Z →
  Py.Qltb (Analyzer.hex_entropy msg_hash) (num # Z.to_pos den)
  = bool_decide (Z.of_nat (Shape.symbols msg_hash) * den < num * 16)%Z.
Proof.
  intros Hden. unfold Analyzer.hex_entropy. fold (Shape.symbols msg_hash).
  destruct (bool_decide _) eqn:E.
  - apply bool_decide_eq_true in E. apply Qltb_lt. unfold Qlt. cbn.
    rewrite Z2Pos.id by done. change (Z.pos (1 * 16)) with 16. lia.
  - apply bool_decide_eq_false in E. apply Qltb_ge. unfold Qle. cbn.
    rewrite Z2Pos.id by done. change (Z.pos (1 * 16)) with 16. lia.
Qed.

(** X6. The entropy signal in terms of the number of distinct symbols of
    the digest: with one or two symbols (or none) it records a very low
    entropy and blocks; with three, four or five it records a low entropy
    and sets the risk to medium, leaving [secure] as it is; with six or
    more it changes nothing. *)
Theorem entropy_signal_by_symbols (msg_hash : string) (v : Analyzer.verdict) :
  let e := Analyzer.hex_entropy msg_hash in
  ((Shape.symbols msg_hash <= 2)%nat →
   Analyzer.entropy_signal e v
   = Analyzer.Verdict (Analyzer.v_issues v ++ ["Very low message entropy"])
       false "high")
  ∧ ((3 <= Shape.symbols msg_hash <= 5)%nat →
     Analyzer.entropy_signal e v
     = Analyzer.Verdict (Analyzer.v_issues v ++ ["Low message entropy"])
         (Analyzer.v_secure v) "medium")
  ∧ ((6 <= Shape.symbols msg_hash)%nat → Analyzer.entropy_signal e v = v).
Proof.
  intros e. unfold Analyzer.entropy_signal.
  change 0.15%Q with (15 # Z.to_pos 100). change 0.35%Q with (35 # Z.to_pos 100).
  unfold e. rewrite !hex_entropy_below by lia.
  split_and!; intros Hk.
  - rewrite bool_decide_true by lia. done.
  - rewrite bool_decide_false by lia. rewrite bool_decide_true by lia. done.
  - rewrite !bool_decide_false by lia. done.
Qed.

Lemma entropy_signal_by_symbols_witness :
  Analyzer.entropy_signal
    (Analyzer.hex_entropy
       "aaaaaaaaaaaaaaaaaaaaaaaaaaaaaaaaaaaaaaaaaaaaaaaaaaaaaaaaaaaaaaaa")
    Analyzer.start
  = Analyzer.Verdict ["Very low message entropy"] false "high"
  ∧ Analyzer.entropy_signal (Analyzer.hex_entropy Sample.four_symbols)
      Analyzer.start
    = Analyzer.Verdict ["Low message entropy"] true "medium"
  ∧ Analyzer.entropy_signal
      (Analyzer.hex_entropy
         "9abe5a2c5ec3b9e9169ef9e17aeb1bfe023ab23c6f47ba222313c3e5c1c0ee29")
      Analyzer.start
    = Analyzer.start.
Proof.
  split_and!.
  - apply (entropy_signal_by_symbols
             "aaaaaaaaaaaaaaaaaaaaaaaaaaaaaaaaaaaaaaaaaaaaaaaaaaaaaaaaaaaaaaaa"
             Analyzer.start).
    vm_compute. lia.
  - apply (entropy_signal_by_symbols Sample.four_symbols Analyzer.start).
    vm_compute. lia.
  - apply (entropy_signal_by_symbols
             "9abe5a2c5ec3b9e9169ef9e17aeb1bfe023ab23c6f47ba222313c3e5c1c0ee29"
             Analyzer.start).
    vm_compute. lia.
Defined.

(** X7. The fraud alert of an analysis of the analyzer: without issues
    the alert is the low one and the analysis is secure; with an issue
    fraud is reported, with severity Medium or High; so every analysis
    that is not secure is reported as fraud. *)
Theorem fraud_alert_of_analysis `{Builtins} (seen : gset string)
    (jitter : Q) (tx : pydict) (signature algorithm : string)
    (zkp : option ZkpLayer.zkp_dict) (a : Analyzer.Analysis) :
  (Analyzer.analyze_transaction seen jitter tx signature algorithm zkp).2 = Some a →
  (Analyzer.issues a = [] →
   Analyzer.secure a = true
   ∧ FraudMapper.map_to_fraud_alert a
     = {| FraudMapper.fraud := false; FraudMapper.probability := 0.1;
          FraudMapper.severity := "Low";
          FraudMapper.reason := "Transaction appears normal" |})
  ∧ (Analyzer.issues a ≠ [] →
     FraudMapper.fraud (FraudMapper.map_to_fraud_alert a) = true
     ∧ (FraudMapper.severity (FraudMapper.map_to_fraud_alert a) = "Medium"
        ∨ FraudMapper.severity (FraudMapper.map_to_fraud_alert a) = "High"))
  ∧ (Analyzer.secure a = false →
     FraudMapper.fraud (FraudMapper.map_to_fraud_alert a) = true).
Proof.
  intros Ha. destruct (analysis_coherent _ _ _ _ _ _ _ Ha) as (Hlevel & Hlow & Hsec).
  assert (Analyzer.issues a ≠ [] →
          FraudMapper.fraud (FraudMapper.map_to_fraud_alert a) = true
          ∧ (FraudMapper.severity (FraudMapper.map_to_fraud_alert a) = "Medium"
             ∨ FraudMapper.severity (FraudMapper.map_to_fraud_alert a) = "High"))
    as Hissue.
  { intros Hne. unfold FraudMapper.map_to_fraud_alert.
    destruct Hlevel as [Hl | [-> | ->]]; cbn; auto.
    by apply Hlow in Hl. }
  split_and!.
  - intros Hnil. split; [by apply Hsec|].
    apply Hlow in Hnil. unfold FraudMapper.map_to_fraud_alert. by rewrite Hnil.
  - exact Hissue.
  - intros Hinsecure. apply Hissue. intros Hnil. apply Hsec in Hnil. congruence.
Qed.

Lemma fraud_alert_of_analysis_witness :
  let a := {| Analyzer.secure := false; Analyzer.risk := "high";
              Analyzer.issues := ["Replay attack detected"];
              Analyzer.metrics := {| Analyzer.entropy := 0.875;
                                     Analyzer.timing_leak_score := 0.379 |} |} in
  let b := {| Analyzer.secure := true; Analyzer.risk := "low";
              Analyzer.issues := [];
              Analyzer.metrics := {| Analyzer.entropy := 0.875;
                                     Analyzer.timing_leak_score := 0.179 |} |} in
  FraudMapper.fraud (FraudMapper.map_to_fraud_alert a) = true
  ∧ FraudMapper.severity (FraudMapper.map_to_fraud_alert b) = "Low".
Proof.
  intros a b. split.
  - destruct (@fraud_alert_of_analysis Sample.python
                {[ @Replay.key Sample.python Sample.tx_json "5369676e6174757265" ]}
                0.3 Sample.tx_json "5369676e6174757265" "classical" None a)
      as (_ & _ & Hinsecure); [vm_compute; reflexivity|].
    apply Hinsecure. reflexivity.
  - destruct (@fraud_alert_of_analysis Sample.python ∅ 0.1 Sample.tx_json
                "5369676e6174757265" "pqc" None b)
      as (Hclean & _); [vm_compute; reflexivity|].
    destruct Hclean as [_ Halert]; [reflexivity|]. by rewrite Halert.
Defined.

(** X8. An enabled ZKP that names [amount_gt_zero] among its attributes and
    its public inputs, on a transaction whose amount is not a number (a
    string, or null), makes the verification raise; the analysis then
    raises as well, after the replay guard has recorded the fingerprint. *)
Theorem zkp_raises_on_non_numeric_amount `{Builtins} (tx : pydict)
    (zkp : ZkpLayer.zkp_dict) (attrs : list pyval) (inputs : pydict)
    (seen : gset string) (jitter : Q) (signature algorithm : string) :
  ZkpLayer.field_truthy
    (default (ZkpLayer.FVal (PBool false)) (ZkpLayer.zget zkp "enable")) = true →
  default (ZkpLayer.FList []) (ZkpLayer.zget zkp "attributes") = ZkpLayer.FList attrs →
  default (ZkpLayer.FDict []) (ZkpLayer.zget zkp "public_inputs") = ZkpLayer.FDict inputs →
  existsb (Py.eqb (PStr "amount_gt_zero")) attrs = true →
  Py.has_key inputs "amount_gt_zero" = true →
  Py.num (Py.get_default tx "amount" (PInt 0)) = None →
  ZkpLayer.verify_zkp_attributes tx (Some zkp) = None
  ∧ (Analyzer.analyze_transaction seen jitter tx signature algorithm (Some zkp)).2
    = None
  ∧ Replay.key tx signature
    ∈ (Analyzer.analyze_transaction seen jitter tx signature algorithm (Some zkp)).1.
Proof.
  intros Hen Hat Hin Hattr Hinput Hamount.
  assert (ZkpLayer.verify_zkp_attributes tx (Some zkp) = None) as Hraise.
  { unfold ZkpLayer.verify_zkp_attributes.
    destruct zkp as [|p zkp]; [discriminate Hen|].
    rewrite Hen, Hat, Hin. cbn [negb ZkpLayer.contains ZkpLayer.field_get].
    rewrite Hattr, Hinput. cbn [negb mbind option_bind].
    unfold Py.gt_int. by rewrite Hamount. }
  split_and!.
  - done.
  - rewrite analyze_transaction_signals. cbn [snd]. by rewrite Hraise.
  - by destruct (analyze_transaction_records seen jitter tx signature algorithm
                   (Some zkp)).
Qed.

Lemma zkp_raises_on_non_numeric_amount_witness :
  ZkpLayer.verify_zkp_attributes
    [("amount", PStr "100"); ("to", PStr "bob")]
    (Some [("enable", ZkpLayer.FVal (PBool true));
           ("attributes", ZkpLayer.FList [PStr "amount_gt_zero"]);
           ("public_inputs", ZkpLayer.FDict [("amount_gt_zero", PBool true)])])
  = None.
Proof.
  apply (@zkp_raises_on_non_numeric_amount Sample.python
           [("amount", PStr "100"); ("to", PStr "bob")] _
           [PStr "amount_gt_zero"] [("amount_gt_zero", PBool true)]
           ∅ 0.1 "" "pqc"); reflexivity.
Defined.

(** X9. The ZKP layer looks at a transaction through three things only:
    whether its amount is positive, its [nonce] and its [to]. Two
    transactions that agree on these get the same verdict from every ZKP,
    whatever their timestamps and the sizes of their amounts. When the
    attributes are a list that names neither [nonce] nor [recipient], the
    sign of the amount alone decides: such a ZKP passes for one transaction
    exactly when it passes for any other with an amount of the same sign. *)
Theorem zkp_binds_three_fields (tx tx' : pydict) (zkp : option ZkpLayer.zkp_dict)
    (attrs : list pyval) :
  Py.gt_int (Py.get_default tx "amount" (PInt 0)) 0
  = Py.gt_int (Py.get_default tx' "amount" (PInt 0)) 0 →
  (Py.get tx "nonce" = Py.get tx' "nonce" → Py.get tx "to" = Py.get tx' "to" →
   ZkpLayer.verify_zkp_attributes tx zkp = ZkpLayer.verify_zkp_attributes tx' zkp)
  ∧ (∀ z, zkp = Some z →
     default (ZkpLayer.FList []) (ZkpLayer.zget z "attributes") = ZkpLayer.FList attrs →
     existsb (Py.eqb (PStr "nonce")) attrs = false →
     existsb (Py.eqb (PStr "recipient")) attrs = false →
     ZkpLayer.verify_zkp_attributes tx zkp = ZkpLayer.verify_zkp_attributes tx' zkp).
Proof.
  intros Hamount. split.
  - intros Hnonce Hto. unfold ZkpLayer.verify_zkp_attributes.
    by rewrite Hamount, Hnonce, Hto.
  - intros z -> Hat Hn Hr. unfold ZkpLayer.verify_zkp_attributes.
    destruct z as [|p z]; [done|].
    destruct (negb _); [done|]. rewrite Hat, Hamount.
    cbn [ZkpLayer.contains mbind option_bind]. rewrite Hn, Hr.
    destruct (negb (existsb _ attrs)); [done|].
    destruct (ZkpLayer.contains _ "amount_gt_zero") as [[]|]; cbn; [|done..].
    destruct (ZkpLayer.field_get _ "amount_gt_zero") as [c|]; cbn; [|done].
    destruct (Py.gt_int _ 0) as [b|]; cbn; [|done].
    by destruct (Py.neb c (PBool b)).
Qed.

Lemma zkp_binds_three_fields_witness :
  ZkpLayer.verify_zkp_attributes Sample.tx_json
    (Some [("enable", ZkpLayer.FVal (PBool true));
           ("attributes", ZkpLayer.FList [PStr "amount_gt_zero"]);
           ("public_inputs", ZkpLayer.FDict [("amount_gt_zero", PBool true);
                                             ("nonce", PInt 1)])])
  = ZkpLayer.verify_zkp_attributes
      [("amount", PFloat 250000); ("to", PStr "mallory"); ("nonce", PInt 77);
       ("timestamp", PStr "2030-01-01T00:00:00Z")]
      (Some [("enable", ZkpLayer.FVal (PBool true));
             ("attributes", ZkpLayer.FList [PStr "amount_gt_zero"]);
             ("public_inputs", ZkpLayer.FDict [("amount_gt_zero", PBool true);
                                               ("nonce", PInt 1)])])
  ∧ ZkpLayer.verify_zkp_attributes Sample.tx_json (Some Sample.zkp_enable)
    = ZkpLayer.verify_zkp_attributes
        [("amount", PInt 5); ("to", PStr "bob"); ("nonce", PInt 1)]
        (Some Sample.zkp_enable).
Proof.
  split.
  - destruct (zkp_binds_three_fields Sample.tx_json
                [("amount", PFloat 250000); ("to", PStr "mallory");
                 ("nonce", PInt 77); ("timestamp", PStr "2030-01-01T00:00:00Z")]
                (Some [("enable", ZkpLayer.FVal (PBool true));
                       ("attributes", ZkpLayer.FList [PStr "amount_gt_zero"]);
                       ("public_inputs",
                        ZkpLayer.FDict [("amount_gt_zero", PBool true);
                                        ("nonce", PInt 1)])])
                [PStr "amount_gt_zero"]) as [_ Hsign]; [reflexivity|].
    eapply Hsign; reflexivity.
  - destruct (zkp_binds_three_fields Sample.tx_json
                [("amount", PInt 5); ("to", PStr "bob"); ("nonce", PInt 1)]
                (Some Sample.zkp_enable) []) as [Hthree _]; [reflexivity|].
    apply Hthree; reflexivity.
Defined.

(* ===================================================================== *)
(** * Further properties: the gate of main.py                             *)
(* ===================================================================== *)

(** The state after a request, whatever the response. *)
Lemma sign_transaction_state `{Builtins} env st request :
  (Main.sign_transaction env st request).1
  = if String.eqb (Main.lower (Main.algorithm request)) "pqc"
    then {| Main.pqc_wallets :=
              match Main.pqc_wallets st !! Main.wallet_id request with
              | Some _ => Main.pqc_wallets st
              | None => <[Main.wallet_id request := Main.keypair env]>
                          (Main.pqc_wallets st)
              end;
            Main.wallet_security_mode :=
              <[Main.wallet_id request := true]> (Main.wallet_security_mode st) |}
    else st.
Proof.
  unfold Main.sign_transaction.
  destruct (String.eqb (Main.lower (Main.algorithm request)) "pqc").
  - rewrite detect_downgrade_pqc_call.
    destruct (Main.generate_analysis _ _ _) as [a|]; [|done].
    by destruct (String.eqb (Main.risk a) "high").
  - destruct (Main.generate_analysis _ _ _) as [a|]; [|done].
    by destruct (String.eqb (Main.risk a) "high").
Qed.

(** The response of a request: the analysis decides, the branch gives the
    signature and the name of the algorithm. *)
Lemma sign_transaction_response `{Builtins} env st request :
  let tx := Main.transaction request in
  let pqc := String.eqb (Main.lower (Main.algorithm request)) "pqc" in
  let algo_name := if pqc then Main.PQC_ALGO else "ECDSA-SHA256" in
  let stored :=
    default (Main.keypair env) (Main.pqc_wallets st !! Main.wallet_id request) in
  (Main.sign_transaction env st request).2
  = analysis ← Main.generate_analysis env (Main.tx_dict tx) algo_name;
    Some (if String.eqb (Main.risk analysis) "high"
          then Main.HTTPException 400 (Main.DetailAnalysis analysis)
          else Main.Created {|
                 Main.r_status := "success";
                 Main.r_signature :=
                   if pqc
                   then Main.oqs_sign env (Main.signer stored) (Main.canonical tx)
                   else sha256_hexdigest (Main.canonical tx);
                 Main.r_algorithm := algo_name;
                 Main.r_transaction_hash := sha256_hexdigest (Main.canonical tx);
                 Main.r_analysis := analysis;
                 Main.r_timestamp := Main.now_iso env;
                 Main.r_wallet_id := Main.wallet_id request |}).
Proof.
  intros tx pqc algo_name stored. unfold Main.sign_transaction.
  fold tx. fold pqc. unfold algo_name, stored. destruct pqc.
  - rewrite detect_downgrade_pqc_call.
    assert (Main.signer
              (default (Main.keypair env)
                 (match Main.pqc_wallets st !! Main.wallet_id request with
                  | Some _ => Main.pqc_wallets st
                  | None => <[Main.wallet_id request := Main.keypair env]>
                              (Main.pqc_wallets st)
                  end !! Main.wallet_id request))
            = Main.signer
                (default (Main.keypair env)
                   (Main.pqc_wallets st !! Main.wallet_id request))) as ->.
    { destruct (Main.pqc_wallets st !! Main.wallet_id request) eqn:E.
      - by rewrite E.
      - by rewrite lookup_insert_eq. }
    destruct (Main.generate_analysis _ _ _) as [a|]; [|done].
    cbn. by destruct (String.eqb (Main.risk a) "high").
  - destruct (Main.generate_analysis _ _ _) as [a|]; [|done].
    cbn. by destruct (String.eqb (Main.risk a) "high").
Qed.

(** The score and the level of an analysis of the gate. *)
Lemma generate_analysis_graded `{Builtins} env tx_dict algorithm a :
  Main.generate_analysis env tx_dict algorithm = Some a →
  Main.risk_score a <= 95
  ∧ (Main.risk a = "high" ↔ 70 < Main.risk_score a)
  ∧ (Main.risk a = "medium" ↔ 40 < Main.risk_score a <= 70)
  ∧ (Main.risk a = "low" ↔ Main.risk_score a <= 40)
  ∧ Main.secure a = negb (bool_decide (70 < Main.risk_score a)).
Proof.
  unfold Main.generate_analysis.
  destruct (Py.get tx_dict "amount") as [v|]; [|done]. cbn.
  destruct (Py.gt_int v 5000000) as [large|]; [|done]. cbn.
  intros [= <-]. cbn.
  set (score := Z.min _ 95). assert (score <= 95) by apply Z.le_min_r.
  destruct (70 <? score) eqn:E70; [apply Z.ltb_lt in E70|apply Z.ltb_ge in E70].
  - rewrite bool_decide_true by done. split_and!; try done; split; try done; lia.
  - rewrite bool_decide_false by lia.
    destruct (40 <? score) eqn:E40; [apply Z.ltb_lt in E40|apply Z.ltb_ge in E40];
      split_and!; try done; split; try done; lia.
Qed.

Lemma generate_analysis_small `{Builtins} env (tx : Main.Transaction) algorithm :
  Py.Qltb 5000000 (Main.amount tx) = false →
  ∃ a bump,
    Main.generate_analysis env (Main.tx_dict tx) algorithm = Some a
    ∧ (bump = 0 ∨ bump = 10 ∨ bump = 20)
    ∧ Main.risk_score a
      = Z.min (Main.get_ai_risk env (Main.tx_dict tx) + bump) 95.
Proof.
  intros Hsmall. unfold Main.generate_analysis. cbn [Py.get Main.tx_dict String.eqb].
  cbn. unfold Py.gt_int. cbn. change (inject_Z 5000000) with 5000000%Q.
  rewrite Hsmall.
  destruct (Py.Qltb 0.06 (Main.timing_draw env)),
    (Py.Qltb (Main.entropy_draw env) 0.9); eexists _, _;
    (split; [reflexivity|]); cbn.
  - split; [right; right; reflexivity | f_equal; lia].
  - split; [right; left; reflexivity | done].
  - split; [right; left; reflexivity | done].
  - split; [left; reflexivity | f_equal; lia].
Qed.

(** X10. Every analysis of [generate_analysis] has a score of at most 95,
    and its level follows the score: high above 70, medium above 40 and up
    to 70, low up to 40; it is secure exactly when the score is at most
    70. *)
Theorem generate_analysis_levels `{Builtins} (env : Main.Env) (tx_dict : pydict)
    (algorithm : string) (a : Main.Analysis) :
  Main.generate_analysis env tx_dict algorithm = Some a →
  Main.risk_score a <= 95
  ∧ (Main.risk a = "high" ↔ 70 < Main.risk_score a)
  ∧ (Main.risk a = "medium" ↔ 40 < Main.risk_score a <= 70)
  ∧ (Main.risk a = "low" ↔ Main.risk_score a <= 40)
  ∧ Main.secure a = negb (bool_decide (70 < Main.risk_score a)).
Proof. apply generate_analysis_graded. Qed.

Lemma generate_analysis_levels_witness :
  let a := {| Main.secure := true; Main.risk := "medium"; Main.risk_score := 65 |} in
  Main.risk_score a <= 95 ∧ (Main.risk a = "medium" ↔ 40 < Main.risk_score a <= 70).
Proof.
  intros a.
  destruct (@generate_analysis_levels Sample.python
              (Sample.env_of (Main.Replied 200 (Some [("risk_score", PInt 65)])))
              Sample.tx_json "ML-DSA-44" a) as (Hcap & _ & Hmedium & _);
    [vm_compute; reflexivity|].
  split; [exact Hcap | exact Hmedium].
Defined.

(** X11. The gate fails open. For an amount of at most 5,000,000, a request
    is signed whenever the risk lookup gives at most 50, and its risk is
    low whenever the lookup gives at most 20; so when the oracle cannot be
    reached or read, every such request is answered 201 with risk low,
    whatever the random draws. *)
Theorem low_oracle_score_is_signed `{Builtins} (env : Main.Env) (st : Main.State)
    (request : Main.SignRequest) :
  let tx := Main.transaction request in
  Py.Qltb 5000000 (Main.amount tx) = false →
  (Main.get_ai_risk env (Main.tx_dict tx) <= 50 →
   ∃ body, (Main.sign_transaction env st request).2 = Some (Main.Created body)
           ∧ (Main.get_ai_risk env (Main.tx_dict tx) <= 20 →
              Main.risk (Main.r_analysis body) = "low"))
  ∧ (Main.ask_oracle env (Main.tx_dict tx) = None →
     ∃ body, (Main.sign_transaction env st request).2 = Some (Main.Created body)
             ∧ Main.risk (Main.r_analysis body) = "low"
             ∧ Main.secure (Main.r_analysis body) = true).
Proof.
  intros tx Hsmall.
  assert (Main.get_ai_risk env (Main.tx_dict tx) <= 50 →
          ∃ body, (Main.sign_transaction env st request).2 = Some (Main.Created body)
                  ∧ (Main.get_ai_risk env (Main.tx_dict tx) <= 20 →
                     Main.risk (Main.r_analysis body) = "low"
                     ∧ Main.secure (Main.r_analysis body) = true)) as Hsigned.
  { intros H50. rewrite sign_transaction_response. cbn zeta. subst tx.
    set (algo := if String.eqb _ "pqc" then Main.PQC_ALGO else "ECDSA-SHA256").
    destruct (generate_analysis_small env (Main.transaction request) algo Hsmall)
      as (a & bump & Ha & Hbump & Hscore).
    destruct (generate_analysis_graded _ _ _ _ Ha)
      as (_ & Hhigh & _ & Hlow & Hsec).
    rewrite Ha. cbn [mbind option_bind].
    assert (String.eqb (Main.risk a) "high" = false) as ->.
    { apply String.eqb_neq. intros Hr. apply Hhigh in Hr. lia. }
    eexists. split; [reflexivity|]. cbn [Main.r_analysis]. intros H20. split.
    - apply Hlow. lia.
    - rewrite Hsec. rewrite bool_decide_false by lia. done. }
  split.
  - intros H50. destruct (Hsigned H50) as (body & Hbody & Hlow).
    exists body. split; [done|]. intros H20. by apply Hlow.
  - intros Hfail.
    assert (Main.get_ai_risk env (Main.tx_dict tx) = 10) as H10
      by by apply get_ai_risk_on_exception.
    destruct Hsigned as (body & Hbody & Hlow); [lia|].
    exists body. split; [done|]. apply Hlow. lia.
Qed.

Lemma low_oracle_score_is_signed_witness :
  ∃ body,
    (@Main.sign_transaction Sample.python (Sample.env_of Main.Raised) Main.initial
       Sample.alice_classical).2 = Some (Main.Created body)
    ∧ Main.risk (Main.r_analysis body) = "low"
    ∧ Main.secure (Main.r_analysis body) = true.
Proof.
  apply (@low_oracle_score_is_signed Sample.python (Sample.env_of Main.Raised)
           Main.initial Sample.alice_classical); reflexivity.
Defined.

(** The fields of a 201 response that follow from the branch. *)
Lemma created_response_fields `{Builtins} env st request body :
  (Main.sign_transaction env st request).2 = Some (Main.Created body) →
  Main.r_transaction_hash body
  = sha256_hexdigest (Main.canonical (Main.transaction request))
  ∧ Main.r_wallet_id body = Main.wallet_id request
  ∧ (String.eqb (Main.lower (Main.algorithm request)) "pqc" = true →
     Main.r_algorithm body = "ML-DSA-44"
     ∧ Main.r_signature body
       = Main.oqs_sign env
           (Main.signer
              (default (Main.keypair env)
                 (Main.pqc_wallets st !! Main.wallet_id request)))
           (Main.canonical (Main.transaction request)))
  ∧ (String.eqb (Main.lower (Main.algorithm request)) "pqc" = false →
     Main.r_algorithm body = "ECDSA-SHA256"
     ∧ Main.r_signature body = Main.r_transaction_hash body).
Proof.
  rewrite sign_transaction_response. cbn zeta.
  destruct (Main.generate_analysis env _ _) as [a|]; [|done].
  cbn. destruct (String.eqb (Main.risk a) "high"); [done|].
  intros [= <-]. cbn. split_and!; try done; by intros ->.
Qed.

(** X12. What a 201 response carries: an analysis that is secure, with a
    risk that is not high and a score of at most 70, for an amount of at
    most 5,000,000; the SHA-256 digest of the canonical bytes as
    transaction hash; and the wallet id of the request. In the PQC branch
    the algorithm is ML-DSA-44 and the signature is made with the signer
    stored for the wallet, or with the fresh one when there was none; in
    the other branch the algorithm is ECDSA-SHA256 and the signature is
    the transaction hash itself. *)
Theorem created_response_content `{Builtins} (env : Main.Env) (st : Main.State)
    (request : Main.SignRequest) (body : Main.Signed) :
  let tx := Main.transaction request in
  let message := Main.canonical tx in
  (Main.sign_transaction env st request).2 = Some (Main.Created body) →
  Main.secure (Main.r_analysis body) = true
  ∧ Main.risk (Main.r_analysis body) ≠ "high"
  ∧ Main.risk_score (Main.r_analysis body) <= 70
  ∧ Py.Qltb 5000000 (Main.amount tx) = false
  ∧ Main.r_transaction_hash body = sha256_hexdigest message
  ∧ Main.r_wallet_id body = Main.wallet_id request
  ∧ (String.eqb (Main.lower (Main.algorithm request)) "pqc" = true →
     Main.r_algorithm body = "ML-DSA-44"
     ∧ Main.r_signature body
       = Main.oqs_sign env
           (Main.signer
              (default (Main.keypair env)
                 (Main.pqc_wallets st !! Main.wallet_id request)))
           message)
  ∧ (String.eqb (Main.lower (Main.algorithm request)) "pqc" = false →
     Main.r_algorithm body = "ECDSA-SHA256"
     ∧ Main.r_signature body = Main.r_transaction_hash body).
Proof.
  intros tx message. rewrite sign_transaction_response. cbn zeta.
  subst message tx. set (tx := Main.transaction request).
  set (pqc := String.eqb _ "pqc").
  destruct (Main.generate_analysis env (Main.tx_dict tx) _) as [a|] eqn:Ha; [|done].
  cbn. destruct (String.eqb (Main.risk a) "high") eqn:Hrisk; [done|].
  intros [= <-]. cbn.
  destruct (generate_analysis_graded _ _ _ _ Ha) as (_ & Hhigh & _ & _ & Hsec).
  apply String.eqb_neq in Hrisk.
  assert (Main.risk_score a <= 70) as H70.
  { destruct (decide (70 < Main.risk_score a)) as [Hgt|]; [|lia].
    by apply Hhigh in Hgt. }
  split_and!; try done.
  - rewrite Hsec. by rewrite bool_decide_false by lia.
  - destruct (Py.Qltb 5000000 (Main.amount tx)) eqn:Hlarge; [|done].
    apply Qltb_lt in Hlarge.
    rewrite (generate_analysis_large env tx _ Hlarge) in Ha.
    injection Ha as <-. cbn in H70. lia.
  - by intros ->.
  - by intros ->.
Qed.

Lemma created_response_content_witness :
  let body :=
    {| Main.r_status := "success";
       Main.r_signature :=
         "2af1fdc16f4acdd40ff762aa88803cb7fb3d5cbf632189dcd3dc2cc01aba645e";
       Main.r_algorithm := "ECDSA-SHA256";
       Main.r_transaction_hash :=
         "2af1fdc16f4acdd40ff762aa88803cb7fb3d5cbf632189dcd3dc2cc01aba645e";
       Main.r_analysis :=
         {| Main.secure := true; Main.risk := "low"; Main.risk_score := 10 |};
       Main.r_timestamp := "2024-01-01T00:00:01Z";
       Main.r_wallet_id := "alice" |} in
  Main.r_algorithm body = "ECDSA-SHA256"
  ∧ Main.r_signature body = Main.r_transaction_hash body.
Proof.
  intros body.
  destruct (@created_response_content Sample.python Sample.env Main.initial
              Sample.alice_classical body) as (_ & _ & _ & _ & _ & _ & _ & Hclassical);
    [vm_compute; reflexivity|].
  apply Hclassical. reflexivity.
Defined.

(** X13. What a request does to the state, whatever its response, a
    rejection for risk included. A request outside the PQC branch leaves
    the state as it is. A request in the PQC branch records the mode PQC
    for its wallet and leaves the wallet with a key pair: the one it had,
    or the fresh one; the entries of all other wallets stay as they are. *)
Theorem sign_transaction_state_effects `{Builtins} (env : Main.Env)
    (st : Main.State) (request : Main.SignRequest) :
  let st' := (Main.sign_transaction env st request).1 in
  let w := Main.wallet_id request in
  (String.eqb (Main.lower (Main.algorithm request)) "pqc" = false → st' = st)
  ∧ (String.eqb (Main.lower (Main.algorithm request)) "pqc" = true →
     Main.wallet_security_mode st' !! w = Some true
     ∧ Main.pqc_wallets st' !! w
       = Some (default (Main.keypair env) (Main.pqc_wallets st !! w))
     ∧ ∀ other, other ≠ w →
         Main.pqc_wallets st' !! other = Main.pqc_wallets st !! other
         ∧ Main.wallet_security_mode st' !! other
           = Main.wallet_security_mode st !! other).
Proof.
  intros st' w. unfold st'. rewrite sign_transaction_state. fold w.
  split; intros ->; [done|]. cbn. split_and!.
  - by rewrite lookup_insert_eq.
  - destruct (Main.pqc_wallets st !! w) eqn:E; cbn; [done|].
    by rewrite lookup_insert_eq.
  - intros other Hne. rewrite lookup_insert_ne by done. split; [|done].
    destruct (Main.pqc_wallets st !! w); [done|]. by rewrite lookup_insert_ne.
Qed.

Lemma sign_transaction_state_effects_witness :
  let rejected :=
    {| Main.wallet_id := "alice";
       Main.transaction :=
         {| Main.amount := 5000001; Main.to := "bob"; Main.nonce := 1;
            Main.timestamp := "2024-01-01T00:00:00Z" |};
       Main.algorithm := "PQC"; Main.zkp := None |} in
  let st' := (@Main.sign_transaction Sample.python Sample.env Main.initial rejected).1 in
  Main.wallet_security_mode st' !! "alice" = Some true
  ∧ Main.pqc_wallets st' !! "alice" = Some (Main.keypair Sample.env)
  ∧ (@Main.sign_transaction Sample.python Sample.env Main.initial
       Sample.alice_classical).1 = Main.initial.
Proof.
  intros rejected st'.
  destruct (@sign_transaction_state_effects Sample.python Sample.env Main.initial
              rejected) as [_ Hpqc].
  destruct Hpqc as (Hmode & Hwallet & _); [reflexivity|].
  destruct (@sign_transaction_state_effects Sample.python Sample.env Main.initial
              Sample.alice_classical) as [Hclassical _].
  split_and!; [exact Hmode | exact Hwallet | apply Hclassical; reflexivity].
Defined.

Lemma run_cons `{Builtins} st env request rest :
  Routes.run st ((env, request) :: rest)
  = ((Routes.run (Main.sign_transaction env st request).1 rest).1,
     (Main.sign_transaction env st request).2
     :: (Routes.run (Main.sign_transaction env st request).1 rest).2).
Proof.
  cbn [Routes.run]. destruct (Main.sign_transaction env st request) as [st' r].
  cbn. by destruct (Routes.run st' rest).
Qed.

Lemma pqc_ids_cons env request rest :
  Routes.pqc_ids ((env, request) :: rest)
  = (if String.eqb (Main.lower (Main.algorithm request)) "pqc"
     then {[ Main.wallet_id request ]} else ∅) ∪ Routes.pqc_ids rest.
Proof.
  unfold Routes.pqc_ids. rewrite filter_cons. cbn [snd].
  destruct (String.eqb (Main.lower (Main.algorithm request)) "pqc") eqn:E.
  - rewrite decide_True by done. cbn. done.
  - rewrite decide_False by done. by rewrite (left_id_L ∅ (∪)).
Qed.

Lemma wallet_entry_is_permanent_mode `{Builtins}
    (requests : list (Main.Env * Main.SignRequest)) (st : Main.State) (w : string) :
  Main.wallet_security_mode st !! w = Some true →
  Main.wallet_security_mode (Routes.run st requests).1 !! w = Some true.
Proof.
  revert st. induction requests as [|[env request] rest IH]; intros st; [done|].
  rewrite run_cons. cbn [fst]. intros Hm. apply IH.
  rewrite sign_transaction_state.
  destruct (String.eqb (Main.lower (Main.algorithm request)) "pqc"); [|done].
  cbn [Main.wallet_security_mode].
  destruct (decide (Main.wallet_id request = w)) as [->|Hne].
  - by rewrite lookup_insert_eq.
  - by rewrite lookup_insert_ne.
Qed.

Lemma wallet_entry_is_permanent_key `{Builtins}
    (requests : list (Main.Env * Main.SignRequest)) (st : Main.State)
    (w : string) (k : Main.Wallet) :
  Main.pqc_wallets st !! w = Some k →
  Main.pqc_wallets (Routes.run st requests).1 !! w = Some k.
Proof.
  revert st. induction requests as [|[env request] rest IH]; intros st; [done|].
  rewrite run_cons. cbn [fst]. intros Hk. apply IH.
  rewrite sign_transaction_state.
  destruct (String.eqb (Main.lower (Main.algorithm request)) "pqc"); [|done].
  cbn [Main.pqc_wallets].
  destruct (decide (Main.wallet_id request = w)) as [->|Hne].
  - by rewrite Hk.
  - destruct (Main.pqc_wallets st !! Main.wallet_id request); [done|].
    by rewrite lookup_insert_ne.
Qed.

(** X14. A key pair stored for a wallet is never replaced and a recorded
    PQC mode is never lost, over any run of requests. *)
Theorem wallet_entry_is_permanent `{Builtins}
    (requests : list (Main.Env * Main.SignRequest)) (st : Main.State)
    (w : string) (k : Main.Wallet) :
  (Main.pqc_wallets st !! w = Some k →
   Main.pqc_wallets (Routes.run st requests).1 !! w = Some k)
  ∧ (Main.wallet_security_mode st !! w = Some true →
     Main.wallet_security_mode (Routes.run st requests).1 !! w = Some true).
Proof.
  split.
  - apply wallet_entry_is_permanent_key.
  - apply wallet_entry_is_permanent_mode.
Qed.

Lemma wallet_entry_is_permanent_witness :
  let st :=
    (@Main.sign_transaction Sample.python Sample.env Main.initial Sample.alice_pqc).1 in
  let other :=
    {| Main.post := fun _ => Main.Raised; Main.entropy_draw := 0.9;
       Main.timing_draw := 0.05;
       Main.keypair := {| Main.signer := "sk2"; Main.public_key := "pk2" |};
       Main.oqs_sign := fun _ _ => "00"; Main.now_iso := "" |} in
  Main.pqc_wallets
    (@Routes.run Sample.python st
       [(other, Sample.alice_pqc); (other, Sample.alice_classical)]).1 !! "alice"
  = Some (Main.keypair Sample.env).
Proof.
  intros st other.
  apply (@wallet_entry_is_permanent Sample.python
           [(other, Sample.alice_pqc); (other, Sample.alice_classical)] st "alice").
  reflexivity.
Defined.

(** X15. Over any run of requests the wallets with a key pair are those
    the run started with and those of its PQC requests, rejected ones
    included, and the same holds for the wallets with a recorded mode; the
    mode of every wallet of a PQC request is PQC. From the empty state,
    [/health] reports as many wallets as the PQC requests had distinct
    wallet ids, and there is one response per request. *)
Theorem run_registers_pqc_wallets `{Builtins}
    (requests : list (Main.Env * Main.SignRequest)) (st : Main.State)
    (now_iso : string) :
  dom (Main.pqc_wallets (Routes.run st requests).1)
  = dom (Main.pqc_wallets st) ∪ Routes.pqc_ids requests
  ∧ dom (Main.wallet_security_mode (Routes.run st requests).1)
    = dom (Main.wallet_security_mode st) ∪ Routes.pqc_ids requests
  ∧ (∀ w, w ∈ Routes.pqc_ids requests →
       Main.wallet_security_mode (Routes.run st requests).1 !! w = Some true)
  ∧ Routes.h_wallets (Routes.health (Routes.run Main.initial requests).1 now_iso)
    = size (Routes.pqc_ids requests)
  ∧ length (Routes.run st requests).2 = length requests.
Proof.
  assert (∀ st,
    dom (Main.pqc_wallets (Routes.run st requests).1)
    = dom (Main.pqc_wallets st) ∪ Routes.pqc_ids requests
    ∧ dom (Main.wallet_security_mode (Routes.run st requests).1)
      = dom (Main.wallet_security_mode st) ∪ Routes.pqc_ids requests
    ∧ (∀ w, w ∈ Routes.pqc_ids requests →
         Main.wallet_security_mode (Routes.run st requests).1 !! w = Some true)
    ∧ length (Routes.run st requests).2 = length requests) as Hrun.
  { clear st. induction requests as [|[env request] rest IH]; intros st.
    - cbn. split_and!; [set_solver..| |done]. intros w Hw. set_solver.
    - rewrite run_cons, pqc_ids_cons. cbn [fst snd length].
      destruct (IH (Main.sign_transaction env st request).1)
        as (IHw & IHm & IHt & IHl).
      rewrite IHw, IHm, IHl. clear IHw IHm IHl.
      pose proof (wallet_entry_is_permanent_mode rest
                    (Main.sign_transaction env st request).1) as Hkeep.
      rewrite sign_transaction_state in *.
      destruct (String.eqb (Main.lower (Main.algorithm request)) "pqc").
      + cbn [Main.pqc_wallets Main.wallet_security_mode] in *.
        split_and!; [| |intros w Hw|done].
        * destruct (Main.pqc_wallets st !! Main.wallet_id request) eqn:E.
          -- apply elem_of_dom_2 in E. set_solver.
          -- rewrite dom_insert_L. set_solver.
        * rewrite dom_insert_L. set_solver.
        * apply elem_of_union in Hw as [Hw|Hw]; [|by apply IHt].
          apply elem_of_singleton in Hw as ->. apply Hkeep.
          by rewrite lookup_insert_eq.
      + split_and!; [set_solver..| |done]. intros w Hw. apply IHt. set_solver. }
  destruct (Hrun st) as (Hw & Hm & Ht & Hl).
  split_and!; try done.
  unfold Routes.health. cbn [Routes.h_wallets].
  rewrite <- size_dom. destruct (Hrun Main.initial) as (-> & _).
  cbn. by rewrite dom_empty_L, (left_id_L ∅ (∪)).
Qed.

Lemma run_registers_pqc_wallets_witness :
  Main.wallet_security_mode
    (@Routes.run Sample.python Main.initial
       [(Sample.env, Sample.alice_classical); (Sample.env, Sample.alice_pqc)]).1
    !! "alice" = Some true.
Proof.
  destruct (@run_registers_pqc_wallets Sample.python
              [(Sample.env, Sample.alice_classical); (Sample.env, Sample.alice_pqc)]
              Main.initial "") as (_ & _ & Hmode & _).
  apply Hmode. vm_compute. reflexivity.
Defined.

(* ===================================================================== *)
(** * Further properties: [/verify]                                       *)
(* ===================================================================== *)

(** X16. With an algorithm other than ML-DSA-44, verification looks at
    neither the wallet nor the state: the signature is verified exactly
    when it is the SHA-256 digest of the canonical bytes, so the digest
    itself verifies for every wallet id. A signature that [/sign] returned
    outside the PQC branch verifies, in any state, with the algorithm and
    the wallet id of the response. *)
Theorem classical_verification `{Builtins}
    (venv : Routes.VerifyEnv) (st st' : Main.State) (wallet_id wallet_id' : string)
    (tx : Main.Transaction) (signature algorithm : string)
    (env : Main.Env) (request : Main.SignRequest) (body : Main.Signed) :
  (algorithm ≠ "ML-DSA-44" →
   Routes.verify_signature venv st wallet_id tx signature algorithm
   = Routes.verify_signature venv st' wallet_id' tx signature algorithm
   ∧ (Routes.verify_signature venv st wallet_id tx signature algorithm
      = Some (Routes.Verified true (Routes.verify_now_iso venv))
      ↔ signature = sha256_hexdigest (Main.canonical tx))
   ∧ Routes.verify_signature venv st wallet_id tx
       (sha256_hexdigest (Main.canonical tx)) algorithm
     = Some (Routes.Verified true (Routes.verify_now_iso venv)))
  ∧ (String.eqb (Main.lower (Main.algorithm request)) "pqc" = false →
     (Main.sign_transaction env st request).2 = Some (Main.Created body) →
     Routes.verify_signature venv st' (Main.r_wallet_id body)
       (Main.transaction request) (Main.r_signature body) (Main.r_algorithm body)
     = Some (Routes.Verified true (Routes.verify_now_iso venv))).
Proof.
  assert (∀ alg s w sigma,
            alg ≠ "ML-DSA-44" →
            Routes.verify_signature venv s w tx sigma alg
            = Some (Routes.Verified
                      (String.eqb sigma (sha256_hexdigest (Main.canonical tx)))
                      (Routes.verify_now_iso venv))) as Hplain.
  { intros alg s w sigma Halg. unfold Routes.verify_signature.
    by rewrite (proj2 (String.eqb_neq alg Main.PQC_ALGO) Halg). }
  split.
  - intros Halg. rewrite !Hplain by done. split_and!.
    + done.
    + split.
      * intros [= Heq]. by apply String.eqb_eq.
      * intros ->. by rewrite String.eqb_refl.
    + by rewrite String.eqb_refl.
  - intros Hbranch Hsigned.
    destruct (created_response_fields env st request body Hsigned)
      as (Hhash & Hwallet & _ & Hclassical).
    destruct (Hclassical Hbranch) as [Halg Hsig].
    unfold Routes.verify_signature. rewrite Halg, Hsig, Hhash. cbn.
    by rewrite String.eqb_refl.
Qed.

Lemma classical_verification_witness :
  @Routes.verify_signature Sample.python
    {| Routes.oqs_verify := fun _ _ _ => false; Routes.verify_now_iso := "" |}
    Main.initial "mallory" Sample.tx
    "2af1fdc16f4acdd40ff762aa88803cb7fb3d5cbf632189dcd3dc2cc01aba645e"
    "ECDSA-SHA256"
  = Some (Routes.Verified true "").
Proof.
  destruct (@classical_verification Sample.python
              {| Routes.oqs_verify := fun _ _ _ => false;
                 Routes.verify_now_iso := "" |}
              Main.initial Main.initial "alice" "mallory" Sample.tx
              "2af1fdc16f4acdd40ff762aa88803cb7fb3d5cbf632189dcd3dc2cc01aba645e"
              "ECDSA-SHA256" Sample.env Sample.alice_classical
              {| Main.r_status := "success";
                 Main.r_signature :=
                   "2af1fdc16f4acdd40ff762aa88803cb7fb3d5cbf632189dcd3dc2cc01aba645e";
                 Main.r_algorithm := "ECDSA-SHA256";
                 Main.r_transaction_hash :=
                   "2af1fdc16f4acdd40ff762aa88803cb7fb3d5cbf632189dcd3dc2cc01aba645e";
                 Main.r_analysis :=
                   {| Main.secure := true; Main.risk := "low";
                      Main.risk_score := 10 |};
                 Main.r_timestamp := "2024-01-01T00:00:01Z";
                 Main.r_wallet_id := "alice" |}) as [_ Hround].
  apply Hround; [reflexivity | vm_compute; reflexivity].
Defined.

(** X17. With the algorithm ML-DSA-44, verification answers 404 for a
    wallet without a key pair, whatever the signature; for a wallet with
    one it raises when the signature is not hexadecimal, and otherwise
    returns what the verifier says about the canonical bytes, the decoded
    signature and the stored public key. The name [pqc], which [/sign]
    takes for this branch, is not the name of the algorithm here: with it
    the signature is compared with the SHA-256 digest. *)
Theorem pqc_verification_cases `{Builtins}
    (venv : Routes.VerifyEnv) (st : Main.State) (wallet_id : string)
    (tx : Main.Transaction) (signature : string) (wallet : Main.Wallet)
    (signature_bytes : list N) :
  (Main.pqc_wallets st !! wallet_id = None →
   Routes.verify_signature venv st wallet_id tx signature "ML-DSA-44"
   = Some (Routes.VerifyException 404 "Wallet not found"))
  ∧ (Main.pqc_wallets st !! wallet_id = Some wallet →
     (Hex.fromhex signature = None →
      Routes.verify_signature venv st wallet_id tx signature "ML-DSA-44" = None)
     ∧ (Hex.fromhex signature = Some signature_bytes →
        Routes.verify_signature venv st wallet_id tx signature "ML-DSA-44"
        = Some (Routes.Verified
                  (Routes.oqs_verify venv (Main.canonical tx) signature_bytes
                     (Main.public_key wallet))
                  (Routes.verify_now_iso venv))))
  ∧ Routes.verify_signature venv st wallet_id tx signature "pqc"
    = Some (Routes.Verified
              (String.eqb signature (sha256_hexdigest (Main.canonical tx)))
              (Routes.verify_now_iso venv)).
Proof.
  unfold Routes.verify_signature. cbn [String.eqb Main.PQC_ALGO].
  change (String.eqb "ML-DSA-44" Main.PQC_ALGO) with true.
  change (String.eqb "pqc" Main.PQC_ALGO) with false. cbn beta iota.
  split_and!.
  - by intros ->.
  - intros ->. split; by intros ->.
  - done.
Qed.

Lemma pqc_verification_cases_witness :
  let venv := {| Routes.oqs_verify := fun _ bytes _ => bool_decide (bytes = [83; 105]%N);
                 Routes.verify_now_iso := "" |} in
  let st := (@Main.sign_transaction Sample.python Sample.env Main.initial
               Sample.alice_pqc).1 in
  @Routes.verify_signature Sample.python venv st "bob" Sample.tx "5369" "ML-DSA-44"
  = Some (Routes.VerifyException 404 "Wallet not found")
  ∧ @Routes.verify_signature Sample.python venv st "alice" Sample.tx "53 6g"
      "ML-DSA-44" = None
  ∧ @Routes.verify_signature Sample.python venv st "alice" Sample.tx "53 69 "
      "ML-DSA-44" = Some (Routes.Verified true "").
Proof.
  intros venv st. split_and!.
  - destruct (@pqc_verification_cases Sample.python
                venv st "bob" Sample.tx "5369" (Main.keypair Sample.env) [])
      as (Habsent & _).
    apply Habsent. reflexivity.
  - destruct (@pqc_verification_cases Sample.python
                venv st "alice" Sample.tx "53 6g" (Main.keypair Sample.env) [])
      as (_ & Hpresent & _).
    destruct Hpresent as [Hraise _]; [reflexivity|]. apply Hraise. reflexivity.
  - destruct (@pqc_verification_cases Sample.python
                venv st "alice" Sample.tx "53 69 " (Main.keypair Sample.env)
                [83; 105]%N)
      as (_ & Hpresent & _).
    destruct Hpresent as [_ Hbytes]; [reflexivity|].
    rewrite Hbytes by reflexivity. reflexivity.
Defined.





(* ===================================================================== *)
(** * Further properties: [/generate-hash] and payload.py                 *)
(* ===================================================================== *)

(** X19. The NFT hash does not separate its three fields: the text that is
    hashed joins them with a bar that the fields may contain themselves,
    so moving a piece between name and description, or between description
    and image data, across a bar gives the same hash. *)
Theorem generate_hash_fields_run_together `{Payload.Sha3}
    (name piece description image_data now_iso : string) :
  Routes.generate_hash
    {| Routes.name := name +:+ "|" +:+ piece; Routes.description := description;
       Routes.image_data := image_data |} now_iso
  = Routes.generate_hash
      {| Routes.name := name; Routes.description := piece +:+ "|" +:+ description;
         Routes.image_data := image_data |} now_iso
  ∧ Routes.generate_hash
      {| Routes.name := name; Routes.description := description +:+ "|" +:+ piece;
         Routes.image_data := image_data |} now_iso
    = Routes.generate_hash
        {| Routes.name := name; Routes.description := description;
           Routes.image_data := piece +:+ "|" +:+ image_data |} now_iso.
Proof.
  unfold Routes.generate_hash, Routes.combined. cbn.
  split; f_equal; f_equal; by rewrite !app_assoc_string.
Qed.

(* ===================================================================== *)
(** * Further properties: runs of the replay guard                        *)
(* ===================================================================== *)

(** X20. Over a run of calls the replay guard flags exactly the repeats: a
    call is a replay exactly when its fingerprint was in the set at the
    start or belongs to an earlier call of the run; and the set at the end
    is the set at the start with the fingerprints of all calls. *)
Theorem replay_run_flags_repeats `{Builtins} (calls : list (pydict * string))
    (seen : gset string) (j : nat) (tx : pydict) (signature : string) :
  (Replay.run seen calls).2 = seen ∪ fingerprints calls
  ∧ length (Replay.run seen calls).1 = length calls
  ∧ (calls !! j = Some (tx, signature) →
     (Replay.run seen calls).1 !! j
     = Some (bool_decide
               (Replay.key tx signature ∈ seen ∪ fingerprints (take j calls)))).
Proof.
  revert seen j. induction calls as [|[tx0 s0] calls IH]; intros seen j.
  - cbn. split_and!; [unfold fingerprints; set_solver|done|done].
  - cbn [Replay.run].
    destruct (Replay.detect_replay seen tx0 s0) as [b seen'] eqn:Hstep.
    assert (seen' = {[ Replay.key tx0 s0 ]} ∪ seen
            ∧ b = bool_decide (Replay.key tx0 s0 ∈ seen)) as [-> ->].
    { revert Hstep. unfold Replay.detect_replay.
      destruct (bool_decide (Replay.key tx0 s0 ∈ seen)) eqn:Hin;
        [apply bool_decide_eq_true in Hin|].
      - intros [= <- <-]. split; [set_solver|done].
      - intros [= <- <-]. split; done. }
    destruct j as [|j].
    + destruct (IH ({[ Replay.key tx0 s0 ]} ∪ seen) 0%nat) as (IHs & IHl & _).
      destruct (Replay.run _ calls) as [bs seen''].
      cbn in *. split_and!.
      * rewrite IHs. unfold fingerprints. cbn. set_solver.
      * by rewrite IHl.
      * intros [= <- <-]. f_equal. apply bool_decide_ext.
        unfold fingerprints. cbn. set_solver.
    + destruct (IH ({[ Replay.key tx0 s0 ]} ∪ seen) j) as (IHs & IHl & IHj).
      destruct (Replay.run _ calls) as [bs seen''].
      cbn in *. split_and!.
      * rewrite IHs. unfold fingerprints. cbn. set_solver.
      * by rewrite IHl.
      * intros Hj. etrans; [exact (IHj Hj)|]. f_equal. apply bool_decide_ext.
        unfold fingerprints. cbn. set_solver.
Qed.

Lemma replay_run_flags_repeats_witness :
  (@Replay.run Sample.python ∅
     [(Sample.tx_json, "aa"); (Sample.tx_json, "bb"); (Sample.tx_json, "aa")]).1
    !! 2%nat = Some true
  ∧ (@Replay.run Sample.python ∅
       [(Sample.tx_json, "aa"); (Sample.tx_json, "bb"); (Sample.tx_json, "aa")]).1
      !! 1%nat = Some false.
Proof.
  split.
  - destruct (@replay_run_flags_repeats Sample.python
                [(Sample.tx_json, "aa"); (Sample.tx_json, "bb"); (Sample.tx_json, "aa")]
                ∅ 2 Sample.tx_json "aa") as (_ & _ & Hj).
    rewrite Hj by reflexivity. f_equal.
  - destruct (@replay_run_flags_repeats Sample.python
                [(Sample.tx_json, "aa"); (Sample.tx_json, "bb"); (Sample.tx_json, "aa")]
                ∅ 1 Sample.tx_json "bb") as (_ & _ & Hj).
    rewrite Hj by reflexivity. f_equal.
Defined.

(* ===================================================================== *)
(** * Further properties: the name of the algorithm                       *)
(* ===================================================================== *)

Lemma lower_char_is (c target upper : ascii) :
  Main.lower_char target = target →
  Main.lower_char upper = target →
  (∀ x, Main.lower_char x = target → x = target ∨ x = upper) →
  Main.lower_char c = target ↔ c = target ∨ c = upper.
Proof. intros Ht Hu Hall. split; [apply Hall | by intros [-> | ->]]. Qed.

Lemma lower_char_p (c : ascii) :
  Main.lower_char c = "p"%char ↔ c = "p"%char ∨ c = "P"%char.
Proof.
  apply lower_char_is; [done..|].
  intros [[] [] [] [] [] [] [] []]; cbn; intros [=]; auto.
Qed.

Lemma lower_char_q (c : ascii) :
  Main.lower_char c = "q"%char ↔ c = "q"%char ∨ c = "Q"%char.
Proof.
  apply lower_char_is; [done..|].
  intros [[] [] [] [] [] [] [] []]; cbn; intros [=]; auto.
Qed.

Lemma lower_char_c (c : ascii) :
  Main.lower_char c = "c"%char ↔ c = "c"%char ∨ c = "C"%char.
Proof.
  apply lower_char_is; [done..|].
  intros [[] [] [] [] [] [] [] []]; cbn; intros [=]; auto.
Qed.

Lemma lower_is_pqc (s : string) :
  String.eqb (Main.lower s) "pqc" = true ↔ s ∈ pqc_spellings.
Proof.
  rewrite String.eqb_eq. unfold pqc_spellings. split.
  - destruct s as [|a [|b [|c [|d s]]]]; cbn; try discriminate.
    intros [= Ha Hb Hc].
    apply lower_char_p in Ha. apply lower_char_q in Hb. apply lower_char_c in Hc.
    destruct Ha as [-> | ->], Hb as [-> | ->], Hc as [-> | ->];
      repeat first [ apply list_elem_of_here | apply list_elem_of_further ].
  - intros Hs. repeat (apply elem_of_cons in Hs as [-> | Hs]; [done|]).
    by apply elem_of_nil in Hs.
Qed.

(** X21. [/sign] takes the PQC branch for the eight spellings of [pqc] in
    upper and lower case and for no other name: a 201 response names
    ML-DSA-44 exactly for them, and for every other name, the name
    ML-DSA-44 itself included, it names ECDSA-SHA256 and carries the
    SHA-256 digest as signature. *)
Theorem algorithm_names `{Builtins} (env : Main.Env) (st : Main.State)
    (request : Main.SignRequest) (body : Main.Signed) :
  (Main.sign_transaction env st request).2 = Some (Main.Created body) →
  (Main.r_algorithm body = "ML-DSA-44" ↔ Main.algorithm request ∈ pqc_spellings)
  ∧ (Main.algorithm request ∉ pqc_spellings →
     Main.r_algorithm body = "ECDSA-SHA256"
     ∧ Main.r_signature body
       = sha256_hexdigest (Main.canonical (Main.transaction request))).
Proof.
  intros Hsigned.
  destruct (created_response_fields env st request body Hsigned)
    as (Hhash & _ & Hpqc & Hclassical).
  destruct (String.eqb (Main.lower (Main.algorithm request)) "pqc") eqn:E.
  - assert (Main.algorithm request ∈ pqc_spellings) by by apply lower_is_pqc.
    destruct Hpqc as [Halg _]; [done|]. split; [done|]. by intros Hnot.
  - assert (Main.algorithm request ∉ pqc_spellings) as Hnot.
    { intros Hin. apply lower_is_pqc in Hin. congruence. }
    destruct Hclassical as [Halg Hsig]; [done|]. split.
    + rewrite Halg. split; [discriminate | done].
    + intros _. split; [done|]. by rewrite Hsig, Hhash.
Qed.

Lemma algorithm_names_witness :
  let request :=
    {| Main.wallet_id := "alice"; Main.transaction := Sample.tx;
       Main.algorithm := "ML-DSA-44"; Main.zkp := None |} in
  ∃ body,
    (@Main.sign_transaction Sample.python Sample.env Main.initial request).2
    = Some (Main.Created body)
    ∧ Main.r_algorithm body = "ECDSA-SHA256"
    ∧ Main.r_signature body
      = "2af1fdc16f4acdd40ff762aa88803cb7fb3d5cbf632189dcd3dc2cc01aba645e".
Proof.
  intros request. eexists. split; [vm_compute; reflexivity|].
  match goal with |- Main.r_algorithm ?b = _ ∧ _ =>
    destruct (@algorithm_names Sample.python Sample.env Main.initial request b)
      as [_ Hother]; [vm_compute; reflexivity|] end.
  destruct Hother as [Halg Hsig].
  - unfold pqc_spellings. intros Hin.
    repeat (apply elem_of_cons in Hin as [Hin | Hin]; [discriminate Hin|]).
    by apply elem_of_nil in Hin.
  - split; [exact Halg | reflexivity].
Defined.

(* ===================================================================== *)
(** * Further properties: the texts that are signed and hashed            *)
(* ===================================================================== *)

Lemma append_cons (c : ascii) (s r : string) :
  String c s +:+ r = String c (s +:+ r).
Proof. reflexivity. Qed.

Lemma append_nil (r : string) : "" +:+ r = r.
Proof. reflexivity. Qed.













(** X24. The payload hash is taken over the sorted-key dump with the default
    separators: it does not depend on the order in which the items of the
    dictionary were inserted, it hashes the text the analyzer takes its
    entropy from, and that text is never the canonical byte string that is
    signed, whatever the transaction (with a printed amount that holds no
    blank). *)
Theorem payload_hash_text `{Builtins} `{Payload.Sha3}
    (d1 d2 : pydict) (tx : Main.Transaction) :
  (NoDup (Py.keys d1) → d1 ≡ₚ d2 →
   Payload.canonical_payload_hash d1 = Payload.canonical_payload_hash d2)
  ∧ Payload.canonical_payload_hash (Main.tx_dict tx)
    = Payload.sha3_256_hexdigest (Main.tx_text ", " ": " tx)
  ∧ Payload.canonical_payload_hash d1
    = Payload.sha3_256_hexdigest (Analyzer.hashed_text d1)
  ∧ (Json.has Json.blank (float_repr (Main.amount tx)) = false →
     Json.dumps_default (Main.tx_dict tx) ≠ Main.canonical tx).
Proof.
  unfold Payload.canonical_payload_hash, Analyzer.hashed_text,
    Json.dumps_default, Main.canonical.
  split_and!.
  - intros Hnd Hperm. by rewrite (dumps_order_free _ _ d1 d2).
  - by rewrite dumps_tx.
  - done.
  - intros Hblank. rewrite !dumps_tx. unfold Main.tx_text. intros Heq.
    apply (inj (String.app "{")) in Heq.
    apply (inj (String.app (Json.quoted "amount"))) in Heq.
    rewrite !append_cons, !append_nil in Heq. injection Heq as Heq.
    destruct (float_repr (Main.amount tx)) as [|c r] eqn:Hr.
    + rewrite ?append_cons, ?append_nil in Heq. discriminate Heq.
    + rewrite ?append_cons in Heq. injection Heq as <- _.
      cbn in Hblank. discriminate Hblank.
Qed.

Lemma payload_hash_text_witness :
  @Payload.canonical_payload_hash Sample.python
    {| Payload.sha3_256_hexdigest := fun s => s |} Sample.tx_json
  = @Payload.canonical_payload_hash Sample.python
      {| Payload.sha3_256_hexdigest := fun s => s |} Sample.tx_json_reordered
  ∧ @Json.dumps_default Sample.python Sample.tx_json
    ≠ @Main.canonical Sample.python Sample.tx.
Proof.
  destruct (@payload_hash_text Sample.python
              {| Payload.sha3_256_hexdigest := fun s => s |}
              Sample.tx_json Sample.tx_json_reordered Sample.tx)
    as (Horder & _ & _ & Hdiffer).
  split.
  - apply Horder.
    + apply (bool_decide_unpack _). vm_compute. exact I.
    + symmetry. apply (reverse_Permutation Sample.tx_json).
  - apply Hdiffer. reflexivity.
Defined.

(* ===================================================================== *)
(** * Further properties: the replay verdict and the digest               *)
(* ===================================================================== *)

(** X25. The analysis of a pair whose fingerprint is in the set has a
    high risk and is not secure whenever the digest of the transaction
    has at most two or at least six distinct symbols. More generally a
    risk that is high after the entropy signal is returned high, with
    [secure] false: the timing and the ZKP signal never lower it. *)
Theorem replay_verdict_by_symbols `{Builtins} (seen : gset string)
    (jitter : Q) (tx : pydict) (signature algorithm : string)
    (zkp : option ZkpLayer.zkp_dict) (a : Analyzer.Analysis) :
  let v2 := Analyzer.entropy_signal (Analyzer.hex_entropy (Analyzer.msg_hash tx))
              (Analyzer.replay_signal
                 (Replay.detect_replay seen tx signature).1 Analyzer.start) in
  (Analyzer.analyze_transaction seen jitter tx signature algorithm zkp).2 = Some a →
  (Replay.key tx signature ∈ seen →
   (Shape.symbols (Analyzer.msg_hash tx) <= 2
    ∨ 6 <= Shape.symbols (Analyzer.msg_hash tx))%nat →
   Analyzer.risk a = "high" ∧ Analyzer.secure a = false)
  ∧ (Analyzer.v_risk v2 = "high" →
     Analyzer.risk a = "high" ∧ Analyzer.secure a = false).
Proof.
  intros v2 Ha. split.
  - intros Hseen Hk.
    apply (replayed_pair_outside_middle_band seen jitter tx signature algorithm
             zkp a Hseen); [|exact Ha].
    change 0.15%Q with (15 # Z.to_pos 100). change 0.35%Q with (35 # Z.to_pos 100).
    rewrite !hex_entropy_below by lia.
    destruct Hk as [Hk | Hk].
    + left. apply bool_decide_eq_true. lia.
    + right. apply bool_decide_eq_false. lia.
  - intros Hhigh.
    by apply (high_after_entropy_signal_stays seen jitter tx signature algorithm zkp).
Qed.

Lemma replay_verdict_by_symbols_witness :
  let a := {| Analyzer.secure := false; Analyzer.risk := "high";
              Analyzer.issues := ["Replay attack detected"];
              Analyzer.metrics := {| Analyzer.entropy := 0.875;
                                     Analyzer.timing_leak_score := 0.179 |} |} in
  (@Analyzer.analyze_transaction Sample.python
     {[ @Replay.key Sample.python Sample.tx_json "5369676e6174757265" ]}
     0.1 Sample.tx_json "5369676e6174757265" "pqc" None).2 = Some a
  ∧ Analyzer.risk a = "high" ∧ Analyzer.secure a = false.
Proof.
  intros a.
  assert ((@Analyzer.analyze_transaction Sample.python
             {[ @Replay.key Sample.python Sample.tx_json "5369676e6174757265" ]}
             0.1 Sample.tx_json "5369676e6174757265" "pqc" None).2 = Some a)
    as Ha by (vm_compute; reflexivity).
  split; [exact Ha|].
  destruct (@replay_verdict_by_symbols Sample.python _ _ _ _ _ _ a Ha)
    as [Hreplay _].
  apply Hreplay.
  - apply elem_of_singleton. reflexivity.
  - right. vm_compute. lia.
Defined.
